(** * Astryx Insights analytics bot: the store, the aggregation queries,
      the report arithmetic and the settings session

    A shallow embedding of
      - [discord-bot/database/init.js]     (the schema, module [Init]),
      - [discord-bot/database/queries.js]  (module [Queries]),
      - [services/chart-generator.js]      (the heat map, module [ChartGenerator]),
      - [discord-bot/commands/report.js] and [services/scheduler.js]
                                           (the change figure, module [Report]),
      - [discord-bot/commands/settings.js] (module [SettingsCommand]),
      - [discord-bot/index.js]             (the message listener, module [Bot]),
    followed by the properties of the specification that they decide.

    Conventions.  The SQLite database is a record of tables, each table
    the list of its rows in insertion order (the [id] of an event row is
    its position); every query function takes the database and returns
    the new one.  [Date.now()] is an explicit argument [now], in
    milliseconds.  A call that can throw returns a [result].  Calls into
    Discord (name lookups, sending, chart rendering) are not part of the
    embedding; what the bot sends in a settings session is kept as a
    list of outputs. *)

From Stdlib Require Import ZArith List String Ascii Bool Lia.
From Stdlib Require Import Sorted DecimalString Floats Uint63.
Import ListNotations.
Open Scope string_scope.
Open Scope list_scope.
Open Scope Z_scope.

(** ** Values *)

(** A value as SQLite stores it (the storage classes the bot uses). *)
Inductive sqlval : Type :=
| SqlNull
| SqlInt (n : Z)
| SqlText (s : string).

Definition sqlval_eqb (a b : sqlval) : bool :=
  match a, b with
  | SqlNull, SqlNull => true
  | SqlInt n, SqlInt m => Z.eqb n m
  | SqlText s, SqlText t => String.eqb s t
  | _, _ => false
  end.

(** SQL's [=] in a WHERE clause: NULL equals nothing, not even NULL. *)
Definition sql_eq (a b : sqlval) : bool :=
  match a with
  | SqlNull => false
  | _ => sqlval_eqb a b
  end.

(** A JavaScript value, as far as a settings object holds one.  A property
    that the object does not have reads as [JsUndefined]. *)
Inductive jsval : Type :=
| JsUndefined
| JsNull
| JsNum (n : Z)
| JsStr (s : string).

(** JavaScript's ToBoolean. *)
Definition truthy (v : jsval) : bool :=
  match v with
  | JsUndefined | JsNull => false
  | JsNum n => negb (Z.eqb n 0)
  | JsStr s => negb (String.eqb s "")
  end.

(** The JavaScript value that better-sqlite3 hands back for a column. *)
Definition js_of_sql (v : sqlval) : jsval :=
  match v with
  | SqlNull => JsNull
  | SqlInt n => JsNum n
  | SqlText s => JsStr s
  end.

(** JavaScript's ToString on these values (template literals). *)
Definition string_of_Z (z : Z) : string := NilZero.string_of_int (Z.to_int z).

Definition ToString (v : jsval) : string :=
  match v with
  | JsUndefined => "undefined"
  | JsNull => "null"
  | JsNum n => string_of_Z n
  | JsStr s => s
  end.

(** What a call can throw. *)
Inductive exception : Type :=
| SQLITE_ERROR                   (* prepare: syntax error, no such column *)
| SQLITE_CONSTRAINT_PRIMARYKEY   (* run: UNIQUE constraint failed         *)
| SyntaxError.                   (* [JSON.parse] on text that is no JSON  *)

Inductive result (A : Type) : Type :=
| Ok (a : A)
| Throw (e : exception).
Arguments Ok {A} a.
Arguments Throw {A} e.

Definition bind {A B : Type} (r : result A) (k : A -> result B) : result B :=
  match r with
  | Ok a => k a
  | Throw e => Throw e
  end.

Notation "x <- r ;; k" := (bind r (fun x => k))
  (at level 61, r at next level, right associativity).
Notation "' pat <- r ;; k" := (bind r (fun x => match x with pat => k end))
  (at level 61, pat pattern, r at next level, right associativity).

(** ** database/init.js: the schema *)

Module Messages.
(** [messages]: guild_id, user_id, channel_id TEXT NOT NULL,
    message_length INTEGER DEFAULT 0, timestamp INTEGER NOT NULL. *)
Record row : Type := {
  guild_id : string;
  user_id : string;
  channel_id : string;
  message_length : Z;
  timestamp : Z
}.
End Messages.

Module Reactions.
Record row : Type := {
  guild_id : string;
  user_id : string;
  emoji : string;
  timestamp : Z
}.
End Reactions.

Module Members.
Record row : Type := {
  guild_id : string;
  user_id : string;
  action : string;
  timestamp : Z
}.
End Members.

Module GuildSettings.
(** [guild_settings]: guild_id TEXT PRIMARY KEY, enabled INTEGER
    DEFAULT 1, log_channel_id TEXT, tracked_channels TEXT DEFAULT '[]',
    notifications_enabled INTEGER DEFAULT 1. *)
Record row : Type := {
  guild_id : sqlval;
  enabled : sqlval;
  log_channel_id : sqlval;
  tracked_channels : sqlval;
  notifications_enabled : sqlval
}.

Inductive column : Type :=
| col_guild_id
| col_enabled
| col_log_channel_id
| col_tracked_channels
| col_notifications_enabled.

Definition column_eqb (a b : column) : bool :=
  match a, b with
  | col_guild_id, col_guild_id
  | col_enabled, col_enabled
  | col_log_channel_id, col_log_channel_id
  | col_tracked_channels, col_tracked_channels
  | col_notifications_enabled, col_notifications_enabled => true
  | _, _ => false
  end.

(** SQLite compares identifiers without regard to the case of ASCII
    letters. *)
Definition lower_ascii (a : ascii) : ascii :=
  let n := nat_of_ascii a in
  if Nat.leb 65 n && Nat.leb n 90 then ascii_of_nat (n + 32) else a.

Fixpoint lower (s : string) : string :=
  match s with
  | EmptyString => EmptyString
  | String a rest => String (lower_ascii a) (lower rest)
  end.

Definition column_of_name (k : string) : option column :=
  let k := lower k in
  if String.eqb k "guild_id" then Some col_guild_id
  else if String.eqb k "enabled" then Some col_enabled
  else if String.eqb k "log_channel_id" then Some col_log_channel_id
  else if String.eqb k "tracked_channels" then Some col_tracked_channels
  else if String.eqb k "notifications_enabled" then Some col_notifications_enabled
  else None.

Definition get (c : column) (r : row) : sqlval :=
  match c with
  | col_guild_id => guild_id r
  | col_enabled => enabled r
  | col_log_channel_id => log_channel_id r
  | col_tracked_channels => tracked_channels r
  | col_notifications_enabled => notifications_enabled r
  end.

Definition set (c : column) (v : sqlval) (r : row) : row :=
  match c with
  | col_guild_id =>
      {| guild_id := v; enabled := enabled r;
         log_channel_id := log_channel_id r;
         tracked_channels := tracked_channels r;
         notifications_enabled := notifications_enabled r |}
  | col_enabled =>
      {| guild_id := guild_id r; enabled := v;
         log_channel_id := log_channel_id r;
         tracked_channels := tracked_channels r;
         notifications_enabled := notifications_enabled r |}
  | col_log_channel_id =>
      {| guild_id := guild_id r; enabled := enabled r;
         log_channel_id := v;
         tracked_channels := tracked_channels r;
         notifications_enabled := notifications_enabled r |}
  | col_tracked_channels =>
      {| guild_id := guild_id r; enabled := enabled r;
         log_channel_id := log_channel_id r;
         tracked_channels := v;
         notifications_enabled := notifications_enabled r |}
  | col_notifications_enabled =>
      {| guild_id := guild_id r; enabled := enabled r;
         log_channel_id := log_channel_id r;
         tracked_channels := tracked_channels r;
         notifications_enabled := v |}
  end.

(** The row that [INSERT INTO guild_settings (guild_id) VALUES (?)]
    creates: every other column takes its declared default, and a
    column declared without one is NULL. *)
Definition default_row (guildId : string) : row :=
  {| guild_id := SqlText guildId;
     enabled := SqlInt 1;
     log_channel_id := SqlNull;
     tracked_channels := SqlText "[]";
     notifications_enabled := SqlInt 1 |}.
End GuildSettings.

Module Init.
Record database : Type := {
  messages : list Messages.row;
  reactions : list Reactions.row;
  members : list Members.row;
  guild_settings : list GuildSettings.row
}.

(** The database right after [initDatabase()] on a fresh file. *)
Definition initDatabase : database :=
  {| messages := []; reactions := []; members := []; guild_settings := [] |}.

Definition with_messages (db : database) (t : list Messages.row) : database :=
  {| messages := t; reactions := reactions db;
     members := members db; guild_settings := guild_settings db |}.

Definition with_reactions (db : database) (t : list Reactions.row) : database :=
  {| messages := messages db; reactions := t;
     members := members db; guild_settings := guild_settings db |}.

Definition with_members (db : database) (t : list Members.row) : database :=
  {| messages := messages db; reactions := reactions db;
     members := t; guild_settings := guild_settings db |}.

Definition with_guild_settings (db : database) (t : list GuildSettings.row) : database :=
  {| messages := messages db; reactions := reactions db;
     members := members db; guild_settings := t |}.
End Init.


(** ** database/queries.js *)

Module SettingsObject.
(** The object [getGuildSettings] returns: a row of [guild_settings] as
    better-sqlite3 builds it, or the literal of the lazy-create path. *)
Record t : Type := {
  guild_id : jsval;
  enabled : jsval;
  log_channel_id : jsval;
  tracked_channels : jsval;
  notifications_enabled : jsval
}.

(** The object [stmt.get] builds from a row: one property per column. *)
Definition of_row (r : GuildSettings.row) : t :=
  {| guild_id := js_of_sql (GuildSettings.guild_id r);
     enabled := js_of_sql (GuildSettings.enabled r);
     log_channel_id := js_of_sql (GuildSettings.log_channel_id r);
     tracked_channels := js_of_sql (GuildSettings.tracked_channels r);
     notifications_enabled := js_of_sql (GuildSettings.notifications_enabled r) |}.

(** [{ guild_id: guildId, enabled: 1, tracked_channels: "[]",
       notifications_enabled: 1 }]: the literal has no [log_channel_id]. *)
Definition literal (guildId : string) : t :=
  {| guild_id := JsStr guildId;
     enabled := JsNum 1;
     log_channel_id := JsUndefined;
     tracked_channels := JsStr "[]";
     notifications_enabled := JsNum 1 |}.

(** [settings.tracked_channels || "[]"], the argument of [JSON.parse]. *)
Definition tracked_channels_text (settings : t) : string :=
  if truthy (tracked_channels settings)
  then ToString (tracked_channels settings)
  else "[]".
End SettingsObject.

Module Queries.
Import Init.

Definition trackMessage (db : database) (now : Z)
    (guildId userId channelId : string) (messageLength : Z) : database :=
  with_messages db
    (messages db ++
       [ {| Messages.guild_id := guildId; Messages.user_id := userId;
            Messages.channel_id := channelId;
            Messages.message_length := messageLength;
            Messages.timestamp := now |} ]).

Definition trackReaction (db : database) (now : Z)
    (guildId userId emoji : string) : database :=
  with_reactions db
    (reactions db ++
       [ {| Reactions.guild_id := guildId; Reactions.user_id := userId;
            Reactions.emoji := emoji; Reactions.timestamp := now |} ]).

Definition trackMember (db : database) (now : Z)
    (guildId userId action : string) : database :=
  with_members db
    (members db ++
       [ {| Members.guild_id := guildId; Members.user_id := userId;
            Members.action := action; Members.timestamp := now |} ]).

(** *** The two statements of [getGuildSettings] *)

Definition is_guild (guildId : string) (r : GuildSettings.row) : bool :=
  sql_eq (GuildSettings.guild_id r) (SqlText guildId).

(** [SELECT * FROM guild_settings WHERE guild_id = ?] with [.get]: the
    first matching row, or nothing. *)
Definition select_guild_settings (t : list GuildSettings.row)
    (guildId : string) : option GuildSettings.row :=
  find (is_guild guildId) t.

(** [INSERT INTO guild_settings (guild_id) VALUES (?)]: the primary key
    rejects a second row with the same guild_id. *)
Definition insert_guild_settings (t : list GuildSettings.row)
    (guildId : string) : result (list GuildSettings.row) :=
  if existsb (is_guild guildId) t
  then Throw SQLITE_CONSTRAINT_PRIMARYKEY
  else Ok (t ++ [GuildSettings.default_row guildId]).

Definition getGuildSettings (db : database) (guildId : string)
  : result (SettingsObject.t * database) :=
  match select_guild_settings (guild_settings db) guildId with
  | Some settings => Ok (SettingsObject.of_row settings, db)
  | None =>
      t' <- insert_guild_settings (guild_settings db) guildId ;;
      Ok (SettingsObject.literal guildId, with_guild_settings db t')
  end.

(** *** [updateGuildSettings] *)

(** The [updates] object: its own properties in insertion order, each
    with a value that better-sqlite3 can bind. *)
Definition updates_object : Type := list (string * sqlval).

Definition Object_keys (updates : updates_object) : list string := map fst updates.
Definition Object_values (updates : updates_object) : list sqlval := map snd updates.

(** [db.prepare(`UPDATE guild_settings SET ${fields} WHERE guild_id = ?`)]
    where [fields] joins one [key = ?] per key with a comma.  The keys
    are spliced into the text; the embedding covers keys that are field
    names, that is plain identifiers other than the names SQLite has for
    the row id, and keeps the statement as the list of its assignment
    targets.  SQLite's grammar wants at least one assignment after SET,
    so the text without any key,
    [UPDATE guild_settings SET  WHERE guild_id = ?], is a syntax error;
    and an identifier that is no column of the table is an error too.
    In both cases [prepare] throws, before anything is run. *)
Fixpoint resolve_columns (keys : list string) : option (list GuildSettings.column) :=
  match keys with
  | [] => Some []
  | k :: ks =>
      match GuildSettings.column_of_name k, resolve_columns ks with
      | Some c, Some cs => Some (c :: cs)
      | _, _ => None
      end
  end.

Definition prepare_update (fields : list string) : result (list GuildSettings.column) :=
  match fields with
  | [] => Throw SQLITE_ERROR
  | _ =>
      match resolve_columns fields with
      | Some cols => Ok cols
      | None => Throw SQLITE_ERROR
      end
  end.

(** The assignments of one UPDATE applied to a row, left to right: when
    a column is assigned twice the rightmost value stays. *)
Fixpoint assign (cols : list GuildSettings.column) (values : list sqlval)
    (r : GuildSettings.row) : GuildSettings.row :=
  match cols, values with
  | c :: cs, v :: vs => assign cs vs (GuildSettings.set c v r)
  | _, _ => r
  end.

(** No two rows carry the same non-NULL key (SQLite lets a TEXT primary
    key be NULL, and NULLs do not collide). *)
Fixpoint primary_key_ok (t : list GuildSettings.row) : bool :=
  match t with
  | [] => true
  | r :: rest =>
      negb (existsb (fun r' => sql_eq (GuildSettings.guild_id r) (GuildSettings.guild_id r')) rest)
      && primary_key_ok rest
  end.

Definition assigns_key (cols : list GuildSettings.column) : bool :=
  existsb (GuildSettings.column_eqb GuildSettings.col_guild_id) cols.

(** [stmt.run(...values)]: the last value is the WHERE parameter, the
    others are the assigned values in order.  The statement is atomic: a
    primary-key collision leaves the table as it was.  A value is stored
    as it is given, which is what SQLite does with a value of the
    declared type of its column; the conversion of other values by the
    affinity of the column is outside this embedding (see
    [stored_as_given] below). *)
Definition run_update (cols : list GuildSettings.column) (values : list sqlval)
    (guildId : string) (t : list GuildSettings.row)
  : result (list GuildSettings.row) :=
  let t' := map (fun r => if is_guild guildId r then assign cols values r else r) t in
  if assigns_key cols && negb (primary_key_ok t')
  then Throw SQLITE_CONSTRAINT_PRIMARYKEY
  else Ok t'.

Definition updateGuildSettings (db : database) (guildId : string)
    (updates : updates_object) : result database :=
  let fields := Object_keys updates in
  let values := Object_values updates in
  stmt <- prepare_update fields ;;
  t' <- run_update stmt values guildId (guild_settings db) ;;
  Ok (with_guild_settings db t').

(** *** [getAnalytics] and [getPreviousAnalytics] *)

Inductive period : Type := week | month.

(** [period === "week" ? 7 * 24 * 60 * 60 * 1000 : 30 * 24 * 60 * 60 * 1000] *)
Definition timeRange (p : period) : Z :=
  match p with
  | week => 7 * 24 * 60 * 60 * 1000
  | month => 30 * 24 * 60 * 60 * 1000
  end.

(** [WHERE guild_id = ? AND timestamp >= ?] *)
Definition in_window (guildId : string) (startTime : Z) (m : Messages.row) : bool :=
  String.eqb (Messages.guild_id m) guildId && (startTime <=? Messages.timestamp m).

(** [WHERE guild_id = ? AND timestamp >= ? AND timestamp < ?] *)
Definition in_interval (guildId : string) (startTime endTime : Z) (m : Messages.row) : bool :=
  String.eqb (Messages.guild_id m) guildId
  && (startTime <=? Messages.timestamp m) && (Messages.timestamp m <? endTime).

(** [COUNT( * )] of the rows whose key is [k]. *)
Definition count_key {A : Type} (key : A -> string) (k : string) (rows : list A) : nat :=
  List.length (filter (fun r => String.eqb (key r) k) rows).

(** [GROUP BY key]: the distinct keys, each once, in order of first
    appearance. *)
Fixpoint group_keys {A : Type} (key : A -> string) (rows : list A) : list string :=
  match rows with
  | [] => []
  | r :: rest =>
      key r :: filter (fun k => negb (String.eqb k (key r))) (group_keys key rest)
  end.

(** [SELECT key, COUNT( * ) as count ... GROUP BY key] *)
Definition group_count {A : Type} (key : A -> string) (rows : list A)
  : list (string * nat) :=
  map (fun k => (k, count_key key k rows)) (group_keys key rows).

(** [ORDER BY count DESC], as an insertion sort.  SQLite leaves the
    order of equal counts open; here, of two groups with equal counts,
    the one that [group_count] lists later comes first. *)
Fixpoint insert_desc (x : string * nat) (l : list (string * nat)) : list (string * nat) :=
  match l with
  | [] => [x]
  | y :: rest =>
      if Nat.ltb (snd y) (snd x) then x :: y :: rest
      else y :: insert_desc x rest
  end.

Fixpoint order_by_count_desc (l : list (string * nat)) : list (string * nat) :=
  match l with
  | [] => []
  | x :: rest => insert_desc x (order_by_count_desc rest)
  end.

(** [... GROUP BY key ORDER BY count DESC LIMIT 10] *)
Definition top10 {A : Type} (key : A -> string) (rows : list A) : list (string * nat) :=
  firstn 10 (order_by_count_desc (group_count key rows)).

Definition topUsers (db : database) (guildId : string) (startTime : Z)
  : list (string * nat) :=
  top10 Messages.user_id (filter (in_window guildId startTime) (messages db)).

Definition topChannels (db : database) (guildId : string) (startTime : Z)
  : list (string * nat) :=
  top10 Messages.channel_id (filter (in_window guildId startTime) (messages db)).

Definition totalMessages (db : database) (guildId : string) (startTime : Z) : nat :=
  List.length (filter (in_window guildId startTime) (messages db)).

Definition count_members (db : database) (guildId action : string) (startTime : Z) : nat :=
  List.length
    (filter (fun r => String.eqb (Members.guild_id r) guildId
                      && String.eqb (Members.action r) action
                      && (startTime <=? Members.timestamp r))
       (members db)).

(** One row of the hourly query: [{ hour, count }]. *)
Record hour_row : Type := { hour : Z; count : Z }.

(** [CAST(strftime('%H', timestamp / 1000, 'unixepoch') AS INTEGER)]: the
    integer division of SQL truncates, and the hour is that of the day
    in UTC.  This is the hour for the timestamps that SQLite can date;
    past the year 9999 [strftime] gives NULL, which is outside this
    function (see [has_hour] below). *)
Definition hour_of (timestamp : Z) : Z := (Z.quot timestamp 1000 / 3600) mod 24.

(** [SELECT hour, COUNT( * ) as count ... GROUP BY hour ORDER BY hour]:
    the hours that have a message, in ascending order. *)
Definition hourlyActivity (db : database) (guildId : string) (startTime : Z)
  : list hour_row :=
  let window := filter (in_window guildId startTime) (messages db) in
  filter (fun a => 0 <? count a)
    (map (fun h =>
            {| hour := h;
               count := Z.of_nat
                          (List.length
                             (filter (fun m => hour_of (Messages.timestamp m) =? h)
                                window)) |})
       (map Z.of_nat (seq 0 24))).

(** The object [getAnalytics] returns, without dailyActivity: that
    query groups the same rows, the messages of the window, by their
    calendar date, which is outside this embedding. *)
Record analytics : Type := {
  a_topUsers : list (string * nat);
  a_topChannels : list (string * nat);
  a_totalMessages : nat;
  a_newMembers : nat;
  a_leftMembers : nat;
  a_hourlyActivity : list hour_row
}.

Definition getAnalytics (db : database) (now : Z) (guildId : string) (p : period)
  : analytics :=
  let startTime := now - timeRange p in
  {| a_topUsers := topUsers db guildId startTime;
     a_topChannels := topChannels db guildId startTime;
     a_totalMessages := totalMessages db guildId startTime;
     a_newMembers := count_members db guildId "join" startTime;
     a_leftMembers := count_members db guildId "leave" startTime;
     a_hourlyActivity := hourlyActivity db guildId startTime |}.

Definition getPreviousAnalytics (db : database) (now : Z) (guildId : string)
    (p : period) : nat :=
  let startTime := now - timeRange p * 2 in
  let endTime := now - timeRange p in
  List.length (filter (in_interval guildId startTime endTime) (messages db)).

End Queries.


(** ** services/chart-generator.js *)

Module ChartGenerator.
Import Queries.

(** [Array.from({ length: 24 }, (_, i) => i)] *)
Definition hours : list Z := map Z.of_nat (seq 0 24).

(** [hourlyActivity.find((a) => a.hour === h)] and then
    [found ? found.count : 0]; an object is always truthy. *)
Definition count_at (hourlyActivity : list hour_row) (h : Z) : Z :=
  match find (fun a => Z.eqb (hour a) h) hourlyActivity with
  | Some found => count found
  | None => 0
  end.

Definition counts (hourlyActivity : list hour_row) : list Z :=
  map (count_at hourlyActivity) hours.

(** [hours.map((h) => `${h}:00`)] *)
Definition labels : list string :=
  map (fun h => (string_of_Z h ++ ":00")%string) hours.

(** The data [generateHeatmap] hands to the renderer: the chart's labels
    and the [data] of its one dataset, position by position (the bar
    colours, computed from the same [counts], are left out). *)
Definition generateHeatmap (hourlyActivity : list hour_row) : list (string * Z) :=
  combine labels (counts hourlyActivity).

End ChartGenerator.

(** ** commands/report.js and services/scheduler.js: the change figure *)

Module Report.

(** A count as a JavaScript number: the binary64 double nearest to it,
    which is the count itself below 2^53. *)
Definition Number_of_count (n : nat) : float :=
  SF2Prim (binary_normalize prec emax (Z.of_nat n) 0 false).

(** [((cur - prev) / prev) * 100] in double arithmetic. *)
Definition percent (cur prev : nat) : float :=
  PrimFloat.mul
    (PrimFloat.div
       (PrimFloat.sub (Number_of_count cur) (Number_of_count prev))
       (Number_of_count prev))
    (Number_of_count 100).

(** What [Number.prototype.toFixed(1)] returns (ECMA-262, 21.1.3.3). *)
Inductive fixed : Type :=
| Digits (negative : bool) (tenths : Z)  (* sign, then n/10 with one decimal *)
| NotANumber                             (* "NaN"                           *)
| Infinite (negative : bool)             (* "Infinity", "-Infinity"         *)
| Exponential (x : float).               (* 10^21 <= |x|: ToString(x)       *)

(** The integer n for which n / 10 - m * 2^e is closest to zero, the
    larger one when there are two. *)
Definition nearest_tenths (m e : Z) : Z :=
  if 0 <=? e then 10 * m * 2 ^ e
  else (20 * m + 2 ^ (- e)) / (2 * 2 ^ (- e)).

Definition toFixed1 (x : float) : fixed :=
  match Prim2SF x with
  | S754_zero _ => Digits false 0
  | S754_nan => NotANumber
  | S754_infinity s => Infinite s
  | S754_finite s m e =>
      if (0 <=? e) && (10 ^ 21 <=? Z.pos m * 2 ^ e) then Exponential x
      else Digits s (nearest_tenths (Z.pos m) e)
  end.

(** The value of [change]: the number 0, or the string of [toFixed(1)]. *)
Inductive change_value : Type :=
| ChangeNumber (n : Z)
| ChangeFixed (s : fixed).

(** [previous.totalMessages > 0
       ? (((analytics.totalMessages - previous.totalMessages)
            / previous.totalMessages) * 100).toFixed(1)
       : 0] *)
Definition change (totalMessages previousTotalMessages : nat) : change_value :=
  if Nat.ltb 0 previousTotalMessages
  then ChangeFixed (toFixed1 (percent totalMessages previousTotalMessages))
  else ChangeNumber 0.

(** The text of a [Digits] result, as [toFixed] prints it. *)
Definition fixed_string (negative : bool) (tenths : Z) : string :=
  ((if negative then "-" else "")
   ++ string_of_Z (tenths / 10) ++ "." ++ string_of_Z (tenths mod 10))%string.

(** For comparison, the figure as the specification words it: the exact
    quotient (cur - prev) / prev * 100 rounded to one decimal, a half
    going away from zero; in tenths, without the sign. *)
Definition rounded_tenths (cur prev : Z) : Z :=
  (2000 * Z.abs (cur - prev) + prev) / (2 * prev).

End Report.

(** *** Notions for the arithmetic of doubles

    Where a number x with m <= x < m + 1 lies: x = m + r / d, the
    position as [SpecFloat] records it. *)
Definition loc_of (r d : Z) : location :=
  if r =? 0 then loc_Exact else loc_Inexact (2 * r ?= d).

(** The finite double with mantissa [pm] and exponent [e] is normal and
    is the integer [c]: pm * 2^e = c with 53 bits in [pm]. *)
Definition holds_integer (pm : positive) (e : Z) (c : Z) : Prop :=
  e <= 0 /\ Z.pos pm = c * 2 ^ (- e) /\ Z.pos (digits2_pos pm) = 53.

(** ** commands/settings.js: the settings session *)

Module SettingsCommand.
Import Init.

Inductive ButtonStyle : Type := Danger | Success.

(** What the operator sees: the four fields of the embed and the two
    buttons of [row1] (the select menu of [row2] never changes). *)
Record view : Type := {
  tracking_value : string;
  notifications_value : string;
  log_channel_value : string;
  tracked_channels_value : string;
  tracking_label : string;
  tracking_style : ButtonStyle;
  alerts_label : string;
  alerts_style : ButtonStyle
}.

(** The fourth field, which [execute] builds once:
    the mentions of the tracked channels, or "All channels". *)
Definition tracked_channels_field (trackedChannels : list jsval) : string :=
  if Nat.ltb 0 (List.length trackedChannels)
  then String.concat ", "
         (map (fun id => ("<#" ++ ToString id ++ ">")%string) trackedChannels)
  else "All channels".

(** The first three fields and the buttons follow [settings]; both
    [addFields] at the start and [spliceFields(0, 3, ...)] after an
    action compute them this way. *)
Definition render (settings : SettingsObject.t) (tracked : string) : view :=
  {| tracking_value :=
       if truthy (SettingsObject.enabled settings) then "✅ Enabled" else "❌ Disabled";
     notifications_value :=
       if truthy (SettingsObject.notifications_enabled settings)
       then "✅ Enabled" else "❌ Disabled";
     log_channel_value :=
       if truthy (SettingsObject.log_channel_id settings)
       then ("<#" ++ ToString (SettingsObject.log_channel_id settings) ++ ">")%string
       else "Not set";
     tracked_channels_value := tracked;
     tracking_label :=
       if truthy (SettingsObject.enabled settings)
       then "Disable Tracking" else "Enable Tracking";
     tracking_style :=
       if truthy (SettingsObject.enabled settings) then Danger else Success;
     alerts_label :=
       if truthy (SettingsObject.notifications_enabled settings)
       then "Disable Alerts" else "Enable Alerts";
     alerts_style :=
       if truthy (SettingsObject.notifications_enabled settings)
       then Danger else Success |}.

(** What the bot sends during a session. *)
Inductive output : Type :=
| Show (v : view)                (* [interaction.reply({ embeds, .. })]     *)
| Reply (content : string)       (* [i.reply({ content, ephemeral })]      *)
| EditReply (v : view).          (* [interaction.editReply({ embeds, .. })] *)

(** The session: the closure of [execute] that the collector keeps alive.
    [settings] is the one object read at the start and mutated by every
    action, [tracked] the fourth field of [embed], and [created_at] is
    when the collector was created. *)
Record session : Type := {
  guild : string;
  operator : string;
  created_at : Z;
  settings : SettingsObject.t;
  tracked : string
}.

(** [time: 300000] *)
Definition time : Z := 300000.

Definition expires_at (s : session) : Z := created_at s + time.

(** A component interaction [i]. *)
Record component_interaction : Type := {
  user_id : string;
  customId : string;
  values : list string
}.

Definition with_settings (s : session) (settings' : SettingsObject.t) : session :=
  {| guild := guild s; operator := operator s;
     created_at := created_at s; settings := settings'; tracked := tracked s |}.

(** [settings.enabled ? 0 : 1] *)
Definition flip (v : jsval) : Z := if truthy v then 0 else 1.

Definition set_enabled (o : SettingsObject.t) (v : jsval) : SettingsObject.t :=
  {| SettingsObject.guild_id := SettingsObject.guild_id o;
     SettingsObject.enabled := v;
     SettingsObject.log_channel_id := SettingsObject.log_channel_id o;
     SettingsObject.tracked_channels := SettingsObject.tracked_channels o;
     SettingsObject.notifications_enabled := SettingsObject.notifications_enabled o |}.

Definition set_notifications_enabled (o : SettingsObject.t) (v : jsval) : SettingsObject.t :=
  {| SettingsObject.guild_id := SettingsObject.guild_id o;
     SettingsObject.enabled := SettingsObject.enabled o;
     SettingsObject.log_channel_id := SettingsObject.log_channel_id o;
     SettingsObject.tracked_channels := SettingsObject.tracked_channels o;
     SettingsObject.notifications_enabled := v |}.

Definition set_log_channel_id (o : SettingsObject.t) (v : jsval) : SettingsObject.t :=
  {| SettingsObject.guild_id := SettingsObject.guild_id o;
     SettingsObject.enabled := SettingsObject.enabled o;
     SettingsObject.log_channel_id := v;
     SettingsObject.tracked_channels := SettingsObject.tracked_channels o;
     SettingsObject.notifications_enabled := SettingsObject.notifications_enabled o |}.

Section Execute.

(** [JSON.parse], on the texts that denote an array: [Some l] for the
    array [l], [None] when the text is no JSON at all (SyntaxError).  A
    text that denotes another JSON value is outside this model. *)
Variable JSON_parse : string -> option (list jsval).

(** [execute] up to the creation of the collector: read (or create) the
    settings, build the view, reply with it, open the session.  The
    database comes back also when the command throws, since the settings
    row may have been created by then. *)
Definition execute (db : database) (now : Z) (guildId userId : string)
  : database * result (session * list output) :=
  match Queries.getGuildSettings db guildId with
  | Throw e => (db, Throw e)
  | Ok (settings0, db') =>
      match JSON_parse (SettingsObject.tracked_channels_text settings0) with
      | None => (db', Throw SyntaxError)
      | Some trackedChannels =>
          let tracked0 := tracked_channels_field trackedChannels in
          (db',
           Ok ({| guild := guildId; operator := userId; created_at := now;
                  settings := settings0; tracked := tracked0 |},
               [Show (render settings0 tracked0)]))
      end
  end.

End Execute.

(** The listener of ["collect"]. *)
Definition on_collect (s : session) (db : database) (i : component_interaction)
  : result (session * database * list output) :=
  '(s', db', replies) <-
    (if String.eqb (customId i) "toggle_tracking" then
       let v := flip (SettingsObject.enabled (settings s)) in
       db' <- Queries.updateGuildSettings db (guild s) [("enabled", SqlInt v)] ;;
       let settings' := set_enabled (settings s) (JsNum v) in
       Ok (with_settings s settings', db',
           [Reply ("Tracking "
                   ++ (if truthy (SettingsObject.enabled settings')
                       then "enabled" else "disabled") ++ "!")%string])
     else if String.eqb (customId i) "toggle_notifications" then
       let v := flip (SettingsObject.notifications_enabled (settings s)) in
       db' <- Queries.updateGuildSettings db (guild s)
                [("notifications_enabled", SqlInt v)] ;;
       let settings' := set_notifications_enabled (settings s) (JsNum v) in
       Ok (with_settings s settings', db',
           [Reply ("Notifications "
                   ++ (if truthy (SettingsObject.notifications_enabled settings')
                       then "enabled" else "disabled") ++ "!")%string])
     else if String.eqb (customId i) "set_log_channel" then
       match values i with
       | [] =>
           (* [i.values[0]] is undefined, which better-sqlite3 binds as NULL *)
           db' <- Queries.updateGuildSettings db (guild s)
                    [("log_channel_id", SqlNull)] ;;
           Ok (with_settings s (set_log_channel_id (settings s) JsUndefined),
               db',
               [Reply "Log channel set to <#undefined>!"])
       | channelId :: _ =>
           db' <- Queries.updateGuildSettings db (guild s)
                    [("log_channel_id", SqlText channelId)] ;;
           Ok (with_settings s (set_log_channel_id (settings s) (JsStr channelId)),
               db',
               [Reply ("Log channel set to <#" ++ channelId ++ ">!")%string])
       end
     else Ok (s, db, [])) ;;
  Ok (s', db', replies ++ [EditReply (render (settings s') (tracked s'))]).

(** The collector of discord.js, by its documented contract: with the
    option [time] it ends that many milliseconds after its creation, an
    ended collector emits no ["collect"], and a running one emits it for
    the interactions that pass [filter]. *)
Definition ended (s : session) (now : Z) : bool := expires_at s <=? now.

(** [filter: (i) => i.user.id === interaction.user.id] *)
Definition filter (s : session) (i : component_interaction) : bool :=
  String.eqb (user_id i) (operator s).

(** A component interaction arriving at [now]. *)
Definition deliver (s : session) (db : database) (now : Z) (i : component_interaction)
  : result (session * database * list output) :=
  if ended s now then Ok (s, db, [])
  else if filter s i then on_collect s db i
  else Ok (s, db, []).

End SettingsCommand.

(** ** index.js: the message listener *)

Module Bot.
Import Init.

Record message : Type := {
  author_bot : bool;
  guild : option string;
  author_id : string;
  channel_id : string;
  content_length : Z
}.

Section Listener.

(** [JSON.parse], as in [SettingsCommand.execute]. *)
Variable JSON_parse : string -> option (list jsval).

(** [trackedChannels.includes(message.channel.id)] *)
Definition includes (l : list jsval) (channelId : string) : bool :=
  existsb (fun v => match v with JsStr s => String.eqb s channelId | _ => false end) l.

(** [client.on(Events.MessageCreate, ...)].  The database comes back also
    when the listener throws, since the settings row may have been
    created by then. *)
Definition onMessageCreate (db : database) (now : Z) (m : message)
  : database * result unit :=
  if author_bot m then (db, Ok tt)
  else match guild m with
  | None => (db, Ok tt)
  | Some guildId =>
      match Queries.getGuildSettings db guildId with
      | Throw e => (db, Throw e)
      | Ok (settings, db') =>
          if negb (truthy (SettingsObject.enabled settings)) then (db', Ok tt)
          else match JSON_parse (SettingsObject.tracked_channels_text settings) with
          | None => (db', Throw SyntaxError)
          | Some trackedChannels =>
              if Nat.ltb 0 (List.length trackedChannels)
                 && negb (includes trackedChannels (channel_id m))
              then (db', Ok tt)
              else (Queries.trackMessage db' now guildId (author_id m)
                      (channel_id m) (content_length m),
                    Ok tt)
          end
      end
  end.

End Listener.
End Bot.

(** ** Calls of [getGuildSettings] in flight

    [getGuildSettings] is synchronous: its SELECT and its INSERT run
    without an [await] between them, through the one connection that
    database/init.js opens.  Listeners that are in flight at the same
    time therefore make their calls one whole call after the other, in
    the order in which the event loop runs them. *)

Module Calls.
Import Init.

(** The calls for [guildIds] in this order, with the outcome of each. *)
Fixpoint in_turn (db : database) (guildIds : list string)
  : database * list (result SettingsObject.t) :=
  match guildIds with
  | [] => (db, [])
  | guildId :: rest =>
      match Queries.getGuildSettings db guildId with
      | Ok (settings, db') =>
          let '(db'', outcomes) := in_turn db' rest in
          (db'', Ok settings :: outcomes)
      | Throw e =>
          let '(db'', outcomes) := in_turn db rest in
          (db'', Throw e :: outcomes)
      end
  end.

(** The outcomes of the calls made for one community, in order. *)
Definition outcomes_for (guildId : string) (guildIds : list string)
    (outcomes : list (result SettingsObject.t)) : list (result SettingsObject.t) :=
  map snd (List.filter (fun c => String.eqb (fst c) guildId) (combine guildIds outcomes)).

(** The number of calls made for one community. *)
Definition calls_for (guildId : string) (guildIds : list string) : nat :=
  List.length (List.filter (fun g => String.eqb g guildId) guildIds).

(** For comparison, get-or-create as the specification words it: one
    atomic insert-if-absent, after which the caller has the stored row. *)
Definition getSettings_atomic (t : list GuildSettings.row) (guildId : string)
  : list GuildSettings.row * GuildSettings.row :=
  match Queries.select_guild_settings t guildId with
  | Some settings => (t, settings)
  | None =>
      (t ++ [GuildSettings.default_row guildId], GuildSettings.default_row guildId)
  end.

End Calls.

(** ** The operations of the store, one by one *)

Module Store.
Import Init.

Inductive operation : Type :=
| TrackMessage (guildId userId channelId : string) (messageLength : Z)
| TrackReaction (guildId userId emoji : string)
| TrackMember (guildId userId action : string)
| GetGuildSettings (guildId : string)
| UpdateGuildSettings (guildId : string) (updates : Queries.updates_object).

(** The database an operation leaves behind; one that throws leaves the
    database as it found it. *)
Definition apply (db : database) (now : Z) (op : operation) : database :=
  match op with
  | TrackMessage g u c n => Queries.trackMessage db now g u c n
  | TrackReaction g u e => Queries.trackReaction db now g u e
  | TrackMember g u a => Queries.trackMember db now g u a
  | GetGuildSettings g =>
      match Queries.getGuildSettings db g with
      | Ok (_, db') => db'
      | Throw _ => db
      end
  | UpdateGuildSettings g updates =>
      match Queries.updateGuildSettings db g updates with
      | Ok db' => db'
      | Throw _ => db
      end
  end.

(** The number of settings rows of a community. *)
Definition settings_rows (t : list GuildSettings.row) (guildId : string) : nat :=
  List.length (List.filter (Queries.is_guild guildId) t).

End Store.

(** A sequence of store operations, each at its own clock reading. *)
Definition apply_all (db : Init.database) (ops : list (Z * Store.operation))
  : Init.database :=
  fold_left (fun d (o : Z * Store.operation) => Store.apply d (fst o) (snd o)) ops db.

(** A column is named by a partial update when one of its keys is the
    column's name. *)
Definition names (updates : Queries.updates_object) (c : GuildSettings.column) : Prop :=
  exists k, In k (Queries.Object_keys updates) /\ GuildSettings.column_of_name k = Some c.

(** [JSON.parse] on the one text the bot itself ever stores in
    tracked_channels, for running the listener on examples. *)
Definition JSON_parse_default (s : string) : option (list jsval) :=
  if String.eqb s "[]" then Some [] else None.

(** Counts in non-increasing order. *)
Definition desc (a b : string * nat) : Prop := (snd b <= snd a)%nat.

(** * The rest of the bot *)

(** ** index.js: the other listeners *)

Module Listeners.
Import Init.

(** [client.on(Events.MessageReactionAdd, async (reaction, user) => ...)] *)
Record reaction_added : Type := {
  user_bot : bool;
  message_guild : option string;
  user_id : string;
  emoji_name : string
}.

Definition onMessageReactionAdd (db : database) (now : Z) (ev : reaction_added)
  : database :=
  if user_bot ev then db
  else match message_guild ev with
  | None => db
  | Some guildId => Queries.trackReaction db now guildId (user_id ev) (emoji_name ev)
  end.

(** [client.on(Events.GuildMemberAdd, ...)] *)
Definition onGuildMemberAdd (db : database) (now : Z) (guildId memberId : string)
  : database :=
  Queries.trackMember db now guildId memberId "join".

(** [client.on(Events.GuildMemberRemove, ...)] *)
Definition onGuildMemberRemove (db : database) (now : Z) (guildId memberId : string)
  : database :=
  Queries.trackMember db now guildId memberId "leave".

End Listeners.

(** ** commands/report.js, commands/stats.js: what the commands show *)

Module ReportCommand.
Import Init.

(** A lookup in Discord ([guild.members.fetch], [guild.channels.fetch]):
    the name, or [None] when the promise rejects. *)
Definition directory : Type := string -> option string.

Definition newline : string := String (ascii_of_nat 10) EmptyString.

(** [user.user.username], or the label of the [catch] branch. *)
Definition user_label (members : directory) (id : string) : string :=
  match members id with
  | Some username => username
  | None => "Unknown User"
  end.

(** [channel.name], or the label of the [catch] branch. *)
Definition channel_label (channels : directory) (id : string) : string :=
  match channels id with
  | Some name => name
  | None => "Unknown Channel"
  end.

(** [`${i + 1}. ${user.user.username} - ${u.count} messages`] and its
    [catch] twin, for the elements of a ranking from index [i] on. *)
Fixpoint user_lines (members : directory) (i : nat) (ranking : list (string * nat))
  : list string :=
  match ranking with
  | [] => []
  | (id, count) :: rest =>
      (string_of_Z (Z.of_nat i + 1) ++ ". " ++ user_label members id ++ " - "
       ++ string_of_Z (Z.of_nat count) ++ " messages")%string
      :: user_lines members (S i) rest
  end.

(** [`${i + 1}. #${channel.name} - ${c.count} messages`], and
    [`${i + 1}. Unknown Channel - ${c.count} messages`]. *)
Fixpoint channel_lines (channels : directory) (i : nat) (ranking : list (string * nat))
  : list string :=
  match ranking with
  | [] => []
  | (id, count) :: rest =>
      (string_of_Z (Z.of_nat i + 1) ++ ". "
       ++ match channels id with
          | Some name => "#" ++ name
          | None => "Unknown Channel"
          end
       ++ " - " ++ string_of_Z (Z.of_nat count) ++ " messages")%string
      :: channel_lines channels (S i) rest
  end.

(** [lines.join("\n") || "No data"] *)
Definition join_or_no_data (lines : list string) : string :=
  let text := String.concat newline lines in
  if String.eqb text "" then "No data" else text.

(** [analytics.topUsers.slice(0, 5).map(...)] joined for the embed. *)
Definition topUsersText (members : directory) (a : Queries.analytics) : string :=
  join_or_no_data (user_lines members 0 (firstn 5 (Queries.a_topUsers a))).

Definition topChannelsText (channels : directory) (a : Queries.analytics) : string :=
  join_or_no_data (channel_lines channels 0 (firstn 5 (Queries.a_topChannels a))).

(** The option [type] of the command; without it the report is the
    overview. *)
Inductive report_type : Type := overview | users | channels | heatmap.

(** What a report hands to the chart renderer and to the embed. *)
Inductive payload : Type :=
| HeatmapReport (bars : list (string * Z))
| BarReport (data : list nat) (labels : list string)
| OverviewReport (totalMessages : nat) (change : Report.change_value)
    (newMembers leftMembers : nat) (contributors activeChannels : string).

(** [execute] of /report.  [getAnalytics] and [getPreviousAnalytics] read
    the clock one after the other: [now] and [now']. *)
Definition execute (db : database) (now now' : Z) (guildId : string)
    (p : Queries.period) (type : option report_type)
    (fetch_member fetch_channel : directory) : payload :=
  let analytics := Queries.getAnalytics db now guildId p in
  let previous := Queries.getPreviousAnalytics db now' guildId p in
  match type with
  | Some heatmap =>
      HeatmapReport (ChartGenerator.generateHeatmap (Queries.a_hourlyActivity analytics))
  | Some users =>
      let topUsers :=
        map (fun u => (user_label fetch_member (fst u), snd u))
          (firstn 10 (Queries.a_topUsers analytics)) in
      BarReport (map snd topUsers) (map fst topUsers)
  | Some channels =>
      let topChannels :=
        map (fun c => (channel_label fetch_channel (fst c), snd c))
          (firstn 10 (Queries.a_topChannels analytics)) in
      BarReport (map snd topChannels) (map fst topChannels)
  | Some overview | None =>
      OverviewReport (Queries.a_totalMessages analytics)
        (Report.change (Queries.a_totalMessages analytics) previous)
        (Queries.a_newMembers analytics) (Queries.a_leftMembers analytics)
        (topUsersText fetch_member analytics)
        (topChannelsText fetch_channel analytics)
  end.

(** /stats: [analytics.topUsers[0]] and the text made of it. *)
Definition topUserText (members : directory) (a : Queries.analytics) : string :=
  match Queries.a_topUsers a with
  | [] => "No data"
  | (id, count) :: _ =>
      match members id with
      | Some username =>
          (username ++ " (" ++ string_of_Z (Z.of_nat count) ++ " messages)")%string
      | None =>
          ("Unknown User (" ++ string_of_Z (Z.of_nat count) ++ " messages)")%string
      end
  end.

End ReportCommand.

(** ** services/scheduler.js: the weekly report *)

Module Scheduler.
Import Init.

(** The guild as [sendWeeklyReport] uses it. *)
Record guild : Type := {
  id : string;
  channels_cache : list string;          (* ids in [guild.channels.cache] *)
  members : ReportCommand.directory      (* [guild.members.fetch]         *)
}.

Record weekly_report : Type := {
  totalMessages : nat;
  change : Report.change_value;
  newMembers : nat;
  leftMembers : nat;
  contributors : string
}.

Inductive outcome : Type :=
| Skipped                                       (* an early [return]          *)
| Sent (channel : string) (r : weekly_report)   (* [channel.send] went through *)
| Logged.                                       (* the [catch]: console.error *)

(** [guild.channels.cache.get(settings.log_channel_id)]: the channel with
    this id, when the cache has it. *)
Definition cache_get (g : guild) (v : jsval) : option string :=
  match v with
  | JsStr channelId =>
      if existsb (String.eqb channelId) (channels_cache g) then Some channelId else None
  | _ => None
  end.

(** [sendWeeklyReport(guild)].  [delivers] says whether rendering the
    chart and [channel.send], the body of the [try], go through; [now]
    and [now'] are the clock readings of the two analytics calls. *)
Definition sendWeeklyReport (db : database) (now now' : Z) (g : guild)
    (delivers : bool) : database * result outcome :=
  match Queries.getGuildSettings db (id g) with
  | Throw e => (db, Throw e)
  | Ok (settings, db') =>
      if negb (truthy (SettingsObject.notifications_enabled settings))
         || negb (truthy (SettingsObject.log_channel_id settings))
      then (db', Ok Skipped)
      else match cache_get g (SettingsObject.log_channel_id settings) with
      | None => (db', Ok Skipped)
      | Some channel =>
          let analytics := Queries.getAnalytics db' now (id g) Queries.week in
          let previous := Queries.getPreviousAnalytics db' now' (id g) Queries.week in
          let report :=
            {| totalMessages := Queries.a_totalMessages analytics;
               change := Report.change (Queries.a_totalMessages analytics) previous;
               newMembers := Queries.a_newMembers analytics;
               leftMembers := Queries.a_leftMembers analytics;
               contributors := ReportCommand.topUsersText (members g) analytics |} in
          (db', Ok (if delivers then Sent channel report else Logged))
      end
  end.

End Scheduler.

(** ** Notions for the properties below *)

(** The counts of a ranking, added up. *)
Definition total_count (ranking : list (string * nat)) : nat :=
  list_sum (map snd ranking).

(** The bars of a heat map, added up. *)
Definition total_bars (bars : list (string * Z)) : Z :=
  fold_right Z.add 0 (map snd bars).

(** The number of a community's messages in a window by one author. *)
Definition messages_by (db : Init.database) (guildId : string) (startTime : Z)
    (userId : string) : nat :=
  List.length
    (List.filter
       (fun m => Queries.in_window guildId startTime m
                 && String.eqb (Messages.user_id m) userId)
       (Init.messages db)).

(** Two results of [getAnalytics] agree in each of the six results that
    the record holds. *)
Definition same_analytics (a b : Queries.analytics) : Prop :=
  Queries.a_topUsers a = Queries.a_topUsers b
  /\ Queries.a_topChannels a = Queries.a_topChannels b
  /\ Queries.a_totalMessages a = Queries.a_totalMessages b
  /\ Queries.a_newMembers a = Queries.a_newMembers b
  /\ Queries.a_leftMembers a = Queries.a_leftMembers b
  /\ Queries.a_hourlyActivity a = Queries.a_hourlyActivity b.

(** A timestamp between 1970-01-01 and the last millisecond of the year
    9999, as [Date.now()] gives them.  For these SQLite's
    [strftime('%H', t / 1000, 'unixepoch')] is the hour of the day; past
    the year 9999 SQLite has no date, and the hour is NULL. *)
Definition has_hour (timestamp : Z) : bool :=
  (0 <=? timestamp) && (timestamp <=? 253402300799999).

(** A value that SQLite stores in the column as it is given: an integer
    in a column declared INTEGER, a text in a column declared TEXT, and
    NULL in either.  A value of another storage class is converted by
    the affinity of the column before it is stored. *)
Definition stored_as_given (c : GuildSettings.column) (v : sqlval) : bool :=
  match v, c with
  | SqlNull, _ => true
  | SqlInt _, (GuildSettings.col_enabled | GuildSettings.col_notifications_enabled) => true
  | SqlText _, (GuildSettings.col_guild_id | GuildSettings.col_log_channel_id
                | GuildSettings.col_tracked_channels) => true
  | _, _ => false
  end.

(** A property of the session copy against the stored value: the same
    value, or a property the literal lacks where the row has NULL. *)
Definition mirrors (copy : jsval) (stored : sqlval) : Prop :=
  copy = js_of_sql stored \/ (copy = JsUndefined /\ stored = SqlNull).

(** The session's copy of the settings mirrors the community's row. *)
Definition in_sync (s : SettingsCommand.session) (db : Init.database) : Prop :=
  exists r,
    Queries.select_guild_settings (Init.guild_settings db) (SettingsCommand.guild s)
    = Some r
    /\ mirrors (SettingsObject.enabled (SettingsCommand.settings s))
         (GuildSettings.enabled r)
    /\ mirrors (SettingsObject.notifications_enabled (SettingsCommand.settings s))
         (GuildSettings.notifications_enabled r)
    /\ mirrors (SettingsObject.log_channel_id (SettingsCommand.settings s))
         (GuildSettings.log_channel_id r).

(** A guild for the examples: community 1001 with channel 7 in the
    cache and no member that Discord still knows. *)
Definition guild_1001 : Scheduler.guild :=
  {| Scheduler.id := "1001";
     Scheduler.channels_cache := ["7"];
     Scheduler.members := fun _ => None |}.

(** * Properties *)

(** ** The settings table and its primary key *)

Section PrimaryKey.
Import Init.

Lemma sqlval_eqb_refl (v : sqlval) : sqlval_eqb v v = true.
Proof.
  destruct v; simpl; auto using Z.eqb_refl, String.eqb_refl.
Qed.

Lemma sqlval_eqb_eq (a b : sqlval) : sqlval_eqb a b = true <-> a = b.
Proof.
  split.
  - destruct a, b; simpl; try discriminate; intros H.
    + reflexivity.
    + apply Z.eqb_eq in H. congruence.
    + apply String.eqb_eq in H. congruence.
  - intros ->. apply sqlval_eqb_refl.
Qed.

Lemma sql_eq_sym (a b : sqlval) : sql_eq a b = sql_eq b a.
Proof.
  destruct a, b; simpl; auto using Z.eqb_sym, String.eqb_sym.
Qed.

Lemma sql_eq_text (v : sqlval) (s : string) :
  sql_eq v (SqlText s) = true <-> v = SqlText s.
Proof.
  destruct v; simpl; split; try discriminate; try congruence.
  - intros H. apply String.eqb_eq in H. congruence.
  - intros H. injection H as ->. apply String.eqb_refl.
Qed.

Lemma is_guild_default_row (g g' : string) :
  Queries.is_guild g (GuildSettings.default_row g') = String.eqb g' g.
Proof. reflexivity. Qed.

Lemma select_none_iff (t : list GuildSettings.row) (g : string) :
  Queries.select_guild_settings t g = None <-> existsb (Queries.is_guild g) t = false.
Proof.
  unfold Queries.select_guild_settings.
  induction t as [|r t IH]; simpl.
  - tauto.
  - destruct (Queries.is_guild g r); simpl.
    + split; discriminate.
    + exact IH.
Qed.

Lemma select_some_is_guild (t : list GuildSettings.row) (g : string) (r : GuildSettings.row) :
  Queries.select_guild_settings t g = Some r -> In r t /\ GuildSettings.guild_id r = SqlText g.
Proof.
  intros H. apply find_some in H. destruct H as [Hin Hg].
  split; [exact Hin|]. now apply sql_eq_text.
Qed.

Lemma settings_rows_zero_iff (t : list GuildSettings.row) (g : string) :
  Store.settings_rows t g = 0%nat <-> Queries.select_guild_settings t g = None.
Proof.
  rewrite select_none_iff. unfold Store.settings_rows.
  induction t as [|r t IH]; simpl.
  - tauto.
  - destruct (Queries.is_guild g r); simpl.
    + split; discriminate.
    + exact IH.
Qed.

Lemma settings_rows_app (t u : list GuildSettings.row) (g : string) :
  Store.settings_rows (t ++ u) g = (Store.settings_rows t g + Store.settings_rows u g)%nat.
Proof.
  unfold Store.settings_rows. now rewrite filter_app, length_app.
Qed.

(** After a SELECT that found nothing, the INSERT of the same call, run
    at once, cannot collide. *)
Lemma insert_after_miss (t : list GuildSettings.row) (g : string) :
  Queries.select_guild_settings t g = None ->
  Queries.insert_guild_settings t g = Ok (t ++ [GuildSettings.default_row g]).
Proof.
  intros H. apply select_none_iff in H.
  unfold Queries.insert_guild_settings. now rewrite H.
Qed.

Lemma primary_key_ok_app (t : list GuildSettings.row) (r : GuildSettings.row) :
  Queries.primary_key_ok (t ++ [r]) =
  Queries.primary_key_ok t
  && negb (existsb (fun r' => sql_eq (GuildSettings.guild_id r') (GuildSettings.guild_id r)) t).
Proof.
  induction t as [|x t IH]; simpl.
  - reflexivity.
  - rewrite IH, existsb_app. simpl.
    rewrite orb_false_r.
    destruct (existsb _ t), (sql_eq (GuildSettings.guild_id x) (GuildSettings.guild_id r)),
      (Queries.primary_key_ok t), (existsb _ t); reflexivity.
Qed.

Lemma insert_keeps_primary_key (t t' : list GuildSettings.row) (g : string) :
  Queries.insert_guild_settings t g = Ok t' ->
  Queries.primary_key_ok t = true -> Queries.primary_key_ok t' = true.
Proof.
  unfold Queries.insert_guild_settings.
  destruct (existsb (Queries.is_guild g) t) eqn:E; [discriminate|].
  intros H Hok. injection H as <-.
  rewrite primary_key_ok_app, Hok. simpl.
  unfold Queries.is_guild in E. now rewrite E.
Qed.

(** The constraint reads the keys only. *)
Lemma primary_key_ok_keys (t t' : list GuildSettings.row) :
  map GuildSettings.guild_id t = map GuildSettings.guild_id t' ->
  Queries.primary_key_ok t = Queries.primary_key_ok t'.
Proof.
  revert t'. induction t as [|r t IH]; intros [|r' t'] H; try discriminate.
  - reflexivity.
  - simpl in H. injection H as Hr Ht. simpl.
    rewrite (IH t' Ht), Hr. f_equal. f_equal.
    clear IH. revert t' Ht. induction t as [|x t IHt]; intros [|x' t'] Ht;
      try discriminate; [reflexivity|].
    simpl in Ht. injection Ht as Hx Ht. simpl. now rewrite Hx, (IHt t' Ht).
Qed.

Lemma assign_keeps_other (cols : list GuildSettings.column) (values : list sqlval)
    (r : GuildSettings.row) (c : GuildSettings.column) :
  existsb (GuildSettings.column_eqb c) cols = false ->
  GuildSettings.get c (Queries.assign cols values r) = GuildSettings.get c r.
Proof.
  revert values r. induction cols as [|c' cols IH]; intros values r H.
  - reflexivity.
  - destruct values as [|v values]; [reflexivity|].
    simpl in *. apply orb_false_elim in H. destruct H as [Hc Hcols].
    rewrite (IH values _ Hcols).
    destruct c, c'; simpl in *; try discriminate; reflexivity.
Qed.

Lemma run_update_keeps_primary_key (cols : list GuildSettings.column)
    (values : list sqlval) (g : string) (t t' : list GuildSettings.row) :
  Queries.run_update cols values g t = Ok t' ->
  Queries.primary_key_ok t = true -> Queries.primary_key_ok t' = true.
Proof.
  unfold Queries.run_update.
  destruct (Queries.assigns_key cols) eqn:K; simpl.
  - destruct (Queries.primary_key_ok (map _ t)) eqn:P; simpl; [|discriminate].
    intros H _. now injection H as <-.
  - intros H Hok. injection H as <-. rewrite <- Hok. symmetry.
    apply primary_key_ok_keys. rewrite map_map. apply map_ext. intros r.
    destruct (Queries.is_guild g r); [|reflexivity].
    symmetry. apply (assign_keeps_other cols values r GuildSettings.col_guild_id K).
Qed.

(** Under the constraint a community has at most one row. *)
Lemma primary_key_at_most_one (t : list GuildSettings.row) (g : string) :
  Queries.primary_key_ok t = true -> (Store.settings_rows t g <= 1)%nat.
Proof.
  unfold Store.settings_rows.
  induction t as [|r t IH]; simpl; [lia|].
  intros H. apply andb_prop in H. destruct H as [Hr Ht].
  specialize (IH Ht).
  destruct (Queries.is_guild g r) eqn:G; simpl; [|lia].
  enough (List.filter (Queries.is_guild g) t = []) as -> by (simpl; lia).
  apply negb_true_iff in Hr.
  unfold Queries.is_guild in G. apply sql_eq_text in G.
  clear IH Ht. induction t as [|x t IHt]; [reflexivity|].
  simpl in Hr. apply orb_false_elim in Hr. destruct Hr as [Hx Hr].
  simpl. rewrite (IHt Hr).
  destruct (Queries.is_guild g x) eqn:Gx; [|reflexivity].
  unfold Queries.is_guild in Gx. apply sql_eq_text in Gx.
  rewrite G, Gx in Hx. simpl in Hx. now rewrite String.eqb_refl in Hx.
Qed.

End PrimaryKey.

(** ** [getGuildSettings]: one call after the other *)

Section GetGuildSettings.
Import Init.

Lemma getGuildSettings_new (db : database) (g : string) :
  Queries.select_guild_settings (guild_settings db) g = None ->
  Queries.getGuildSettings db g =
  Ok (SettingsObject.literal g,
      with_guild_settings db (guild_settings db ++ [GuildSettings.default_row g])).
Proof.
  intros H. unfold Queries.getGuildSettings.
  rewrite H, (insert_after_miss _ _ H). reflexivity.
Qed.

Lemma getGuildSettings_existing (db : database) (g : string) (r : GuildSettings.row) :
  Queries.select_guild_settings (guild_settings db) g = Some r ->
  Queries.getGuildSettings db g = Ok (SettingsObject.of_row r, db).
Proof.
  intros H. unfold Queries.getGuildSettings. now rewrite H.
Qed.

(** Run without interruption, the call never throws. *)
Lemma getGuildSettings_returns (db : database) (g : string) :
  exists settings db', Queries.getGuildSettings db g = Ok (settings, db').
Proof.
  destruct (Queries.select_guild_settings (guild_settings db) g) as [r|] eqn:E.
  - rewrite (getGuildSettings_existing _ _ _ E). eauto.
  - rewrite (getGuildSettings_new _ _ E). eauto.
Qed.

Lemma select_after_insert (t : list GuildSettings.row) (g : string) :
  Queries.select_guild_settings t g = None ->
  Queries.select_guild_settings (t ++ [GuildSettings.default_row g]) g
  = Some (GuildSettings.default_row g).
Proof.
  unfold Queries.select_guild_settings.
  induction t as [|r t IH]; simpl.
  - intros _. rewrite is_guild_default_row, String.eqb_refl. reflexivity.
  - destruct (Queries.is_guild g r); [discriminate|]. exact IH.
Qed.

Lemma getGuildSettings_keeps_primary_key (db db' : database) (g : string)
    (settings : SettingsObject.t) :
  Queries.getGuildSettings db g = Ok (settings, db') ->
  Queries.primary_key_ok (guild_settings db) = true ->
  Queries.primary_key_ok (guild_settings db') = true.
Proof.
  unfold Queries.getGuildSettings.
  destruct (Queries.select_guild_settings (guild_settings db) g).
  - intros H. now injection H as _ <-.
  - destruct (Queries.insert_guild_settings (guild_settings db) g) as [t'|e] eqn:I;
      simpl; [|discriminate].
    intros H Hok. injection H as _ <-. simpl.
    exact (insert_keeps_primary_key _ _ _ I Hok).
Qed.

Lemma updateGuildSettings_keeps_primary_key (db db' : database) (g : string)
    (updates : Queries.updates_object) :
  Queries.updateGuildSettings db g updates = Ok db' ->
  Queries.primary_key_ok (guild_settings db) = true ->
  Queries.primary_key_ok (guild_settings db') = true.
Proof.
  unfold Queries.updateGuildSettings.
  destruct (Queries.prepare_update _) as [cols|e]; simpl; [|discriminate].
  destruct (Queries.run_update _ _ _ _) as [t'|e] eqn:R; simpl; [|discriminate].
  intros H Hok. injection H as <-. simpl.
  exact (run_update_keeps_primary_key _ _ _ _ _ R Hok).
Qed.

Lemma apply_keeps_primary_key (db : database) (now : Z) (op : Store.operation) :
  Queries.primary_key_ok (guild_settings db) = true ->
  Queries.primary_key_ok (guild_settings (Store.apply db now op)) = true.
Proof.
  intros Hok. destruct op; simpl; try exact Hok.
  - destruct (Queries.getGuildSettings db guildId) as [[s db']|e] eqn:G; [|exact Hok].
    exact (getGuildSettings_keeps_primary_key _ _ _ _ G Hok).
  - destruct (Queries.updateGuildSettings db guildId updates) as [db'|e] eqn:U; [|exact Hok].
    exact (updateGuildSettings_keeps_primary_key _ _ _ _ U Hok).
Qed.

Lemma find_app {B : Type} (p : B -> bool) (l l' : list B) :
  find p (l ++ l') = match find p l with Some x => Some x | None => find p l' end.
Proof.
  induction l as [|x l IH]; simpl; [reflexivity|]. now destruct (p x).
Qed.

(** A call for one community leaves the row of another where it is. *)
Lemma getGuildSettings_keeps_row (db : database) (g0 g : string) (r : GuildSettings.row) :
  Queries.select_guild_settings (guild_settings db) g = Some r ->
  exists settings db',
    Queries.getGuildSettings db g0 = Ok (settings, db')
    /\ Queries.select_guild_settings (guild_settings db') g = Some r.
Proof.
  intros Hr.
  destruct (Queries.select_guild_settings (guild_settings db) g0) as [r0|] eqn:E.
  - rewrite (getGuildSettings_existing _ _ _ E). eauto.
  - rewrite (getGuildSettings_new _ _ E). do 2 eexists. split; [reflexivity|].
    simpl. unfold Queries.select_guild_settings in *. now rewrite find_app, Hr.
Qed.

Lemma getGuildSettings_keeps_no_row (db : database) (g0 g : string) :
  g0 <> g ->
  Queries.select_guild_settings (guild_settings db) g = None ->
  exists settings db',
    Queries.getGuildSettings db g0 = Ok (settings, db')
    /\ Queries.select_guild_settings (guild_settings db') g = None.
Proof.
  intros Hne Hr.
  destruct (Queries.select_guild_settings (guild_settings db) g0) as [r0|] eqn:E.
  - rewrite (getGuildSettings_existing _ _ _ E). eauto.
  - rewrite (getGuildSettings_new _ _ E). do 2 eexists. split; [reflexivity|].
    simpl. unfold Queries.select_guild_settings in *. rewrite find_app, Hr. simpl.
    rewrite is_guild_default_row. apply String.eqb_neq in Hne. now rewrite Hne.
Qed.

Lemma in_turn_cons (db db' : database) (g0 : string) (rest : list string)
    (settings : SettingsObject.t) :
  Queries.getGuildSettings db g0 = Ok (settings, db') ->
  Calls.in_turn db (g0 :: rest)
  = (fst (Calls.in_turn db' rest), Ok settings :: snd (Calls.in_turn db' rest)).
Proof.
  intros E. simpl. rewrite E. now destruct (Calls.in_turn db' rest).
Qed.

(** Calls made in turn all return, and keep the constraint. *)
Lemma in_turn_returns (guildIds : list string) (db : database) :
  Queries.primary_key_ok (guild_settings db) = true ->
  Forall (fun r => exists settings, r = Ok settings) (snd (Calls.in_turn db guildIds))
  /\ Queries.primary_key_ok (guild_settings (fst (Calls.in_turn db guildIds))) = true.
Proof.
  revert db. induction guildIds as [|g0 rest IH]; intros db Hok.
  - split; [constructor|exact Hok].
  - destruct (getGuildSettings_returns db g0) as [settings [db' E]].
    rewrite (in_turn_cons _ _ _ _ _ E). simpl.
    destruct (IH db' (getGuildSettings_keeps_primary_key _ _ _ _ E Hok)) as [Hall Hok'].
    split; [|exact Hok']. constructor; [eauto|exact Hall].
Qed.

(** Once a community has its row, every call for it reads that row. *)
Lemma in_turn_existing (guildIds : list string) (db : database) (g : string)
    (r : GuildSettings.row) :
  Queries.select_guild_settings (guild_settings db) g = Some r ->
  Queries.select_guild_settings (guild_settings (fst (Calls.in_turn db guildIds))) g
  = Some r
  /\ Calls.outcomes_for g guildIds (snd (Calls.in_turn db guildIds))
     = repeat (Ok (SettingsObject.of_row r)) (Calls.calls_for g guildIds).
Proof.
  revert db. induction guildIds as [|g0 rest IH]; intros db Hr.
  - split; [exact Hr|reflexivity].
  - unfold Calls.outcomes_for, Calls.calls_for in *.
    destruct (String.eqb_spec g0 g) as [->|Hne].
    + rewrite (in_turn_cons _ _ _ _ _ (getGuildSettings_existing _ _ _ Hr)).
      destruct (IH db Hr) as [Hsel Hout].
      split; [exact Hsel|]. simpl. rewrite String.eqb_refl. simpl. now rewrite Hout.
    + destruct (getGuildSettings_keeps_row db g0 g r Hr) as [settings [db' [E Hr']]].
      rewrite (in_turn_cons _ _ _ _ _ E).
      destruct (IH db' Hr') as [Hsel Hout].
      split; [exact Hsel|]. simpl.
      apply String.eqb_neq in Hne. rewrite Hne. exact Hout.
Qed.

(** The first of the calls for a community without a row creates the
    row and returns the literal; the others read the row back. *)
Lemma in_turn_new (guildIds : list string) (db : database) (g : string) :
  Queries.select_guild_settings (guild_settings db) g = None ->
  In g guildIds ->
  Queries.select_guild_settings (guild_settings (fst (Calls.in_turn db guildIds))) g
  = Some (GuildSettings.default_row g)
  /\ Calls.outcomes_for g guildIds (snd (Calls.in_turn db guildIds))
     = Ok (SettingsObject.literal g)
       :: repeat (Ok (SettingsObject.of_row (GuildSettings.default_row g)))
            (Calls.calls_for g guildIds - 1).
Proof.
  revert db. induction guildIds as [|g0 rest IH]; intros db Hnew Hin.
  - destruct Hin.
  - destruct (String.eqb_spec g0 g) as [->|Hne].
    + rewrite (in_turn_cons _ _ _ _ _ (getGuildSettings_new _ _ Hnew)).
      destruct (in_turn_existing rest
                  (with_guild_settings db
                     (guild_settings db ++ [GuildSettings.default_row g]))
                  g (GuildSettings.default_row g)
                  (select_after_insert _ _ Hnew)) as [Hsel Hout].
      split; [exact Hsel|].
      unfold Calls.outcomes_for, Calls.calls_for in *. simpl.
      rewrite String.eqb_refl. simpl. rewrite Hout. now rewrite Nat.sub_0_r.
    + destruct Hin as [Heq|Hin]; [contradiction|].
      destruct (getGuildSettings_keeps_no_row db g0 g Hne Hnew) as [settings [db' [E Hnew']]].
      rewrite (in_turn_cons _ _ _ _ _ E).
      destruct (IH db' Hnew' Hin) as [Hsel Hout].
      split; [exact Hsel|].
      unfold Calls.outcomes_for, Calls.calls_for in *. simpl.
      apply String.eqb_neq in Hne. rewrite Hne. exact Hout.
Qed.

End GetGuildSettings.

Section SettingsRowUnique.
Import Init.

Lemma apply_all_keeps_primary_key (ops : list (Z * Store.operation)) (db : database) :
  Queries.primary_key_ok (guild_settings db) = true ->
  Queries.primary_key_ok (guild_settings (apply_all db ops)) = true.
Proof.
  revert db. induction ops as [|[now op] ops IH]; intros db Hok; simpl.
  - exact Hok.
  - apply IH. now apply apply_keeps_primary_key.
Qed.

(** C1.  In a store whose settings table obeys its primary key and has
    no row for a community yet:
    every sequence of operations leaves at most one settings row per
    community;
    a call of [getGuildSettings], for any community, returns and leaves
    the table that one atomic insert-if-absent leaves;
    two calls in a row for the new community create exactly one row,
    the second creating none;
    and when listeners in flight at the same time make their first
    calls, whole calls in any order and mixed with calls for other
    communities, nobody throws, every community still has at most one
    row, the new community has exactly one, the call that came first has
    created it and every other call has read it back. *)
Theorem settings_row_at_most_one (db : database) (g : string) :
  Queries.primary_key_ok (guild_settings db) = true ->
  Store.settings_rows (guild_settings db) g = 0%nat ->
  (forall ops g',
      (Store.settings_rows (guild_settings (apply_all db ops)) g' <= 1)%nat)
  /\ (forall g',
         exists settings db',
           Queries.getGuildSettings db g' = Ok (settings, db')
           /\ guild_settings db'
              = fst (Calls.getSettings_atomic (guild_settings db) g'))
  /\ (exists db1 settings2,
         Queries.getGuildSettings db g = Ok (SettingsObject.literal g, db1)
         /\ Queries.getGuildSettings db1 g = Ok (settings2, db1)
         /\ guild_settings db1 = guild_settings db ++ [GuildSettings.default_row g]
         /\ Store.settings_rows (guild_settings db1) g = 1%nat)
  /\ (forall guildIds,
         In g guildIds ->
         Forall (fun r => exists settings, r = Ok settings)
           (snd (Calls.in_turn db guildIds))
         /\ (forall g',
                (Store.settings_rows
                   (guild_settings (fst (Calls.in_turn db guildIds))) g' <= 1)%nat)
         /\ Store.settings_rows
              (guild_settings (fst (Calls.in_turn db guildIds))) g = 1%nat
         /\ Calls.outcomes_for g guildIds (snd (Calls.in_turn db guildIds))
            = Ok (SettingsObject.literal g)
              :: repeat (Ok (SettingsObject.of_row (GuildSettings.default_row g)))
                   (Calls.calls_for g guildIds - 1)).
Proof.
  intros Hok Hnone.
  pose proof (proj1 (settings_rows_zero_iff _ _) Hnone) as Hnew.
  assert (Hone : Store.settings_rows
                   (guild_settings db ++ [GuildSettings.default_row g]) g = 1%nat).
  { rewrite settings_rows_app, Hnone. unfold Store.settings_rows. simpl.
    now rewrite is_guild_default_row, String.eqb_refl. }
  split; [|split; [|split]].
  - intros ops g'. apply primary_key_at_most_one.
    now apply apply_all_keeps_primary_key.
  - intros g'. unfold Calls.getSettings_atomic.
    destruct (Queries.select_guild_settings (guild_settings db) g') as [r|] eqn:E.
    + rewrite (getGuildSettings_existing _ _ _ E). eauto.
    + rewrite (getGuildSettings_new _ _ E). eauto.
  - exists (with_guild_settings db (guild_settings db ++ [GuildSettings.default_row g])).
    exists (SettingsObject.of_row (GuildSettings.default_row g)).
    split; [now apply getGuildSettings_new|].
    split; [|split; [reflexivity|exact Hone]].
    apply getGuildSettings_existing. simpl. now apply select_after_insert.
  - intros guildIds Hin.
    destruct (in_turn_returns guildIds db Hok) as [Hall Hok'].
    destruct (in_turn_new guildIds db g Hnew Hin) as [Hsel Hout].
    split; [exact Hall|]. split; [|split; [|exact Hout]].
    + intros g'. now apply primary_key_at_most_one.
    + pose proof (primary_key_at_most_one _ g Hok') as Hle.
      destruct (Store.settings_rows
                  (guild_settings (fst (Calls.in_turn db guildIds))) g) as [|[|n]] eqn:En.
      * apply settings_rows_zero_iff in En. congruence.
      * reflexivity.
      * lia.
Qed.

Lemma settings_row_at_most_one_witness :
  Queries.primary_key_ok (guild_settings initDatabase) = true
  /\ Store.settings_rows (guild_settings initDatabase) "1001" = 0%nat
  /\ Calls.outcomes_for "1001" ["1001"; "2002"; "1001"]
       (snd (Calls.in_turn initDatabase ["1001"; "2002"; "1001"]))
     = Ok (SettingsObject.literal "1001")
       :: repeat (Ok (SettingsObject.of_row (GuildSettings.default_row "1001")))
            (Calls.calls_for "1001" ["1001"; "2002"; "1001"] - 1).
Proof.
  split; [reflexivity|]. split; [reflexivity|].
  refine (proj2 (proj2 (proj2
            (proj2 (proj2 (proj2
               (settings_row_at_most_one initDatabase "1001" eq_refl eq_refl)))
               ["1001"; "2002"; "1001"] _)))).
  now left.
Defined.

End SettingsRowUnique.

(** ** [updateGuildSettings]: what it changes and when it throws *)

Section UpdateGuildSettings.
Import Init.

Lemma column_eqb_eq (a b : GuildSettings.column) :
  GuildSettings.column_eqb a b = true <-> a = b.
Proof.
  destruct a, b; simpl; split; intros H; try discriminate; reflexivity.
Qed.

Lemma resolve_columns_named (keys : list string) (cols : list GuildSettings.column)
    (c : GuildSettings.column) :
  Queries.resolve_columns keys = Some cols ->
  existsb (GuildSettings.column_eqb c) cols = true ->
  exists k, In k keys /\ GuildSettings.column_of_name k = Some c.
Proof.
  revert cols. induction keys as [|k keys IH]; intros cols H Hc; simpl in H.
  - injection H as <-. discriminate.
  - destruct (GuildSettings.column_of_name k) as [c'|] eqn:Hk; [|discriminate].
    destruct (Queries.resolve_columns keys) as [cs|]; [|discriminate].
    injection H as <-. simpl in Hc. apply orb_prop in Hc. destruct Hc as [Hc|Hc].
    + apply column_eqb_eq in Hc. subst c'. exists k. simpl. auto.
    + destruct (IH cs eq_refl Hc) as [k' [Hin Hk']]. exists k'. simpl. auto.
Qed.

Lemma prepare_update_unnamed (updates : Queries.updates_object)
    (cols : list GuildSettings.column) (c : GuildSettings.column) :
  Queries.prepare_update (Queries.Object_keys updates) = Ok cols ->
  ~ names updates c ->
  existsb (GuildSettings.column_eqb c) cols = false.
Proof.
  intros H Hn. unfold Queries.prepare_update in H.
  destruct (Queries.Object_keys updates) as [|k keys] eqn:K; [discriminate|].
  destruct (Queries.resolve_columns (k :: keys)) as [cs|] eqn:R; [|discriminate].
  injection H as <-.
  destruct (existsb (GuildSettings.column_eqb c) cs) eqn:E; [|reflexivity].
  exfalso. apply Hn. unfold names. rewrite K.
  exact (resolve_columns_named _ _ _ R E).
Qed.

Lemma Forall2_map_right {A : Type} (R : A -> A -> Prop) (f : A -> A) (l : list A) :
  (forall x, R x (f x)) -> Forall2 R l (map f l).
Proof.
  intros H. induction l; simpl; constructor; auto.
Qed.

Lemma updateGuildSettings_events (db db' : database) (g : string)
    (updates : Queries.updates_object) :
  Queries.updateGuildSettings db g updates = Ok db' ->
  messages db' = messages db /\ reactions db' = reactions db
  /\ members db' = members db.
Proof.
  unfold Queries.updateGuildSettings.
  destruct (Queries.prepare_update _) as [cols|e]; simpl; [|discriminate].
  destruct (Queries.run_update _ _ _ _) as [t'|e]; simpl; [|discriminate].
  intros H. injection H as <-. auto.
Qed.

(** The rows of the settings table after an update that went through. *)
Lemma updateGuildSettings_rows (db db' : database) (g : string)
    (updates : Queries.updates_object) :
  Queries.updateGuildSettings db g updates = Ok db' ->
  Forall2
    (fun old new =>
       if Queries.is_guild g old
       then forall c, ~ names updates c ->
                      GuildSettings.get c new = GuildSettings.get c old
       else new = old)
    (guild_settings db) (guild_settings db').
Proof.
  intros H. unfold Queries.updateGuildSettings in H.
  destruct (Queries.prepare_update _) as [cols|e] eqn:P; simpl in H; [|discriminate].
  unfold Queries.run_update in H.
  destruct (Queries.assigns_key cols && _); simpl in H; [discriminate|].
  injection H as <-. simpl.
  apply Forall2_map_right. intros x.
  destruct (Queries.is_guild g x); [|reflexivity].
  intros c Hc. apply assign_keeps_other.
  exact (prepare_update_unnamed _ _ _ P Hc).
Qed.

(** C4.  When a community has its settings row and [updateGuildSettings]
    goes through, the tables of events are as before and the settings
    table is as before row for row: the rows of other communities are
    untouched, and in a row of this community every column that the
    partial update does not name keeps its value. *)
Theorem updateGuildSettings_changes_named_only (db db' : database) (g : string)
    (r : GuildSettings.row) (updates : Queries.updates_object) :
  Queries.select_guild_settings (guild_settings db) g = Some r ->
  Queries.updateGuildSettings db g updates = Ok db' ->
  messages db' = messages db /\ reactions db' = reactions db
  /\ members db' = members db
  /\ Forall2
       (fun old new =>
          if Queries.is_guild g old
          then forall c, ~ names updates c ->
                         GuildSettings.get c new = GuildSettings.get c old
          else new = old)
       (guild_settings db) (guild_settings db').
Proof.
  intros _ H.
  destruct (updateGuildSettings_events _ _ _ _ H) as [Hm [Hr Hb]].
  repeat (split; [assumption|]).
  exact (updateGuildSettings_rows _ _ _ _ H).
Qed.

Lemma updateGuildSettings_changes_named_only_witness :
  Queries.select_guild_settings
    (guild_settings (with_guild_settings initDatabase [GuildSettings.default_row "1001"]))
    "1001"
  = Some (GuildSettings.default_row "1001")
  /\ Queries.updateGuildSettings
       (with_guild_settings initDatabase [GuildSettings.default_row "1001"])
       "1001" [("enabled", SqlInt 0)]
     = Ok (with_guild_settings initDatabase
             [GuildSettings.set GuildSettings.col_enabled (SqlInt 0)
                (GuildSettings.default_row "1001")])
  /\ Forall2
       (fun old new =>
          if Queries.is_guild "1001" old
          then forall c, ~ names [("enabled", SqlInt 0)] c ->
                         GuildSettings.get c new = GuildSettings.get c old
          else new = old)
       [GuildSettings.default_row "1001"]
       [GuildSettings.set GuildSettings.col_enabled (SqlInt 0)
          (GuildSettings.default_row "1001")].
Proof.
  split; [reflexivity|]. split; [reflexivity|].
  exact (proj2 (proj2 (proj2
    (updateGuildSettings_changes_named_only
       (with_guild_settings initDatabase [GuildSettings.default_row "1001"])
       (with_guild_settings initDatabase
          [GuildSettings.set GuildSettings.col_enabled (SqlInt 0)
             (GuildSettings.default_row "1001")])
       "1001"
       (GuildSettings.default_row "1001") [("enabled", SqlInt 0)]
       eq_refl eq_refl)))).
Defined.

(** A column that the partial update names once takes the value given. *)
Lemma assign_sets_named (cols : list GuildSettings.column) (values : list sqlval)
    (r : GuildSettings.row) (c : GuildSettings.column) (v : sqlval) :
  List.length cols = List.length values ->
  In (c, v) (combine cols values) ->
  NoDup cols ->
  GuildSettings.get c (Queries.assign cols values r) = v.
Proof.
  revert values r. induction cols as [|c' cols IH]; intros values r Hlen Hin Hnd.
  - destruct Hin.
  - destruct values as [|v' values]; [discriminate|].
    simpl in *. inversion Hnd as [|? ? Hnotin Hnd']; subst.
    destruct Hin as [Heq|Hin].
    + injection Heq as -> ->.
      rewrite assign_keeps_other.
      * destruct c; reflexivity.
      * destruct (existsb (GuildSettings.column_eqb c) cols) eqn:E; [|reflexivity].
        exfalso. apply Hnotin. apply existsb_exists in E.
        destruct E as [x [Hx Hcx]]. apply column_eqb_eq in Hcx. now subst.
    + apply IH; auto.
Qed.

(** C10.  With an empty partial update the statement text has nothing
    after SET: [prepare] throws, whatever the community, and the database
    is the one before the call. *)
Theorem updateGuildSettings_empty_throws (db : database) (now : Z) (g : string) :
  Queries.updateGuildSettings db g [] = Throw SQLITE_ERROR
  /\ Store.apply db now (Store.UpdateGuildSettings g []) = db.
Proof. split; reflexivity. Qed.

End UpdateGuildSettings.

(** ** The first and the second [getGuildSettings] of a new community *)

Section FirstAndSecondCall.
Import Init.

(** C9, as amended.  For a community without a row, the first call
    returns the literal and the second the stored row; the two objects
    agree on guild_id, enabled, tracked_channels and
    notifications_enabled, while log_channel_id is missing (undefined) in
    the first and null in the second.  Both are falsy, so the settings
    view rendered from either object is the same. *)
Theorem getGuildSettings_first_and_second (db : database) (g : string) :
  Store.settings_rows (guild_settings db) g = 0%nat ->
  exists db1 first second,
    Queries.getGuildSettings db g = Ok (first, db1)
    /\ Queries.getGuildSettings db1 g = Ok (second, db1)
    /\ SettingsObject.guild_id first = SettingsObject.guild_id second
    /\ SettingsObject.enabled first = SettingsObject.enabled second
    /\ SettingsObject.tracked_channels first = SettingsObject.tracked_channels second
    /\ SettingsObject.notifications_enabled first
       = SettingsObject.notifications_enabled second
    /\ SettingsObject.log_channel_id first = JsUndefined
    /\ SettingsObject.log_channel_id second = JsNull
    /\ forall tracked,
         SettingsCommand.render first tracked = SettingsCommand.render second tracked.
Proof.
  intros Hnone. apply settings_rows_zero_iff in Hnone.
  exists (with_guild_settings db (guild_settings db ++ [GuildSettings.default_row g])).
  exists (SettingsObject.literal g).
  exists (SettingsObject.of_row (GuildSettings.default_row g)).
  split; [now apply getGuildSettings_new|].
  split; [apply getGuildSettings_existing; simpl; now apply select_after_insert|].
  repeat split; reflexivity.
Qed.

Lemma getGuildSettings_first_and_second_witness :
  Store.settings_rows (guild_settings initDatabase) "1001" = 0%nat
  /\ exists db1 first second,
       Queries.getGuildSettings initDatabase "1001" = Ok (first, db1)
       /\ Queries.getGuildSettings db1 "1001" = Ok (second, db1)
       /\ SettingsObject.guild_id first = SettingsObject.guild_id second
       /\ SettingsObject.enabled first = SettingsObject.enabled second
       /\ SettingsObject.tracked_channels first = SettingsObject.tracked_channels second
       /\ SettingsObject.notifications_enabled first
          = SettingsObject.notifications_enabled second
       /\ SettingsObject.log_channel_id first = JsUndefined
       /\ SettingsObject.log_channel_id second = JsNull
       /\ forall tracked,
         SettingsCommand.render first tracked = SettingsCommand.render second tracked.
Proof.
  split; [reflexivity|].
  exact (getGuildSettings_first_and_second initDatabase "1001" eq_refl).
Defined.

(** C9, as the specification states it, fails: for the new community
    1001 the object of the first call is not the object of the second,
    they differ in log_channel_id. *)
Lemma getGuildSettings_first_is_not_second :
  Queries.getGuildSettings initDatabase "1001"
  = Ok (SettingsObject.literal "1001",
        with_guild_settings initDatabase [GuildSettings.default_row "1001"])
  /\ Queries.getGuildSettings
       (with_guild_settings initDatabase [GuildSettings.default_row "1001"]) "1001"
     = Ok (SettingsObject.of_row (GuildSettings.default_row "1001"),
           with_guild_settings initDatabase [GuildSettings.default_row "1001"])
  /\ SettingsObject.literal "1001"
     <> SettingsObject.of_row (GuildSettings.default_row "1001").
Proof.
  split; [reflexivity|]. split; [reflexivity|]. discriminate.
Qed.

End FirstAndSecondCall.

(** ** Recording a message: the store and the listener *)

Section Recording.
Import Init.

Lemma find_map_same {A : Type} (p : A -> bool) (f : A -> A) (l : list A) :
  (forall x, p (f x) = p x) ->
  find p (map f l) = option_map f (find p l).
Proof.
  intros H. induction l as [|x l IH]; simpl; [reflexivity|].
  rewrite H. now destruct (p x).
Qed.



End Recording.


(** ** The rankings of [getAnalytics] *)

Lemma firstn_In {B : Type} (n : nat) (l : list B) (x : B) :
  In x (firstn n l) -> In x l.
Proof.
  revert n. induction l as [|y l IH]; intros [|n]; simpl; try tauto.
  intros [->|H]; [now left|right; eauto].
Qed.

Section Ranking.
Context {A : Type} (key : A -> string).

Lemma count_key_pos (rows : list A) (r : A) :
  In r rows -> (1 <= Queries.count_key key (key r) rows)%nat.
Proof.
  unfold Queries.count_key. induction rows as [|x rows IH]; simpl.
  - intros [].
  - intros [->|Hin].
    + rewrite String.eqb_refl. simpl. lia.
    + specialize (IH Hin). destruct (String.eqb (key x) (key r)); simpl; lia.
Qed.

Lemma group_keys_In (rows : list A) (k : string) :
  In k (Queries.group_keys key rows) <-> exists r, In r rows /\ key r = k.
Proof.
  induction rows as [|x rows IH]; simpl.
  - split; [intros []|intros [r [[] _]]].
  - rewrite filter_In, IH. split.
    + intros [<-|[[r [Hin Hk]] _]]; eauto.
    + intros [r [[->|Hin] Hk]]; [now left|].
      destruct (String.eqb k (key x)) eqn:E.
      * apply String.eqb_eq in E. now left.
      * right. split; [eauto|reflexivity].
Qed.

Lemma group_keys_NoDup (rows : list A) : NoDup (Queries.group_keys key rows).
Proof.
  induction rows as [|x rows IH]; simpl; constructor.
  - rewrite filter_In. intros [_ H]. now rewrite String.eqb_refl in H.
  - now apply NoDup_filter.
Qed.

Lemma insert_desc_In (x y : string * nat) (l : list (string * nat)) :
  In y (Queries.insert_desc x l) <-> y = x \/ In y l.
Proof.
  induction l as [|z l IH]; simpl.
  - intuition congruence.
  - destruct (Nat.ltb (snd z) (snd x)); simpl; [|rewrite IH]; intuition congruence.
Qed.

Lemma order_by_count_desc_In (y : string * nat) (l : list (string * nat)) :
  In y (Queries.order_by_count_desc l) <-> In y l.
Proof.
  induction l as [|x l IH]; simpl; [tauto|].
  rewrite insert_desc_In, IH. intuition congruence.
Qed.

Lemma insert_desc_length (x : string * nat) (l : list (string * nat)) :
  List.length (Queries.insert_desc x l) = S (List.length l).
Proof.
  induction l as [|z l IH]; simpl; [reflexivity|].
  destruct (Nat.ltb (snd z) (snd x)); simpl; [reflexivity|now rewrite IH].
Qed.

Lemma insert_desc_sorted (x : string * nat) (l : list (string * nat)) :
  StronglySorted desc l -> StronglySorted desc (Queries.insert_desc x l).
Proof.
  induction 1 as [|z l Hl IH Hz]; simpl.
  - constructor; constructor.
  - destruct (Nat.ltb (snd z) (snd x)) eqn:E.
    + apply Nat.ltb_lt in E. constructor; [constructor; assumption|].
      constructor; [unfold desc; lia|].
      eapply Forall_impl; [|exact Hz]. unfold desc. intros a Ha. lia.
    + apply Nat.ltb_ge in E. constructor; [exact IH|].
      apply Forall_forall. intros a Ha. apply insert_desc_In in Ha.
      destruct Ha as [->|Ha]; [exact E|].
      exact (proj1 (Forall_forall _ _) Hz a Ha).
Qed.

Lemma order_by_count_desc_sorted (l : list (string * nat)) :
  StronglySorted desc (Queries.order_by_count_desc l).
Proof.
  induction l as [|x l IH]; simpl; [constructor|now apply insert_desc_sorted].
Qed.

Lemma firstn_sorted (n : nat) (l : list (string * nat)) :
  StronglySorted desc l -> StronglySorted desc (firstn n l).
Proof.
  intros H. revert n. induction H as [|z l Hl IH Hz]; intros [|n]; simpl;
    try constructor; auto.
  apply Forall_forall. intros a Ha. apply firstn_In in Ha.
  exact (proj1 (Forall_forall _ _) Hz a Ha).
Qed.

Lemma insert_desc_keys_NoDup (x : string * nat) (l : list (string * nat)) :
  ~ In (fst x) (map fst l) -> NoDup (map fst l) ->
  NoDup (map fst (Queries.insert_desc x l)).
Proof.
  induction l as [|z l IH]; simpl; intros Hx Hl.
  - constructor; [intros []|constructor].
  - destruct (Nat.ltb (snd z) (snd x)); simpl.
    + constructor; [exact Hx|exact Hl].
    + inversion Hl as [|? ? Hz Hl']; subst. constructor.
      * rewrite in_map_iff. intros [a [Ha Hin]]. apply insert_desc_In in Hin.
        destruct Hin as [->|Hin]; [apply Hx; now left|].
        apply Hz. rewrite <- Ha. now apply in_map.
      * apply IH; [|exact Hl']. intros H. apply Hx. now right.
Qed.

Lemma order_by_count_desc_keys_NoDup (l : list (string * nat)) :
  NoDup (map fst l) -> NoDup (map fst (Queries.order_by_count_desc l)).
Proof.
  induction l as [|x l IH]; simpl; intros H; [constructor|].
  inversion H as [|? ? Hx Hl]; subst.
  apply insert_desc_keys_NoDup; [|now apply IH].
  rewrite in_map_iff. intros [a [Ha Hin]].
  apply (proj1 (order_by_count_desc_In _ _)) in Hin.
  apply Hx. rewrite <- Ha. now apply in_map.
Qed.

Lemma firstn_NoDup {B : Type} (n : nat) (l : list B) : NoDup l -> NoDup (firstn n l).
Proof.
  intros H. revert n. induction H as [|x l Hx Hl IH]; intros [|n]; simpl;
    try constructor; auto.
  intros Hin. apply Hx. exact (firstn_In _ _ _ Hin).
Qed.

(** What [GROUP BY key ORDER BY count DESC LIMIT 10] returns, for any
    rows. *)
Lemma top10_spec (rows : list A) :
  (List.length (Queries.top10 key rows) <= 10)%nat
  /\ StronglySorted desc (Queries.top10 key rows)
  /\ NoDup (map fst (Queries.top10 key rows))
  /\ forall k n, In (k, n) (Queries.top10 key rows) ->
                 n = Queries.count_key key k rows
                 /\ (1 <= n)%nat
                 /\ exists r, In r rows /\ key r = k.
Proof.
  unfold Queries.top10. split; [|split; [|split]].
  - rewrite length_firstn. lia.
  - apply firstn_sorted, order_by_count_desc_sorted.
  - rewrite <- firstn_map. apply firstn_NoDup, order_by_count_desc_keys_NoDup.
    unfold Queries.group_count. rewrite map_map. simpl. rewrite map_id.
    apply group_keys_NoDup.
  - intros k n Hin. apply firstn_In in Hin.
    apply (proj1 (order_by_count_desc_In _ _)) in Hin.
    unfold Queries.group_count in Hin. apply in_map_iff in Hin.
    destruct Hin as [k' [Heq Hk']]. injection Heq as -> <-.
    apply group_keys_In in Hk'. destruct Hk' as [r [Hr Hk]].
    split; [reflexivity|]. split; [|eauto].
    rewrite <- Hk. now apply count_key_pos.
Qed.

End Ranking.

Section Aggregation.
Import Init.

Lemma filter_filter_and {B : Type} (p q : B -> bool) (l : list B) :
  List.filter q (List.filter p l) = List.filter (fun x => p x && q x) l.
Proof.
  induction l as [|x l IH]; simpl; [reflexivity|].
  destruct (p x); simpl; [|exact IH]. destruct (q x); now rewrite IH.
Qed.

Lemma in_window_iff (g : string) (startTime : Z) (m : Messages.row) :
  Queries.in_window g startTime m = true
  <-> Messages.guild_id m = g /\ startTime <= Messages.timestamp m.
Proof.
  unfold Queries.in_window. rewrite andb_true_iff, String.eqb_eq, Z.leb_le. tauto.
Qed.

Lemma in_interval_iff (g : string) (startTime endTime : Z) (m : Messages.row) :
  Queries.in_interval g startTime endTime m = true
  <-> Messages.guild_id m = g
      /\ startTime <= Messages.timestamp m < endTime.
Proof.
  unfold Queries.in_interval.
  rewrite !andb_true_iff, String.eqb_eq, Z.leb_le, Z.ltb_lt. tauto.
Qed.

(** C5.  For every database, clock reading, community and period, each
    of the two rankings of [getAnalytics] has at most 10 entries, its
    counts never increase along the sequence, and every entry (id, n) is
    backed by the log: n is the number of the community's messages in
    the window with that author (that channel), and there is at least
    one such message. *)
Theorem getAnalytics_rankings (db : database) (now : Z) (g : string)
    (p : Queries.period) :
  (List.length (Queries.a_topUsers (Queries.getAnalytics db now g p)) <= 10)%nat
  /\ StronglySorted desc (Queries.a_topUsers (Queries.getAnalytics db now g p))
  /\ (forall u n,
         In (u, n) (Queries.a_topUsers (Queries.getAnalytics db now g p)) ->
         n = List.length
               (List.filter
                  (fun m => Queries.in_window g (now - Queries.timeRange p) m
                            && String.eqb (Messages.user_id m) u)
                  (messages db))
         /\ exists m, In m (messages db)
                      /\ Messages.guild_id m = g
                      /\ now - Queries.timeRange p <= Messages.timestamp m
                      /\ Messages.user_id m = u)
  /\ (List.length (Queries.a_topChannels (Queries.getAnalytics db now g p)) <= 10)%nat
  /\ StronglySorted desc (Queries.a_topChannels (Queries.getAnalytics db now g p))
  /\ (forall c n,
         In (c, n) (Queries.a_topChannels (Queries.getAnalytics db now g p)) ->
         n = List.length
               (List.filter
                  (fun m => Queries.in_window g (now - Queries.timeRange p) m
                            && String.eqb (Messages.channel_id m) c)
                  (messages db))
         /\ exists m, In m (messages db)
                      /\ Messages.guild_id m = g
                      /\ now - Queries.timeRange p <= Messages.timestamp m
                      /\ Messages.channel_id m = c).
Proof.
  simpl. unfold Queries.topUsers, Queries.topChannels.
  set (window := List.filter (Queries.in_window g (now - Queries.timeRange p)) (messages db)).
  destruct (top10_spec Messages.user_id window) as [Hlen [Hsort [_ Hin]]].
  destruct (top10_spec Messages.channel_id window) as [Hlen' [Hsort' [_ Hin']]].
  repeat (split; [assumption|]). split; [|repeat (split; [assumption|])].
  - intros u n H. destruct (Hin u n H) as [-> [_ [m [Hm Hu]]]].
    split.
    + unfold Queries.count_key, window. now rewrite filter_filter_and.
    + apply filter_In in Hm. destruct Hm as [Hm Hw].
      apply in_window_iff in Hw. exists m. tauto.
  - intros c n H. destruct (Hin' c n H) as [-> [_ [m [Hm Hc]]]].
    split.
    + unfold Queries.count_key, window. now rewrite filter_filter_and.
    + apply filter_In in Hm. destruct Hm as [Hm Hw].
      apply in_window_iff in Hw. exists m. tauto.
Qed.

Lemma filter_split_length {B : Type} (p q r : B -> bool) (l : list B) :
  (forall x, r x = p x || q x) -> (forall x, p x && q x = false) ->
  (List.length (List.filter p l) + List.length (List.filter q l))%nat
  = List.length (List.filter r l).
Proof.
  intros Hr Hpq. induction l as [|x l IH]; simpl; [reflexivity|].
  rewrite Hr. specialize (Hpq x).
  destruct (p x), (q x); simpl in *; try discriminate; lia.
Qed.

(** C6.  With the same clock reading [now] and window length w,
    [getPreviousAnalytics] counts the community's messages with
    now - 2w <= timestamp < now - w: a message at now - w is left out
    (and is in the current window), one at now - 2w is counted.  No
    message is counted both here and in the current total of
    [getAnalytics], and the two counts add up to the messages since
    now - 2w. *)
Theorem getPreviousAnalytics_half_open (db : database) (now : Z) (g : string)
    (p : Queries.period) :
  Queries.getPreviousAnalytics db now g p
  = List.length
      (List.filter
         (fun m => String.eqb (Messages.guild_id m) g
                   && (now - 2 * Queries.timeRange p <=? Messages.timestamp m)
                   && (Messages.timestamp m <? now - Queries.timeRange p))
         (messages db))
  /\ (forall m,
         Queries.in_interval g (now - Queries.timeRange p * 2)
           (now - Queries.timeRange p) m = true
         <-> Messages.guild_id m = g
             /\ now - 2 * Queries.timeRange p <= Messages.timestamp m
                < now - Queries.timeRange p)
  /\ (forall m,
         Queries.in_interval g (now - Queries.timeRange p * 2)
           (now - Queries.timeRange p) m = true ->
         Queries.in_window g (now - Queries.timeRange p) m = false)
  /\ (forall m,
         Messages.guild_id m = g ->
         Messages.timestamp m = now - Queries.timeRange p ->
         Queries.in_interval g (now - Queries.timeRange p * 2)
           (now - Queries.timeRange p) m = false
         /\ Queries.in_window g (now - Queries.timeRange p) m = true)
  /\ (forall m,
         Messages.guild_id m = g ->
         Messages.timestamp m = now - 2 * Queries.timeRange p ->
         Queries.in_interval g (now - Queries.timeRange p * 2)
           (now - Queries.timeRange p) m = true)
  /\ (Queries.getPreviousAnalytics db now g p
      + Queries.a_totalMessages (Queries.getAnalytics db now g p))%nat
     = List.length
         (List.filter (Queries.in_window g (now - 2 * Queries.timeRange p))
            (messages db)).
Proof.
  assert (Hw : 0 < Queries.timeRange p) by (destruct p; reflexivity).
  split.
  { unfold Queries.getPreviousAnalytics, Queries.in_interval.
    replace (Queries.timeRange p * 2) with (2 * Queries.timeRange p) by lia.
    reflexivity. }
  replace (Queries.timeRange p * 2) with (2 * Queries.timeRange p) by lia.
  split; [intros m; apply in_interval_iff|].
  split; [|split; [|split]].
  - intros m H. apply in_interval_iff in H. destruct H as [_ [_ H]].
    unfold Queries.in_window. apply andb_false_intro2. now apply Z.leb_gt.
  - intros m Hg Ht. unfold Queries.in_interval, Queries.in_window.
    rewrite Hg, Ht, String.eqb_refl, Z.ltb_irrefl, Z.leb_refl.
    now rewrite andb_false_r.
  - intros m Hg Ht. apply in_interval_iff. split; [exact Hg|lia].
  - change (Queries.a_totalMessages (Queries.getAnalytics db now g p))
      with (Queries.totalMessages db g (now - Queries.timeRange p)).
    unfold Queries.getPreviousAnalytics, Queries.totalMessages.
    replace (Queries.timeRange p * 2) with (2 * Queries.timeRange p) by lia.
    apply filter_split_length; intros m;
      unfold Queries.in_interval, Queries.in_window;
      destruct (String.eqb (Messages.guild_id m) g);
      cbn [andb orb]; try reflexivity.
    + destruct (Z.leb_spec (now - 2 * Queries.timeRange p) (Messages.timestamp m)),
        (Z.ltb_spec (Messages.timestamp m) (now - Queries.timeRange p)),
        (Z.leb_spec (now - Queries.timeRange p) (Messages.timestamp m));
        cbn [andb orb]; try reflexivity; lia.
    + destruct (Z.leb_spec (now - 2 * Queries.timeRange p) (Messages.timestamp m)),
        (Z.ltb_spec (Messages.timestamp m) (now - Queries.timeRange p)),
        (Z.leb_spec (now - Queries.timeRange p) (Messages.timestamp m));
        cbn [andb orb]; try reflexivity; lia.
Qed.

End Aggregation.

(** ** The heat map *)

Section Heatmap.

Lemma combine_fst {B C : Type} (l : list B) (l' : list C) :
  List.length l = List.length l' -> map fst (combine l l') = l.
Proof.
  revert l'. induction l as [|x l IH]; intros [|y l'] H; simpl in *;
    try discriminate; [reflexivity|].
  f_equal. apply IH. now injection H.
Qed.

Lemma combine_snd {B C : Type} (l : list B) (l' : list C) :
  List.length l = List.length l' -> map snd (combine l l') = l'.
Proof.
  revert l'. induction l as [|x l IH]; intros [|y l'] H; simpl in *;
    try discriminate; [reflexivity|].
  f_equal. apply IH. now injection H.
Qed.

Lemma hours_nth (h : nat) :
  (h < 24)%nat -> nth_error ChartGenerator.hours h = Some (Z.of_nat h).
Proof.
  intros H. unfold ChartGenerator.hours.
  rewrite nth_error_map.
  rewrite (nth_error_nth' (seq 0 24) 0%nat) by (now rewrite length_seq).
  rewrite seq_nth by exact H. reflexivity.
Qed.

Lemma count_at_present (hourlyActivity : list Queries.hour_row)
    (a : Queries.hour_row) :
  NoDup (map Queries.hour hourlyActivity) ->
  In a hourlyActivity ->
  ChartGenerator.count_at hourlyActivity (Queries.hour a) = Queries.count a.
Proof.
  unfold ChartGenerator.count_at.
  induction hourlyActivity as [|x l IH]; simpl; intros Hnd Hin; [destruct Hin|].
  inversion Hnd as [|? ? Hx Hl]; subst.
  destruct Hin as [->|Hin].
  - now rewrite Z.eqb_refl.
  - destruct (Z.eqb_spec (Queries.hour x) (Queries.hour a)) as [E|E].
    + exfalso. apply Hx. rewrite E. now apply in_map.
    + now apply IH.
Qed.

Lemma count_at_absent (hourlyActivity : list Queries.hour_row) (h : Z) :
  (forall a, In a hourlyActivity -> Queries.hour a <> h) ->
  ChartGenerator.count_at hourlyActivity h = 0.
Proof.
  unfold ChartGenerator.count_at. intros H.
  destruct (find _ hourlyActivity) as [a|] eqn:F; [|reflexivity].
  apply find_some in F. destruct F as [Hin Ha].
  apply Z.eqb_eq in Ha. now destruct (H a Hin).
Qed.

(** The hourly rows of [getAnalytics] are such an input: every hour at
    most once, between 0 and 23, with a positive count. *)
Lemma hourlyActivity_sparse (db : Init.database) (g : string) (startTime : Z) :
  NoDup (map Queries.hour (Queries.hourlyActivity db g startTime))
  /\ Forall (fun a => 0 <= Queries.hour a < 24 /\ 0 < Queries.count a)
       (Queries.hourlyActivity db g startTime).
Proof.
  unfold Queries.hourlyActivity.
  set (window := List.filter (Queries.in_window g startTime) (Init.messages db)).
  set (row := fun h => {| Queries.hour := h; Queries.count := _ |}).
  split.
  - assert (Hmap : forall l,
               map Queries.hour
                 (List.filter (fun a => 0 <? Queries.count a) (map row l))
               = List.filter (fun h => 0 <? Queries.count (row h)) l).
    { induction l as [|h l IH]; simpl; [reflexivity|].
      destruct (0 <? _); simpl; now rewrite IH. }
    rewrite Hmap. apply NoDup_filter.
    generalize (seq_NoDup 24 0). generalize (seq 0 24).
    induction 1 as [|n l Hn Hl IH]; simpl; constructor; [|exact IH].
    rewrite in_map_iff. intros [k [Hk Hin]].
    apply Nat2Z.inj in Hk. now subst.
  - apply Forall_forall. intros a Ha. apply filter_In in Ha.
    destruct Ha as [Ha Hpos]. apply Z.ltb_lt in Hpos. split; [|exact Hpos].
    apply in_map_iff in Ha. destruct Ha as [h [<- Hh]].
    apply in_map_iff in Hh. destruct Hh as [n [<- Hn]].
    apply in_seq in Hn. simpl. lia.
Qed.

(** C7.  For an [hourlyActivity] that has each hour at most once, the
    heat map has exactly 24 entries, labelled 0:00 up to 23:00 in this
    order, and the entry of hour h is the count given for h when the
    input has h, and 0 when it has not. *)
Theorem generateHeatmap_dense (hourlyActivity : list Queries.hour_row) :
  NoDup (map Queries.hour hourlyActivity) ->
  List.length (ChartGenerator.generateHeatmap hourlyActivity) = 24%nat
  /\ ChartGenerator.hours
     = [0; 1; 2; 3; 4; 5; 6; 7; 8; 9; 10; 11; 12; 13; 14; 15; 16; 17; 18; 19;
        20; 21; 22; 23]
  /\ map fst (ChartGenerator.generateHeatmap hourlyActivity)
     = ["0:00"; "1:00"; "2:00"; "3:00"; "4:00"; "5:00"; "6:00"; "7:00";
        "8:00"; "9:00"; "10:00"; "11:00"; "12:00"; "13:00"; "14:00"; "15:00";
        "16:00"; "17:00"; "18:00"; "19:00"; "20:00"; "21:00"; "22:00"; "23:00"]
  /\ forall h, (h < 24)%nat ->
       exists c,
         nth_error (map snd (ChartGenerator.generateHeatmap hourlyActivity)) h = Some c
         /\ (forall a, In a hourlyActivity ->
                       Queries.hour a = Z.of_nat h ->
                       c = Queries.count a)
         /\ ((forall a, In a hourlyActivity -> Queries.hour a <> Z.of_nat h) ->
             c = 0).
Proof.
  intros Hnd.
  assert (Hlen : List.length (ChartGenerator.counts hourlyActivity) = 24%nat).
  { unfold ChartGenerator.counts. now rewrite length_map. }
  assert (Hsnd : map snd (ChartGenerator.generateHeatmap hourlyActivity)
                 = ChartGenerator.counts hourlyActivity).
  { unfold ChartGenerator.generateHeatmap.
    apply combine_snd. now rewrite Hlen. }
  assert (Hfst : map fst (ChartGenerator.generateHeatmap hourlyActivity)
                 = ChartGenerator.labels).
  { unfold ChartGenerator.generateHeatmap.
    apply combine_fst. now rewrite Hlen. }
  split; [|split; [reflexivity|split]].
  - rewrite <- (length_map snd), Hsnd. exact Hlen.
  - rewrite Hfst. reflexivity.
  - intros h Hh. exists (ChartGenerator.count_at hourlyActivity (Z.of_nat h)).
    split; [|split].
    + rewrite Hsnd. unfold ChartGenerator.counts.
      now rewrite nth_error_map, (hours_nth h Hh).
    + intros a Hin Ha. rewrite <- Ha. now apply count_at_present.
    + now apply count_at_absent.
Qed.

Lemma generateHeatmap_dense_witness :
  NoDup (map Queries.hour
           [ {| Queries.hour := 9; Queries.count := 4 |};
             {| Queries.hour := 21; Queries.count := 1 |} ])
  /\ List.length
       (ChartGenerator.generateHeatmap
          [ {| Queries.hour := 9; Queries.count := 4 |};
            {| Queries.hour := 21; Queries.count := 1 |} ])
     = 24%nat.
Proof.
  assert (Hnd : NoDup (map Queries.hour
           [ {| Queries.hour := 9; Queries.count := 4 |};
             {| Queries.hour := 21; Queries.count := 1 |} ])).
  { simpl. constructor.
    - simpl. intros [H|[]]. discriminate H.
    - constructor; [intros []|constructor]. }
  split; [exact Hnd|].
  exact (proj1 (generateHeatmap_dense _ Hnd)).
Defined.

End Heatmap.

(** ** The settings session *)

Section Session.
Import Init.

(** Before the collector ends, an interaction of the operator reaches
    the listener. *)
Lemma deliver_in_time (s : SettingsCommand.session) (db : database) (now : Z)
    (i : SettingsCommand.component_interaction) :
  now < SettingsCommand.expires_at s ->
  SettingsCommand.user_id i = SettingsCommand.operator s ->
  SettingsCommand.deliver s db now i = SettingsCommand.on_collect s db i.
Proof.
  intros Hnow Huser. unfold SettingsCommand.deliver, SettingsCommand.ended,
    SettingsCommand.filter.
  destruct (Z.leb_spec (SettingsCommand.expires_at s) now); [lia|].
  now rewrite Huser, String.eqb_refl.
Qed.

(** An interaction of somebody else is ignored. *)
Lemma deliver_other_user (s : SettingsCommand.session) (db : database) (now : Z)
    (i : SettingsCommand.component_interaction) :
  SettingsCommand.user_id i <> SettingsCommand.operator s ->
  SettingsCommand.deliver s db now i = Ok (s, db, []).
Proof.
  intros Huser. unfold SettingsCommand.deliver, SettingsCommand.filter.
  destruct (SettingsCommand.ended s now); [reflexivity|].
  apply String.eqb_neq in Huser. now rewrite Huser.
Qed.

(** An action that is handled writes at most the one column it is about:
    rows of other communities and all other columns stay. *)
Lemma on_collect_writes_one_column (s s' : SettingsCommand.session) (db db' : database)
    (i : SettingsCommand.component_interaction) (out : list SettingsCommand.output) :
  SettingsCommand.on_collect s db i = Ok (s', db', out) ->
  exists target,
    Forall2
      (fun old new =>
         if Queries.is_guild (SettingsCommand.guild s) old
         then forall c, c <> target ->
                        GuildSettings.get c new = GuildSettings.get c old
         else new = old)
      (guild_settings db) (guild_settings db').
Proof.
  unfold SettingsCommand.on_collect.
  assert (Hone : forall k v c0 d,
             GuildSettings.column_of_name k = Some c0 ->
             Queries.updateGuildSettings db (SettingsCommand.guild s) [(k, v)] = Ok d ->
             Forall2
               (fun old new =>
                  if Queries.is_guild (SettingsCommand.guild s) old
                  then forall c, c <> c0 ->
                                 GuildSettings.get c new = GuildSettings.get c old
                  else new = old)
               (guild_settings db) (guild_settings d)).
  { intros k v c0 d Hk Hupd.
    eapply Forall2_impl; [|exact (updateGuildSettings_rows _ _ _ _ Hupd)].
    intros old new Hrow. simpl in Hrow.
    destruct (Queries.is_guild (SettingsCommand.guild s) old); [|exact Hrow].
    intros c Hc. apply Hrow. intros [k' [[<-|[]] Hk']].
    simpl in Hk'. congruence. }
  destruct (String.eqb (SettingsCommand.customId i) "toggle_tracking").
  { destruct (Queries.updateGuildSettings db _ _) as [d|e] eqn:U; simpl; [|discriminate].
    intros H. injection H as _ <- _. exists GuildSettings.col_enabled.
    exact (Hone "enabled" _ GuildSettings.col_enabled _ eq_refl U). }
  destruct (String.eqb (SettingsCommand.customId i) "toggle_notifications").
  { destruct (Queries.updateGuildSettings db _ _) as [d|e] eqn:U; simpl; [|discriminate].
    intros H. injection H as _ <- _. exists GuildSettings.col_notifications_enabled.
    exact (Hone "notifications_enabled" _ GuildSettings.col_notifications_enabled _
             eq_refl U). }
  destruct (String.eqb (SettingsCommand.customId i) "set_log_channel").
  { destruct (SettingsCommand.values i) as [|channelId rest].
    - destruct (Queries.updateGuildSettings db (SettingsCommand.guild s)
                  [("log_channel_id", SqlNull)]) as [d|e] eqn:U;
        simpl; [|discriminate].
      intros H. injection H as _ <- _. exists GuildSettings.col_log_channel_id.
      exact (Hone "log_channel_id" _ GuildSettings.col_log_channel_id _ eq_refl U).
    - destruct (Queries.updateGuildSettings db (SettingsCommand.guild s)
                  [("log_channel_id", SqlText channelId)]) as [d|e] eqn:U;
        simpl; [|discriminate].
      intros H. injection H as _ <- _. exists GuildSettings.col_log_channel_id.
      exact (Hone "log_channel_id" _ GuildSettings.col_log_channel_id _ eq_refl U). }
  simpl. intros H. injection H as _ <- _. exists GuildSettings.col_enabled.
  clear Hone. induction (guild_settings db) as [|x l IH]; constructor; [|exact IH].
  destruct (Queries.is_guild (SettingsCommand.guild s) x); reflexivity.
Qed.

(** C2, as amended.  The session expires 5 minutes after its creation,
    and an interaction that arrives after that changes nothing: the
    database and the session's own copy of the settings are as before,
    and nothing is sent, neither a reply nor a new view.  The session
    stays ended from then on. *)
Theorem expired_session_ignores_action (s : SettingsCommand.session) (db : database)
    (now : Z) (i : SettingsCommand.component_interaction) :
  SettingsCommand.expires_at s < now ->
  SettingsCommand.expires_at s = SettingsCommand.created_at s + 5 * 60 * 1000
  /\ SettingsCommand.deliver s db now i = Ok (s, db, [])
  /\ forall later, now <= later -> SettingsCommand.ended s later = true.
Proof.
  intros Hnow. split; [reflexivity|]. split.
  - unfold SettingsCommand.deliver, SettingsCommand.ended.
    destruct (Z.leb_spec (SettingsCommand.expires_at s) now); [reflexivity|lia].
  - intros later Hlater. unfold SettingsCommand.ended. apply Z.leb_le. lia.
Qed.

Lemma expired_session_ignores_action_witness :
  SettingsCommand.expires_at
    {| SettingsCommand.guild := "1001"; SettingsCommand.operator := "42";
       SettingsCommand.created_at := 0;
       SettingsCommand.settings := SettingsObject.literal "1001";
       SettingsCommand.tracked := "All channels" |} < 300001
  /\ SettingsCommand.deliver
       {| SettingsCommand.guild := "1001"; SettingsCommand.operator := "42";
          SettingsCommand.created_at := 0;
          SettingsCommand.settings := SettingsObject.literal "1001";
          SettingsCommand.tracked := "All channels" |}
       (with_guild_settings initDatabase [GuildSettings.default_row "1001"])
       300001
       {| SettingsCommand.user_id := "42";
          SettingsCommand.customId := "toggle_tracking";
          SettingsCommand.values := [] |}
     = Ok ({| SettingsCommand.guild := "1001"; SettingsCommand.operator := "42";
              SettingsCommand.created_at := 0;
              SettingsCommand.settings := SettingsObject.literal "1001";
              SettingsCommand.tracked := "All channels" |},
           with_guild_settings initDatabase [GuildSettings.default_row "1001"],
           []).
Proof.
  split; [reflexivity|].
  exact (proj1 (proj2 (expired_session_ignores_action
    {| SettingsCommand.guild := "1001"; SettingsCommand.operator := "42";
       SettingsCommand.created_at := 0;
       SettingsCommand.settings := SettingsObject.literal "1001";
       SettingsCommand.tracked := "All channels" |}
    (with_guild_settings initDatabase [GuildSettings.default_row "1001"])
    300001
    {| SettingsCommand.user_id := "42";
       SettingsCommand.customId := "toggle_tracking";
       SettingsCommand.values := [] |}
    eq_refl))).
Defined.

(** C2, as the specification states it, fails: the operator is not told
    that the session expired.  The session of operator 42 opened at time
    0 for community 1001; the operator's toggle at 300001 is answered by
    nothing at all. *)
Lemma expired_session_sends_no_signal :
  SettingsCommand.execute JSON_parse_default initDatabase 0 "1001" "42"
  = (with_guild_settings initDatabase [GuildSettings.default_row "1001"],
     Ok ({| SettingsCommand.guild := "1001"; SettingsCommand.operator := "42";
            SettingsCommand.created_at := 0;
            SettingsCommand.settings := SettingsObject.literal "1001";
            SettingsCommand.tracked := "All channels" |},
         [SettingsCommand.Show
            (SettingsCommand.render (SettingsObject.literal "1001") "All channels")]))
  /\ ~ exists s' db' signal rest,
         SettingsCommand.deliver
           {| SettingsCommand.guild := "1001"; SettingsCommand.operator := "42";
              SettingsCommand.created_at := 0;
              SettingsCommand.settings := SettingsObject.literal "1001";
              SettingsCommand.tracked := "All channels" |}
           (with_guild_settings initDatabase [GuildSettings.default_row "1001"])
           300001
           {| SettingsCommand.user_id := "42";
              SettingsCommand.customId := "toggle_tracking";
              SettingsCommand.values := [] |}
         = Ok (s', db', signal :: rest).
Proof.
  split; [reflexivity|].
  intros [s' [db' [signal [rest H]]]]. discriminate H.
Qed.

End Session.

(** ** The change figure of the reports *)

(** *** Rounding to binary64

    What the operations of [SpecFloat], which specify the primitive
    floats, do to the numbers of [Report.percent]: the position of a
    number between two mantissas survives the shifts, rounding to
    nearest moves it by at most half a unit, and the result keeps 53
    bits. *)

Section Binary64.

(** The number of binary digits of a mantissa. *)
Lemma digits2_pos_bounds (p : positive) :
  2 ^ (Z.pos (digits2_pos p) - 1) <= Z.pos p < 2 ^ Z.pos (digits2_pos p).
Proof.
  induction p as [p IH|p IH|]; cbn [digits2_pos].
  - rewrite Pos2Z.inj_succ.
    replace (Z.succ (Z.pos (digits2_pos p)) - 1) with (Z.succ (Z.pos (digits2_pos p) - 1)) by lia.
    rewrite !Z.pow_succ_r by lia. lia.
  - rewrite Pos2Z.inj_succ.
    replace (Z.succ (Z.pos (digits2_pos p)) - 1) with (Z.succ (Z.pos (digits2_pos p) - 1)) by lia.
    rewrite !Z.pow_succ_r by lia. lia.
  - simpl. lia.
Qed.

Lemma digits2_pos_unique (p : positive) (k : Z) :
  2 ^ (k - 1) <= Z.pos p < 2 ^ k -> Z.pos (digits2_pos p) = k.
Proof.
  intros [Hl Hu]. pose proof (digits2_pos_bounds p) as [Hl' Hu'].
  set (d := Z.pos (digits2_pos p)) in *.
  assert (0 < k).
  { destruct (Z.ltb_spec 0 k); [assumption|]. rewrite Z.pow_neg_r in Hl by lia.
    destruct (Z.eq_dec k 0) as [->|]; [simpl in Hu; lia|].
    rewrite Z.pow_neg_r in Hu by lia. lia. }
  assert (d - 1 < k) by (apply (Z.pow_lt_mono_r_iff 2); lia).
  assert (k - 1 < d) by (apply (Z.pow_lt_mono_r_iff 2); lia).
  lia.
Qed.

Lemma shr_record_of_loc_spec (m : Z) (l : location) :
  shr_m (shr_record_of_loc m l) = m
  /\ loc_of_shr_record (shr_record_of_loc m l) = l.
Proof. destruct l as [|[]]; split; reflexivity. Qed.

(** One shift to the right halves the mantissa; the bit that drops out
    and the bits dropped before say where m + r / d lies after it. *)
Lemma shr_1_spec (mrs : shr_record) (r d : Z) :
  0 <= shr_m mrs -> 0 <= r < d ->
  loc_of_shr_record mrs = loc_of r d ->
  shr_m (shr_1 mrs) = shr_m mrs / 2
  /\ loc_of_shr_record (shr_1 mrs) = loc_of (shr_m mrs mod 2 * d + r) (2 * d).
Proof.
  destruct mrs as [m rb sb]. cbn [shr_m]. intros Hm Hr Hloc.
  assert (Hs : orb rb sb = negb (r =? 0)).
  { unfold loc_of in Hloc. destruct (r =? 0), rb, sb; simpl in *; congruence. }
  assert (Hcase : exists q b, m = 2 * q + (if b : bool then 1 else 0)).
  { exists (m / 2), (m mod 2 =? 1).
    pose proof (Z.div_mod m 2 ltac:(lia)). pose proof (Z.mod_pos_bound m 2 ltac:(lia)).
    destruct (Z.eqb_spec (m mod 2) 1); lia. }
  destruct Hcase as [q [b Hq]].
  assert (Hdiv : m / 2 = q).
  { symmetry. apply (Z.div_unique m 2 q (if b then 1 else 0)); [destruct b; lia|lia]. }
  assert (Hmod : m mod 2 = if b then 1 else 0).
  { symmetry. apply (Z.mod_unique m 2 q (if b then 1 else 0)); [destruct b; lia|lia]. }
  rewrite Hdiv, Hmod.
  assert (Hshr : shr_1 {| shr_m := m; shr_r := rb; shr_s := sb |}
                 = {| shr_m := q; shr_r := b; shr_s := orb rb sb |}).
  { unfold shr_1. destruct m as [|[p|p|]|p]; try lia.
    - destruct b; [lia|]. assert (H : q = 0) by lia. now rewrite H.
    - destruct b; [|lia]. assert (H : q = Z.pos p) by lia. now rewrite H.
    - destruct b; [lia|]. assert (H : q = Z.pos p) by lia. now rewrite H.
    - destruct b; [|lia]. assert (H : q = 0) by lia. now rewrite H. }
  rewrite Hshr. cbn [shr_m]. split; [reflexivity|].
  rewrite Hs. unfold loc_of.
  destruct b; destruct (Z.eqb_spec r 0) as [Hr0|Hr0]; simpl negb; cbn [loc_of_shr_record].
  - destruct (Z.eqb_spec (1 * d + r) 0); [lia|].
    replace (2 * (1 * d + r) ?= 2 * d) with Eq; [reflexivity|].
    symmetry. apply Z.compare_eq_iff. lia.
  - destruct (Z.eqb_spec (1 * d + r) 0); [lia|].
    replace (2 * (1 * d + r) ?= 2 * d) with Gt; [reflexivity|].
    symmetry. apply Z.compare_gt_iff. lia.
  - destruct (Z.eqb_spec (0 * d + r) 0); [reflexivity|lia].
  - destruct (Z.eqb_spec (0 * d + r) 0); [lia|].
    replace (2 * (0 * d + r) ?= 2 * d) with Lt; [reflexivity|].
    symmetry. apply Z.compare_lt_iff. lia.
Qed.

Lemma iter_pos_nat {A : Type} (f : A -> A) (p : positive) (x : A) :
  iter_pos f p x = Nat.iter (Pos.to_nat p) f x.
Proof.
  revert x. induction p as [p IH|p IH|]; intros x; cbn [iter_pos].
  - rewrite !IH, Pos2Nat.inj_xI.
    rewrite <- Nat.iter_succ_r, <- Nat.iter_add. f_equal. lia.
  - rewrite !IH, Pos2Nat.inj_xO. rewrite <- Nat.iter_add. f_equal. lia.
  - reflexivity.
Qed.

(** So do k shifts, with 2^k for 2. *)
Lemma shr_iter_spec (k : nat) (mrs : shr_record) (r d : Z) :
  0 <= shr_m mrs -> 0 <= r < d ->
  loc_of_shr_record mrs = loc_of r d ->
  shr_m (Nat.iter k shr_1 mrs) = shr_m mrs / 2 ^ Z.of_nat k
  /\ loc_of_shr_record (Nat.iter k shr_1 mrs)
     = loc_of (shr_m mrs mod 2 ^ Z.of_nat k * d + r) (2 ^ Z.of_nat k * d).
Proof.
  intros Hm Hr Hloc. induction k as [|k [IHm IHl]].
  - change (Nat.iter 0 shr_1 mrs) with mrs. change (Z.of_nat 0) with 0.
    rewrite Z.pow_0_r, Z.div_1_r, Z.mod_1_r. split; [reflexivity|].
    rewrite Hloc. now rewrite Z.mul_0_l, Z.add_0_l, Z.mul_1_l.
  - change (Nat.iter (S k) shr_1 mrs) with (shr_1 (Nat.iter k shr_1 mrs)).
    set (m := shr_m mrs) in *.
    assert (Hp : 0 < 2 ^ Z.of_nat k) by (apply Z.pow_pos_nonneg; lia).
    pose proof (Z.mod_pos_bound m (2 ^ Z.of_nat k) Hp) as Hmod.
    destruct (shr_1_spec (Nat.iter k shr_1 mrs)
                (m mod 2 ^ Z.of_nat k * d + r) (2 ^ Z.of_nat k * d)) as [Hm' Hl'].
    + rewrite IHm. apply Z.div_pos; lia.
    + nia.
    + exact IHl.
    + rewrite Hm', Hl', IHm, Nat2Z.inj_succ, Z.pow_succ_r by lia.
      rewrite Z.div_div by lia.
      rewrite (Z.mul_comm 2 (2 ^ Z.of_nat k)).
      split; [reflexivity|]. f_equal; [|lia].
      rewrite (Z.rem_mul_r m (2 ^ Z.of_nat k) 2) by lia. lia.
Qed.

Lemma fexp_value (x : Z) : fexp prec emax x = Z.max (x - 53) (-1074).
Proof. reflexivity. Qed.

Lemma shr_spec (m e n r d : Z) :
  0 <= m -> 0 <= n -> 0 <= r < d ->
  exists mrs,
    shr (shr_record_of_loc m (loc_of r d)) e n = (mrs, e + n)
    /\ shr_m mrs = m / 2 ^ n
    /\ loc_of_shr_record mrs = loc_of (m mod 2 ^ n * d + r) (2 ^ n * d).
Proof.
  intros Hm Hn Hr.
  destruct (shr_record_of_loc_spec m (loc_of r d)) as [Hm0 Hl0].
  destruct n as [|p|p]; [| |lia].
  - exists (shr_record_of_loc m (loc_of r d)). cbn [shr].
    rewrite Z.add_0_r. split; [reflexivity|].
    destruct (shr_iter_spec 0 (shr_record_of_loc m (loc_of r d)) r d) as [H1 H2];
      rewrite ?Hm0; auto.
    change (Nat.iter 0 shr_1 (shr_record_of_loc m (loc_of r d)))
      with (shr_record_of_loc m (loc_of r d)) in *.
    rewrite Hm0 in *. change (Z.of_nat 0) with 0 in *. now split.
  - exists (iter_pos shr_1 p (shr_record_of_loc m (loc_of r d))). cbn [shr].
    split; [reflexivity|]. rewrite iter_pos_nat.
    destruct (shr_iter_spec (Pos.to_nat p) (shr_record_of_loc m (loc_of r d)) r d)
      as [H1 H2]; rewrite ?Hm0; auto.
    rewrite Hm0, positive_nat_Z in *. now split.
Qed.

(** Rounding to nearest moves m + r / d by at most one half, and not at
    all when r = 0. *)
Lemma round_nearest_even_spec (m r d : Z) :
  0 <= r < d ->
  let M := round_nearest_even m (loc_of r d) in
  (M = m \/ M = m + 1)
  /\ - d <= 2 * (d * M - (m * d + r)) <= d
  /\ (r = 0 -> M = m).
Proof.
  intros Hr M. subst M. unfold loc_of, round_nearest_even.
  destruct (Z.eqb_spec r 0) as [->|Hr0].
  - split; [now left|]. split; [lia|reflexivity].
  - destruct (Z.compare_spec (2 * r) d) as [H|H|H].
    + destruct (Z.even m); (split; [auto|split; [nia|lia]]).
    + split; [auto|split; [nia|lia]].
    + split; [auto|split; [nia|lia]].
Qed.

Lemma pow2_pos (n : Z) : 0 <= n -> 0 < 2 ^ n.
Proof. intros. apply Z.pow_pos_nonneg; lia. Qed.

(** The rounding of (m + r / d) * 2^e for a mantissa m of 53 bits or
    more, in the range of the normal doubles: the result is a double
    with 53 bits, F * 2^e for an integer F, whose distance from the
    number is at most 2^-53 of it; and it is the number itself when no
    bit other than 0 is dropped. *)
Lemma binary_round_aux_spec (s : bool) (pm : positive) (e r d : Z) :
  let m := Z.pos pm in
  let n := Z.pos (digits2_pos pm) - 53 in
  0 <= r < d -> 0 <= n -> -1074 <= e + n -> e + n < 971 ->
  exists pm' e',
    binary_round_aux prec emax s m e (loc_of r d) = S754_finite s pm' e'
    /\ Z.pos (digits2_pos pm') = 53
    /\ e + n <= e' <= e + n + 1
    /\ 2 ^ 53 * Z.abs (d * (Z.pos pm' * 2 ^ (e' - e)) - (m * d + r)) <= m * d + r
    /\ (m mod 2 ^ n * d + r = 0 -> e' = e + n /\ Z.pos pm' * 2 ^ n = m).
Proof.
  intros m n Hr Hn Hlo Hhi.
  pose proof (digits2_pos_bounds pm) as Hdig. fold m in Hdig.
  replace (Z.pos (digits2_pos pm)) with (n + 53) in Hdig by (unfold n; lia).
  replace (n + 53 - 1) with (52 + n) in Hdig by lia.
  rewrite (Z.add_comm n 53) in Hdig.
  rewrite !Z.pow_add_r in Hdig by lia.
  pose proof (pow2_pos n Hn) as Hpn.
  set (u := 2 ^ n) in *.
  unfold binary_round_aux, shr_fexp.
  change (Zdigits2 m) with (Z.pos (digits2_pos pm)).
  rewrite fexp_value.
  replace (Z.max (Z.pos (digits2_pos pm) + e - 53) (-1074) - e) with n by (unfold n; lia).
  destruct (shr_spec m e n r d ltac:(lia) Hn Hr) as [mrs1 [E1 [Hm1 Hl1]]].
  rewrite E1. fold u in Hm1, Hl1.
  pose proof (Z.div_mod m u ltac:(lia)) as Hdm.
  pose proof (Z.mod_pos_bound m u ltac:(lia)) as Hmod.
  set (m1 := m / u) in *. set (r0 := m mod u) in *.
  assert (Hm1b : 2 ^ 52 <= m1 < 2 ^ 53) by (split; nia).
  assert (Hr1 : 0 <= r0 * d + r < u * d) by nia.
  rewrite Hm1, Hl1.
  destruct (round_nearest_even_spec m1 (r0 * d + r) (u * d) Hr1) as [HM [Herr Hex]].
  set (M := round_nearest_even m1 (loc_of (r0 * d + r) (u * d))) in *.
  assert (Hmd : m * d + r = m1 * (u * d) + (r0 * d + r)) by (rewrite Hdm; ring).
  assert (Hrel : 2 ^ 53 * Z.abs (u * d * M - (m1 * (u * d) + (r0 * d + r)))
                 <= m1 * (u * d) + (r0 * d + r)).
  { assert (Hbig : 2 ^ 52 * (u * d) <= m1 * (u * d)) by nia.
    change (2 ^ 53) with 9007199254740992 in *.
    change (2 ^ 52) with 4503599627370496 in *.
    revert Herr Hbig Hr1. generalize (u * d) (r0 * d + r) (m1 * (u * d)) (u * d * M).
    intros. lia. }
  destruct (Z.eq_dec M (2 ^ 53)) as [HM53|HM53].
  - (* the rounding carried into the next binade *)
    rewrite HM53.
    exists (4503599627370496%positive), (e + n + 1).
    split.
    { change (Zdigits2 (2 ^ 53)) with 54. rewrite fexp_value.
      replace (Z.max (54 + (e + n) - 53) (-1074) - (e + n)) with 1 by lia.
      cbn [shr shr_record_of_loc iter_pos]. cbn -[Z.leb Z.add Z.sub].
      change (emax - prec) with 971.
      replace (e + n + 1 <=? 971) with true by (symmetry; apply Z.leb_le; lia).
      reflexivity. }
    split; [reflexivity|]. split; [lia|]. split.
    + replace (e + n + 1 - e) with (1 + n) by lia.
      rewrite Z.pow_add_r by lia. fold u.
      change (2 ^ 1) with 2.
      replace (d * (4503599627370496 * (2 * u))) with (u * d * M)
        by (rewrite HM53; change (2 ^ 53) with 9007199254740992; ring).
      rewrite Hmd. exact Hrel.
    + intros H0. specialize (Hex H0). lia.
  - assert (HMb : 2 ^ 52 <= M < 2 ^ 53) by lia.
    destruct M as [|pM|pM] eqn:EM; [lia| |lia].
    exists pM, (e + n).
    assert (HdM : Z.pos (digits2_pos pM) = 53) by (apply digits2_pos_unique; exact HMb).
    split.
    { change (Zdigits2 (Z.pos pM)) with (Z.pos (digits2_pos pM)).
      rewrite HdM, fexp_value.
      replace (Z.max (53 + (e + n) - 53) (-1074) - (e + n)) with 0 by lia.
      cbn [shr shr_record_of_loc shr_m].
      change (emax - prec) with 971.
      replace (e + n <=? 971) with true by (symmetry; apply Z.leb_le; lia).
      reflexivity. }
    split; [exact HdM|]. split; [lia|]. split.
    + replace (e + n - e) with n by lia. fold u.
      replace (d * (Z.pos pM * u)) with (u * d * Z.pos pM) by ring.
      rewrite Hmd. exact Hrel.
    + intros H0. specialize (Hex H0). split; [reflexivity|]. fold u. nia.
Qed.

Lemma iter_xO_value (p k : positive) : Z.pos (Pos.iter xO p k) = Z.pos p * 2 ^ Z.pos k.
Proof.
  induction k as [|k IH] using Pos.peano_ind.
  - simpl. lia.
  - rewrite Pos.iter_succ, Pos2Z.inj_succ, Z.pow_succ_r by lia.
    change (Z.pos (Pos.iter xO p k)~0) with (2 * Z.pos (Pos.iter xO p k)). lia.
Qed.

Lemma shl_align_le (mx : positive) (ex ex' : Z) :
  ex' <= ex ->
  exists mx', shl_align mx ex ex' = (mx', ex') /\ Z.pos mx' = Z.pos mx * 2 ^ (ex - ex').
Proof.
  intros H. unfold shl_align.
  destruct (ex' - ex) as [|p|p] eqn:E; [|lia|].
  - exists mx. assert (ex' = ex) as -> by lia. split; [reflexivity|].
    rewrite Z.sub_diag. simpl. lia.
  - exists (Pos.iter xO mx p). split; [reflexivity|].
    rewrite iter_xO_value. f_equal. f_equal. lia.
Qed.

Lemma shl_align_ge (mx : positive) (ex ex' : Z) :
  ex <= ex' -> shl_align mx ex ex' = (mx, ex).
Proof.
  intros H. unfold shl_align. destruct (ex' - ex) as [|p|p] eqn:E; [reflexivity|reflexivity|lia].
Qed.

Lemma holds_integer_range (pm : positive) (e c : Z) :
  holds_integer pm e c -> 0 < c -> -53 < e <= 0 /\ c < 2 ^ 53 /\ 2 ^ 52 <= Z.pos pm < 2 ^ 53.
Proof.
  intros [He [Hv Hd]] Hc.
  pose proof (digits2_pos_bounds pm) as Hb. rewrite Hd in Hb.
  change (53 - 1) with 52 in Hb.
  pose proof (pow2_pos (- e) ltac:(lia)) as Hp.
  assert (H1 : 2 ^ (- e) < 2 ^ 53) by nia.
  apply (Z.pow_lt_mono_r_iff 2) in H1; [|lia|lia].
  repeat split; try lia; nia.
Qed.

(** An integer below 2^53, however it is written, rounds to itself. *)
Lemma binary_round_integer (s : bool) (pm : positive) (e c : Z) :
  -1000 <= e <= 0 -> Z.pos pm = c * 2 ^ (- e) -> 0 < c < 2 ^ 53 ->
  exists pm' e',
    binary_round prec emax s pm e = S754_finite s pm' e' /\ holds_integer pm' e' c.
Proof.
  intros He Hv Hc. unfold binary_round. rewrite fexp_value.
  pose proof (digits2_pos_bounds pm) as Hb.
  set (dm := Z.pos (digits2_pos pm)) in *.
  assert (Hdm : 0 < dm) by (unfold dm; lia).
  pose proof (pow2_pos (- e) ltac:(lia)) as Hp.
  assert (Hdme : dm <= 53 - e).
  { assert (H1 : 2 ^ (dm - 1) < 2 ^ (53 - e)).
    { replace (53 - e) with (53 + - e) by lia. rewrite Z.pow_add_r by lia.
      change (2 ^ 53) with 9007199254740992 in *. nia. }
    apply (Z.pow_lt_mono_r_iff 2) in H1; lia. }
  replace (Z.max (dm + e - 53) (-1074)) with (dm + e - 53) by lia.
  destruct (Z.le_gt_cases dm 53) as [Hle|Hgt].
  - destruct (shl_align_le pm e (dm + e - 53) ltac:(lia)) as [mz [-> Hmz]].
    replace (e - (dm + e - 53)) with (53 - dm) in Hmz by lia.
    pose proof (pow2_pos (53 - dm) ltac:(lia)) as Hp2.
    assert (Hmzb : 2 ^ 52 <= Z.pos mz < 2 ^ 53).
    { assert (H52 : 2 ^ 52 = 2 ^ (dm - 1) * 2 ^ (53 - dm))
        by (rewrite <- Z.pow_add_r by lia; f_equal; lia).
      assert (H53 : 2 ^ 53 = 2 ^ dm * 2 ^ (53 - dm))
        by (rewrite <- Z.pow_add_r by lia; f_equal; lia).
      rewrite Hmz, H52, H53.
      split; [apply Z.mul_le_mono_nonneg_r; lia|apply Z.mul_lt_mono_pos_r; lia]. }
    pose proof (digits2_pos_unique mz 53 Hmzb) as Hdz.
    destruct (binary_round_aux_spec s mz (dm + e - 53) 0 1) as [pm' [e' [E [Hd' [He' [_ Hex]]]]]];
      rewrite ?Hdz; try lia.
    change (loc_of 0 1) with loc_Exact in E. rewrite E.
    exists pm', e'. split; [reflexivity|].
    rewrite Hdz in *. change (53 - 53) with 0 in *.
    destruct Hex as [-> Hpm']; [rewrite Z.pow_0_r, Z.mod_1_r; lia|].
    rewrite Z.pow_0_r, Z.mul_1_r in Hpm'.
    split; [lia|]. split; [|exact Hd'].
    rewrite Hpm', Hmz, Hv.
    replace (- (dm + e - 53 + 0)) with (- e + (53 - dm)) by lia.
    rewrite Z.pow_add_r by lia. ring.
  - rewrite (shl_align_ge pm e (dm + e - 53)) by lia.
    pose proof (pow2_pos (dm - 53) ltac:(lia)) as Hp2.
    assert (Hsplit : 2 ^ (- e) = 2 ^ (- e - (dm - 53)) * 2 ^ (dm - 53)).
    { rewrite <- Z.pow_add_r by lia. f_equal. lia. }
    destruct (binary_round_aux_spec s pm e 0 1) as [pm' [e' [E [Hd' [He' [_ Hex]]]]]];
      fold dm; try lia.
    change (loc_of 0 1) with loc_Exact in E. rewrite E.
    exists pm', e'. split; [reflexivity|].
    fold dm in Hex, He'.
    destruct Hex as [-> Hpm'].
    { rewrite Hv, Hsplit, Z.mul_assoc, Z.mod_mul by lia. lia. }
    split; [lia|]. split; [|exact Hd'].
    replace (- (e + (dm - 53))) with (- e - (dm - 53)) by lia.
    rewrite Hv, Hsplit, Z.mul_assoc in Hpm'. nia.
Qed.

(** The position that the division reads off the remainder. *)
Lemma new_location_spec (d r : Z) :
  0 <= r < d -> new_location d r = loc_of r d.
Proof.
  intros Hr. unfold new_location, new_location_even, new_location_odd, loc_of.
  destruct (Z.even d) eqn:Ev; [reflexivity|].
  destruct (Z.eqb_spec r 0); [reflexivity|]. f_equal.
  assert (Hodd : Z.odd d = true) by (rewrite <- Z.negb_even, Ev; reflexivity).
  apply Z.odd_spec in Hodd. destruct Hodd as [k Hk].
  destruct (Z.compare_spec (2 * r + 1) d);
    destruct (Z.compare_spec (2 * r) d); try reflexivity; lia.
Qed.

(** The quotient of two normal doubles, up to 2^-53 of it: with
    e0 = ex - ey - 53 it is F * 2^e0 where my * F is within 2^-53 of
    mx * 2^53. *)
Lemma SFdiv_spec (sx sy : bool) (mx my : positive) (ex ey : Z) :
  Z.pos (digits2_pos mx) = 53 -> Z.pos (digits2_pos my) = 53 ->
  -1000 <= ex - ey <= 900 ->
  exists pm' e',
    SF64div (S754_finite sx mx ex) (S754_finite sy my ey)
    = S754_finite (xorb sx sy) pm' e'
    /\ Z.pos (digits2_pos pm') = 53
    /\ ex - ey - 53 <= e' <= ex - ey - 53 + 2
    /\ 2 ^ 53 * Z.abs (Z.pos my * (Z.pos pm' * 2 ^ (e' - (ex - ey - 53)))
                       - Z.pos mx * 2 ^ 53)
       <= Z.pos mx * 2 ^ 53.
Proof.
  intros Hdx Hdy He.
  pose proof (digits2_pos_bounds mx) as Hbx. rewrite Hdx in Hbx.
  pose proof (digits2_pos_bounds my) as Hby. rewrite Hdy in Hby.
  change (53 - 1) with 52 in *.
  unfold SF64div, SFdiv, SFdiv_core_binary.
  change (Zdigits2 (Z.pos mx)) with (Z.pos (digits2_pos mx)).
  change (Zdigits2 (Z.pos my)) with (Z.pos (digits2_pos my)).
  rewrite Hdx, Hdy, fexp_value.
  replace (Z.min (Z.max (53 + ex - (53 + ey) - 53) (-1074)) (ex - ey))
    with (ex - ey - 53) by lia.
  replace (ex - ey - (ex - ey - 53)) with 53 by lia.
  cbv iota. rewrite Z.shiftl_mul_pow2 by lia.
  pose proof (Z_div_mod (Z.pos mx * 2 ^ 53) (Z.pos my) ltac:(lia)) as Hdiv.
  destruct (Z.div_eucl (Z.pos mx * 2 ^ 53) (Z.pos my)) as [q0 r0].
  destruct Hdiv as [Hq Hr0].
  change (2 ^ 53) with 9007199254740992 in *.
  change (2 ^ 52) with 4503599627370496 in *.
  assert (Hq0 : 4503599627370496 <= q0 < 18014398509481984) by nia.
  rewrite (new_location_spec _ _ Hr0).
  destruct q0 as [|pq|pq]; [lia| |lia].
  assert (Hdq : 53 <= Z.pos (digits2_pos pq) <= 54).
  { pose proof (digits2_pos_bounds pq) as Hbq.
    set (dq := Z.pos (digits2_pos pq)) in *.
    assert (H1 : 2 ^ (dq - 1) < 2 ^ 54) by (change (2 ^ 54) with 18014398509481984; lia).
    assert (H2 : 2 ^ 52 < 2 ^ dq) by (change (2 ^ 52) with 4503599627370496; lia).
    apply (Z.pow_lt_mono_r_iff 2) in H1; [|lia|lia].
    apply (Z.pow_lt_mono_r_iff 2) in H2; [|lia|unfold dq; lia]. lia. }
  destruct (binary_round_aux_spec (xorb sx sy) pq (ex - ey - 53) r0 (Z.pos my))
    as [pm' [e' [E [Hd' [He' [Hrel _]]]]]]; try lia.
  exists pm', e'. split; [exact E|]. split; [exact Hd'|]. split; [lia|].
  change (2 ^ 53) with 9007199254740992 in *.
  replace (Z.pos pq * Z.pos my + r0) with (Z.pos mx * 9007199254740992) in Hrel by lia.
  exact Hrel.
Qed.

(** The product of two normal doubles, up to 2^-53 of it. *)
Lemma SFmul_spec (sx sy : bool) (mx my : positive) (ex ey : Z) :
  Z.pos (digits2_pos mx) = 53 -> Z.pos (digits2_pos my) = 53 ->
  -1000 <= ex + ey <= 800 ->
  exists pm' e',
    SF64mul (S754_finite sx mx ex) (S754_finite sy my ey)
    = S754_finite (xorb sx sy) pm' e'
    /\ Z.pos (digits2_pos pm') = 53
    /\ ex + ey + 52 <= e' <= ex + ey + 54
    /\ 2 ^ 53 * Z.abs (Z.pos pm' * 2 ^ (e' - (ex + ey)) - Z.pos mx * Z.pos my)
       <= Z.pos mx * Z.pos my.
Proof.
  intros Hdx Hdy He.
  pose proof (digits2_pos_bounds mx) as Hbx. rewrite Hdx in Hbx.
  pose proof (digits2_pos_bounds my) as Hby. rewrite Hdy in Hby.
  change (53 - 1) with 52 in *.
  unfold SF64mul, SFmul.
  assert (Hdp : 105 <= Z.pos (digits2_pos (mx * my)) <= 106).
  { pose proof (digits2_pos_bounds (mx * my)) as Hbq.
    set (dq := Z.pos (digits2_pos (mx * my))) in *.
    rewrite Pos2Z.inj_mul in Hbq.
    change (2 ^ 53) with 9007199254740992 in *.
    change (2 ^ 52) with 4503599627370496 in *.
    assert (H1 : 2 ^ (dq - 1) < 2 ^ 106) by (change (2 ^ 106) with (9007199254740992 * 9007199254740992); nia).
    assert (H2 : 2 ^ 104 < 2 ^ dq) by (change (2 ^ 104) with (4503599627370496 * 4503599627370496); nia).
    apply (Z.pow_lt_mono_r_iff 2) in H1; [|lia|lia].
    apply (Z.pow_lt_mono_r_iff 2) in H2; [|lia|unfold dq; lia]. lia. }
  destruct (binary_round_aux_spec (xorb sx sy) (mx * my) (ex + ey) 0 1)
    as [pm' [e' [E [Hd' [He' [Hrel _]]]]]]; try lia.
  change (loc_of 0 1) with loc_Exact in E.
  exists pm', e'. split; [exact E|]. split; [exact Hd'|]. split; [lia|].
  rewrite Pos2Z.inj_mul in Hrel.
  replace (1 * (Z.pos pm' * 2 ^ (e' - (ex + ey))) - (Z.pos mx * Z.pos my * 1 + 0))
    with (Z.pos pm' * 2 ^ (e' - (ex + ey)) - Z.pos mx * Z.pos my) in Hrel by ring.
  replace (Z.pos mx * Z.pos my * 1 + 0) with (Z.pos mx * Z.pos my) in Hrel by ring.
  exact Hrel.
Qed.

End Binary64.

(** *** The three roundings of the change figure, in integers *)

Section Tenths.

Lemma cancel_lt (k a b : Z) : 0 < k -> k * a < k * b + k -> a <= b.
Proof. intros Hk H. nia. Qed.

(** With V = prev > 0 and D = |cur - prev| below 2^40: a quotient
    mq * J1 / 2^53 scaled by A / B within 2^-53 of D / V, a product
    within 2^-53 of 100 times it, and the tenths n nearest to that
    product are the tenths nearest to 1000 * D / V; the two errors are
    too small to carry n past the next half. *)
Lemma tenths_close (V D A B P J1 J2 mq mpp n : Z) :
  0 < V -> 0 < D < 2 ^ 40 -> 0 < A -> 0 < B -> 0 < P -> 0 < J1 -> 0 < J2 ->
  0 < mq -> 0 < mpp ->
  2 ^ 53 * Z.abs (V * B * (mq * J1) - D * A * 2 ^ 53) <= D * A * 2 ^ 53 ->
  2 ^ 53 * Z.abs (mpp * J2 - mq * (100 * 2 ^ 46)) <= mq * (100 * 2 ^ 46) ->
  2 * P * n - P <= 20 * mpp < 2 * P * n + P ->
  P * J1 * J2 * B = A * 2 ^ 99 ->
  2 * Z.abs (V * n - 1000 * D) <= V.
Proof.
  intros HV HD HA HB HP HJ1 HJ2 Hmq Hmpp H1 H2 H3 H4.
  change (2 ^ 40) with 1099511627776 in *.
  change (2 ^ 53) with 9007199254740992 in *.
  change (100 * 2 ^ 46) with 7036874417766400 in *.
  change (2 ^ 99) with 633825300114114700748351602688 in *.
  set (K := A * 633825300114114700748351602688) in *.
  set (Sc := J1 * B * V).
  assert (HS : 0 < Sc) by (unfold Sc; nia).
  set (T1 := V * B * (mq * J1)) in *.
  set (DA := D * A) in *.
  assert (HDA : 0 < DA) by (unfold DA; nia).
  set (e1 := T1 - DA * 9007199254740992) in *.
  set (e2 := mpp * J2 - mq * 7036874417766400) in *.
  assert (He1 : Z.abs e1 <= DA) by lia.
  assert (HT1 : T1 = mq * Sc) by (unfold T1, Sc; ring).
  (* the error of the product, scaled *)
  assert (He2 : 9007199254740992 * (Z.abs e2 * Sc) <= 7036874417766400 * T1).
  { rewrite HT1. 
    assert (9007199254740992 * Z.abs e2 * Sc <= mq * 7036874417766400 * Sc)
      by (apply Z.mul_le_mono_nonneg_r; lia).
    lia. }
  assert (HK : K * V = P * J2 * Sc).
  { unfold Sc. rewrite <- H4. ring. }
  assert (Hmid : 20 * mpp * J2 * Sc
                 = 2000 * D * K + (20 * 7036874417766400 * e1 + 20 * e2 * Sc)).
  { unfold e1, e2, T1, Sc, K, DA. ring. }
  set (R := 20 * 7036874417766400 * e1 + 20 * e2 * Sc) in *.
  assert (HR : Z.abs R < K).
  { assert (Ha : Z.abs R <= 20 * 7036874417766400 * Z.abs e1 + 20 * (Z.abs e2 * Sc)).
    { unfold R. 
      assert (Z.abs (20 * e2 * Sc) = 20 * (Z.abs e2 * Sc)).
      { rewrite !Z.abs_mul. rewrite (Z.abs_eq 20), (Z.abs_eq Sc) by lia. ring. }
      assert (Z.abs (20 * 7036874417766400 * e1) = 20 * 7036874417766400 * Z.abs e1).
      { rewrite Z.abs_mul. rewrite (Z.abs_eq (20 * 7036874417766400)) by lia. ring. }
      pose proof (Z.abs_triangle (20 * 7036874417766400 * e1) (20 * e2 * Sc)). lia. }
    assert (Hb : T1 <= DA * 9007199254740992 + DA) by (unfold e1 in He1; lia).
    assert (Hc : 9007199254740992 * Z.abs R
                 <= 20 * 7036874417766400 * DA * (2 * 9007199254740992 + 1)) by lia.
    assert (Hd : 20 * 7036874417766400 * DA * (2 * 9007199254740992 + 1)
                 < 9007199254740992 * K).
    { unfold K, DA. nia. }
    lia. }
  (* the toFixed bounds, scaled by J2 * Sc *)
  assert (HJS : 0 < J2 * Sc) by nia.
  assert (Hlo : (2 * n - 1) * (K * V) <= 20 * mpp * J2 * Sc).
  { rewrite HK. 
    replace ((2 * n - 1) * (P * J2 * Sc)) with ((2 * P * n - P) * (J2 * Sc)) by ring.
    replace (20 * mpp * J2 * Sc) with (20 * mpp * (J2 * Sc)) by ring.
    apply Z.mul_le_mono_nonneg_r; lia. }
  assert (Hhi : 20 * mpp * J2 * Sc < (2 * n + 1) * (K * V)).
  { rewrite HK.
    replace ((2 * n + 1) * (P * J2 * Sc)) with ((2 * P * n + P) * (J2 * Sc)) by ring.
    replace (20 * mpp * J2 * Sc) with (20 * mpp * (J2 * Sc)) by ring.
    apply Z.mul_lt_mono_pos_r; lia. }
  rewrite Hmid in Hlo, Hhi.
  assert (HKpos : 0 < K) by (unfold K; lia).
  assert (G1 : (2 * n - 1) * V <= 2000 * D).
  { apply (cancel_lt K); [exact HKpos|]. 
    replace (K * ((2 * n - 1) * V)) with ((2 * n - 1) * (K * V)) by ring.
    replace (K * (2000 * D)) with (2000 * D * K) by ring. lia. }
  assert (G2 : 2000 * D <= (2 * n + 1) * V).
  { apply (cancel_lt K); [exact HKpos|].
    replace (K * ((2 * n + 1) * V)) with ((2 * n + 1) * (K * V)) by ring.
    replace (K * (2000 * D)) with (2000 * D * K) by ring. lia. }
  lia.
Qed.

End Tenths.

(** *** The change figure *)

Section Change.

(** [toFixed(1)] rounds to the nearest tenth.  For the double
    x = m * 2^e with e < 0 and d = 2^(-e), so that x = m / d, the tenths
    n satisfy  n/10 - 1/20 <= x < n/10 + 1/20. *)
Lemma nearest_tenths_below (m e : Z) :
  0 < m -> e < 0 ->
  2 * 2 ^ (- e) * Report.nearest_tenths m e - 2 ^ (- e) <= 20 * m
  /\ 20 * m < 2 * 2 ^ (- e) * Report.nearest_tenths m e + 2 ^ (- e).
Proof.
  intros Hm He. unfold Report.nearest_tenths.
  destruct (Z.leb_spec 0 e) as [H|_]; [lia|].
  assert (Hd : 0 < 2 ^ (- e)) by (apply Z.pow_pos_nonneg; lia).
  set (d := 2 ^ (- e)) in *.
  pose proof (Z.div_mod (20 * m + d) (2 * d) ltac:(lia)) as Hdiv.
  pose proof (Z.mod_pos_bound (20 * m + d) (2 * d) ltac:(lia)) as Hmod.
  set (q := (20 * m + d) / (2 * d)) in *.
  set (r := (20 * m + d) mod (2 * d)) in *.
  split; nia.
Qed.

(** A count below 2^53 is a double, exactly. *)
Lemma Number_of_count_integer (n : nat) :
  0 < Z.of_nat n < 2 ^ 53 ->
  exists pm e,
    Prim2SF (Report.Number_of_count n) = S754_finite false pm e
    /\ holds_integer pm e (Z.of_nat n).
Proof.
  intros Hn. unfold Report.Number_of_count.
  destruct (Z.of_nat n) as [|p|p] eqn:E; [lia| |lia].
  destruct (binary_round_integer false p 0 (Z.pos p)) as [pm [e [Hr Hi]]];
    [lia|simpl; lia|lia|].
  cbn [binary_normalize]. rewrite Hr.
  exists pm, e. split; [|exact Hi].
  apply Prim2SF_SF2Prim.
  destruct (holds_integer_range pm e (Z.pos p) Hi ltac:(lia)) as [He _].
  destruct Hi as [_ [_ Hd]].
  cbn [SpecFloat.valid_binary]. unfold bounded, canonical_mantissa.
  rewrite Hd, fexp_value.
  replace (Z.max (53 + e - 53) (-1074)) with e by lia.
  rewrite Z.eqb_refl. cbn [andb]. apply Z.leb_le. change (emax - prec) with 971. lia.
Qed.

Lemma Number_of_count_zero : Prim2SF (Report.Number_of_count 0) = S754_zero false.
Proof. reflexivity. Qed.

Lemma Number_of_count_100 :
  Prim2SF (Report.Number_of_count 100) = S754_finite false 7036874417766400 (-46).
Proof. vm_compute. reflexivity. Qed.

Lemma holds_integer_shl (pm : positive) (e ez c : Z) :
  holds_integer pm e c -> ez <= e ->
  Z.pos (fst (shl_align pm e ez)) = c * 2 ^ (- ez).
Proof.
  intros [He [Hv _]] Hle.
  destruct (shl_align_le pm e ez Hle) as [mx' [-> Hmx']]. cbn [fst].
  rewrite Hmx', Hv, <- Z.mul_assoc, <- Z.pow_add_r by lia. f_equal. f_equal. lia.
Qed.

(** The difference of two doubles that hold integers is exact. *)
Lemma SFsub_integers (ma mb : positive) (ea eb a b : Z) :
  holds_integer ma ea a -> holds_integer mb eb b -> 0 < a -> 0 < b ->
  (a = b ->
   SF64sub (S754_finite false ma ea) (S754_finite false mb eb) = S754_zero false)
  /\ (a <> b ->
      exists pm e,
        SF64sub (S754_finite false ma ea) (S754_finite false mb eb)
        = S754_finite (a <? b) pm e
        /\ holds_integer pm e (Z.abs (a - b))).
Proof.
  intros Ha Hb Ha0 Hb0.
  destruct (holds_integer_range _ _ _ Ha Ha0) as [Hea [Ha53 _]].
  destruct (holds_integer_range _ _ _ Hb Hb0) as [Heb [Hb53 _]].
  unfold SF64sub, SFsub. cbn [cond_Zopp].
  set (ez := Z.min ea eb).
  rewrite (holds_integer_shl ma ea ez a Ha) by (unfold ez; lia).
  rewrite (holds_integer_shl mb eb ez b Hb) by (unfold ez; lia).
  pose proof (pow2_pos (- ez) ltac:(unfold ez; lia)) as Hp.
  replace (a * 2 ^ (- ez) - b * 2 ^ (- ez)) with ((a - b) * 2 ^ (- ez)) by ring.
  split.
  - intros ->. now rewrite Z.sub_diag.
  - intros Hne.
    destruct ((a - b) * 2 ^ (- ez)) as [|p|p] eqn:E; [nia| |].
    + assert (Hab : b < a) by nia.
      destruct (binary_round_integer false p ez (a - b)) as [pm [e [Hr Hi]]];
        [unfold ez; lia|lia|lia|].
      exists pm, e. cbn [binary_normalize]. rewrite Hr.
      replace (a <? b) with false by (symmetry; apply Z.ltb_ge; lia).
      split; [reflexivity|]. now rewrite Z.abs_eq by lia.
    + assert (Hab : a < b) by nia.
      destruct (binary_round_integer true p ez (b - a)) as [pm [e [Hr Hi]]];
        [unfold ez; lia|lia|lia|].
      exists pm, e. cbn [binary_normalize]. rewrite Hr.
      replace (a <? b) with true by (symmetry; apply Z.ltb_lt; lia).
      split; [reflexivity|]. now rewrite Z.abs_neq, Z.opp_sub_distr, Z.add_comm by lia.
Qed.

(** An integer below 2^40 has its 53 bits at an exponent of -13 or less. *)
Lemma holds_integer_small (pm : positive) (e c : Z) :
  holds_integer pm e c -> 0 < c < 2 ^ 40 -> e <= -13.
Proof.
  intros Hi Hc.
  destruct (holds_integer_range pm e c Hi ltac:(lia)) as [He [_ Hb]].
  destruct Hi as [_ [Hv _]].
  destruct (Z.le_gt_cases e (-13)) as [|Hgt]; [assumption|exfalso].
  assert (H : 2 ^ (- e) <= 2 ^ 12) by (apply Z.pow_le_mono_r; lia).
  change (2 ^ 12) with 4096 in H. change (2 ^ 40) with 1099511627776 in Hc.
  change (2 ^ 52) with 4503599627370496 in Hb.
  pose proof (pow2_pos (- e) ltac:(lia)). nia.
Qed.

(** The double ((cur - prev) / prev) * 100 for two different counts. *)
Lemma percent_finite (cur prev : nat) :
  0 < Z.of_nat prev < 2 ^ 40 -> Z.of_nat cur < 2 ^ 40 ->
  Z.of_nat cur <> Z.of_nat prev ->
  exists mpp epp,
    Prim2SF (Report.percent cur prev)
    = S754_finite (Z.of_nat cur <? Z.of_nat prev) mpp epp
    /\ epp < 0
    /\ 2 * Z.abs (Z.of_nat prev * Report.nearest_tenths (Z.pos mpp) epp
                  - 1000 * Z.abs (Z.of_nat cur - Z.of_nat prev))
       <= Z.of_nat prev.
Proof.
  set (a := Z.of_nat cur). set (b := Z.of_nat prev). intros Hb Ha Hne.
  assert (Ha0 : 0 <= a) by (unfold a; lia).
  change (2 ^ 40) with 1099511627776 in *.
  unfold Report.percent. rewrite FloatAxioms.mul_spec, FloatAxioms.div_spec, FloatAxioms.sub_spec.
  destruct (Number_of_count_integer prev) as [mp [ep [Ep Hp]]];
    [fold b; change (2 ^ 53) with 9007199254740992; lia|].
  fold b in Hp. rewrite Ep, Number_of_count_100.
  set (D := Z.abs (a - b)).
  assert (HD : 0 < D < 1099511627776) by (unfold D; lia).
  assert (Hsub : exists md ed,
             SF64sub (Prim2SF (Report.Number_of_count cur)) (S754_finite false mp ep)
             = S754_finite (a <? b) md ed
             /\ holds_integer md ed D).
  { destruct (Z.eq_dec a 0) as [Ha00|Ha00].
    - assert (cur = 0%nat) as -> by (unfold a in Ha00; lia).
      rewrite Number_of_count_zero. exists mp, ep. split.
      + replace (a <? b) with true by (symmetry; apply Z.ltb_lt; lia). reflexivity.
      + unfold D. rewrite Ha00. now rewrite Z.abs_neq, Z.opp_sub_distr by lia.
    - destruct (Number_of_count_integer cur) as [ma [ea [Ea Hma]]];
        [fold a; change (2 ^ 53) with 9007199254740992; lia|].
      fold a in Hma. rewrite Ea.
      exact (proj2 (SFsub_integers ma mp ea ep a b Hma Hp ltac:(lia) ltac:(lia)) Hne). }
  destruct Hsub as [md [ed [Es Hd]]]. rewrite Es.
  destruct (holds_integer_range _ _ _ Hp ltac:(lia)) as [Hep [_ Hmpb]].
  destruct (holds_integer_range _ _ _ Hd ltac:(lia)) as [Hed [_ Hmdb]].
  pose proof (holds_integer_small _ _ _ Hd ltac:(change (2 ^ 40) with 1099511627776; lia)) as Hed'.
  destruct Hp as [_ [Hvp Hdp]]. destruct Hd as [_ [Hvd Hdd]].
  destruct (SFdiv_spec (a <? b) false md mp ed ep Hdd Hdp ltac:(lia))
    as [mq [eq [Eq [Hdq [Heq Hrq]]]]].
  rewrite Eq, xorb_false_r.
  destruct (SFmul_spec (a <? b) false mq 7036874417766400 eq (-46) Hdq eq_refl ltac:(lia))
    as [mpp [epp [Em [Hdm [Hem Hrm]]]]].
  rewrite Em, xorb_false_r.
  exists mpp, epp. split; [reflexivity|]. split; [lia|].
  fold D.
  apply (tenths_close b D (2 ^ (- ed)) (2 ^ (- ep)) (2 ^ (- epp))
           (2 ^ (eq - (ed - ep - 53))) (2 ^ (epp - (eq + -46))) (Z.pos mq) (Z.pos mpp));
    try (apply pow2_pos; lia);
    try (rewrite <- Hvp, <- Hvd; exact Hrq); try exact Hrm; try lia.
  - apply nearest_tenths_below; lia.
  - rewrite <- !Z.pow_add_r by lia. f_equal. lia.
Qed.

(** Tenths within one half of the exact quotient are its rounding,
    but for the quotient that is a half itself. *)
Lemma nearest_or_half (V D n : Z) :
  0 < V -> 0 <= D -> 2 * Z.abs (V * n - 1000 * D) <= V ->
  n = (2000 * D + V) / (2 * V)
  \/ ((2000 * D + V) mod (2 * V) = 0 /\ n = (2000 * D + V) / (2 * V) - 1).
Proof.
  intros HV HD H.
  destruct (Z.eq_dec (2000 * D + V) (2 * V * n + 2 * V)) as [E|E].
  - right. rewrite E. replace (2 * V * n + 2 * V) with ((n + 1) * (2 * V)) by ring.
    rewrite Z.mod_mul, Z.div_mul by lia. split; lia.
  - left. apply (Z.div_unique (2000 * D + V) (2 * V) n (2000 * D + V - 2 * V * n)); lia.
Qed.

(** C3, as amended.  When the previous total is 0 the change is the
    number 0.  When it is positive, and both totals are below 2^40, the
    change is [toFixed(1)] of the double ((cur - prev) / prev) * 100: a
    figure with one decimal, negative exactly when cur < prev, whose
    tenths n are nearest to the exact quotient,
      | n / 10 - |cur - prev| / prev * 100 |  <=  1/20.
    So n is the exact quotient rounded to one decimal, halves away from
    zero, unless the quotient lies exactly halfway between two tenths:
    there the error of the double decides, and the tenth towards zero
    may come out instead. *)
Theorem change_is_rounded_percent (cur prev : nat) :
  (prev = 0%nat -> Report.change cur prev = Report.ChangeNumber 0)
  /\ ((0 < prev)%nat -> Z.of_nat cur < 2 ^ 40 -> Z.of_nat prev < 2 ^ 40 ->
      exists n,
        Report.change cur prev
        = Report.ChangeFixed (Report.Digits (Nat.ltb cur prev) n)
        /\ 0 <= n
        /\ 2 * Z.abs (Z.of_nat prev * n
                      - 1000 * Z.abs (Z.of_nat cur - Z.of_nat prev))
           <= Z.of_nat prev
        /\ (n = Report.rounded_tenths (Z.of_nat cur) (Z.of_nat prev)
            \/ ((2000 * Z.abs (Z.of_nat cur - Z.of_nat prev) + Z.of_nat prev)
                  mod (2 * Z.of_nat prev) = 0
                /\ n = Report.rounded_tenths (Z.of_nat cur) (Z.of_nat prev) - 1))).
Proof.
  split.
  - intros ->. reflexivity.
  - intros Hprev Hc Hp.
    assert (Hch : Report.change cur prev
                  = Report.ChangeFixed (Report.toFixed1 (Report.percent cur prev))).
    { unfold Report.change. now rewrite (proj2 (Nat.ltb_lt 0 prev) Hprev). }
    assert (Hlt : Nat.ltb cur prev = (Z.of_nat cur <? Z.of_nat prev)).
    { destruct (Nat.ltb_spec cur prev), (Z.ltb_spec (Z.of_nat cur) (Z.of_nat prev));
        try reflexivity; lia. }
    assert (Hn : exists n,
               Report.toFixed1 (Report.percent cur prev)
               = Report.Digits (Nat.ltb cur prev) n
               /\ 0 <= n
               /\ 2 * Z.abs (Z.of_nat prev * n
                             - 1000 * Z.abs (Z.of_nat cur - Z.of_nat prev))
                  <= Z.of_nat prev).
    { destruct (Z.eq_dec (Z.of_nat cur) (Z.of_nat prev)) as [E|E].
      - exists 0. assert (cur = prev) as -> by lia.
        split; [|split; [lia|rewrite Z.sub_diag; lia]].
        rewrite Nat.ltb_irrefl. unfold Report.toFixed1, Report.percent.
        rewrite FloatAxioms.mul_spec, FloatAxioms.div_spec, FloatAxioms.sub_spec.
        destruct (Number_of_count_integer prev) as [mp [ep [Ep Hi]]];
          [change (2 ^ 53) with 9007199254740992; change (2 ^ 40) with 1099511627776 in *; lia|].
        rewrite Ep.
        rewrite (proj1 (SFsub_integers mp mp ep ep _ _ Hi Hi ltac:(lia) ltac:(lia)) eq_refl).
        rewrite Number_of_count_100. reflexivity.
      - destruct (percent_finite cur prev ltac:(lia) Hc E) as [mpp [epp [Ef [He Hb]]]].
        exists (Report.nearest_tenths (Z.pos mpp) epp).
        split; [|split; [|exact Hb]].
        + unfold Report.toFixed1. rewrite Ef, Hlt.
          replace (0 <=? epp) with false by (symmetry; apply Z.leb_gt; lia).
          reflexivity.
        + unfold Report.nearest_tenths.
          replace (0 <=? epp) with false by (symmetry; apply Z.leb_gt; lia).
          pose proof (pow2_pos (- epp) ltac:(lia)).
          apply Z.div_pos; lia. }
    destruct Hn as [n [Hf [Hn0 Hb]]].
    exists n. rewrite Hch, Hf. split; [reflexivity|]. split; [exact Hn0|].
    split; [exact Hb|].
    unfold Report.rounded_tenths. apply nearest_or_half; lia.
Qed.

Lemma change_is_rounded_percent_witness :
  (0 < 2000)%nat /\ Z.of_nat 2003 < 2 ^ 40 /\ Z.of_nat 2000 < 2 ^ 40
  /\ exists n,
       Report.change 2003 2000
       = Report.ChangeFixed (Report.Digits (Nat.ltb 2003 2000) n)
       /\ 0 <= n
       /\ 2 * Z.abs (Z.of_nat 2000 * n
                     - 1000 * Z.abs (Z.of_nat 2003 - Z.of_nat 2000))
          <= Z.of_nat 2000
       /\ (n = Report.rounded_tenths (Z.of_nat 2003) (Z.of_nat 2000)
           \/ ((2000 * Z.abs (Z.of_nat 2003 - Z.of_nat 2000) + Z.of_nat 2000)
                 mod (2 * Z.of_nat 2000) = 0
               /\ n = Report.rounded_tenths (Z.of_nat 2003) (Z.of_nat 2000) - 1)).
Proof.
  assert (H0 : (0 < 2000)%nat) by (apply Nat.ltb_lt; reflexivity).
  assert (H1 : Z.of_nat 2003 < 2 ^ 40) by reflexivity.
  assert (H2 : Z.of_nat 2000 < 2 ^ 40) by reflexivity.
  split; [exact H0|]. split; [exact H1|]. split; [exact H2|].
  exact (proj2 (change_is_rounded_percent 2003 2000) H0 H1 H2).
Defined.

(** C3, as the specification states it, fails: the change is not always
    the exact quotient rounded to one decimal.  2003 messages after 2000
    are a rise of exactly 0.15 percent, which rounds to 0.2; the double
    ((2003 - 2000) / 2000) * 100 lies just below 0.15 and the change is
    "0.1".  No other rule for the half repairs the claim: 2001 after
    2000, a rise of exactly 0.05 percent, gives "0.1" as well. *)
Lemma change_rounds_a_half_either_way :
  Report.change 2003 2000 = Report.ChangeFixed (Report.Digits false 1)
  /\ Report.fixed_string false 1 = "0.1"
  /\ 1000 * (2003 - 2000) * 2 = 3 * 2000
  /\ Report.rounded_tenths 2003 2000 = 2
  /\ Report.change 2001 2000 = Report.ChangeFixed (Report.Digits false 1)
  /\ 1000 * (2001 - 2000) * 2 = 1 * 2000
  /\ Report.rounded_tenths 2001 2000 = 1.
Proof. repeat split; vm_compute; reflexivity. Qed.

(** The figures of some reports: 3 messages after 2 is "50.0", 1 after 3
    is "-66.7", and 3 after none is the number 0. *)
Example change_examples :
  Report.change 3 2 = Report.ChangeFixed (Report.Digits false 500)
  /\ Report.fixed_string false 500 = "50.0"
  /\ Report.change 1 3 = Report.ChangeFixed (Report.Digits true 667)
  /\ Report.fixed_string true 667 = "-66.7"
  /\ Report.change 3 0 = Report.ChangeNumber 0.
Proof. repeat split; vm_compute; reflexivity. Qed.

End Change.

(** The report command reads the clock once in [getAnalytics] and once
    more in [getPreviousAnalytics].  The two windows are the two halves
    of one interval only when both readings agree: with a later second
    reading, a message at the start of the current window is counted by
    both. *)
Remark windows_overlap_when_the_clock_moves :
  let now := 1700000000000 in
  let w := Queries.timeRange Queries.week in
  let db := Queries.trackMessage Init.initDatabase (now - w) "1001" "42" "7" 5 in
  Queries.a_totalMessages (Queries.getAnalytics db now "1001" Queries.week) = 1%nat
  /\ Queries.getPreviousAnalytics db now "1001" Queries.week = 0%nat
  /\ Queries.getPreviousAnalytics db (now + 1) "1001" Queries.week = 1%nat.
Proof. repeat split. Qed.

(** * Further properties of the code *)

(** ** [updateGuildSettings] and [getGuildSettings] together *)

Section WriteThenRead.
Import Init.

Lemma with_guild_settings_same (db : database) :
  with_guild_settings db (guild_settings db) = db.
Proof. now destruct db. Qed.

Lemma map_unmatched {B : Type} (p : B -> bool) (f : B -> B) (l : list B) :
  find p l = None -> map (fun x => if p x then f x else x) l = l.
Proof.
  induction l as [|x l IH]; simpl; [reflexivity|].
  destruct (p x); [discriminate|]. intros H. now rewrite (IH H).
Qed.

(** X1.  A partial update for a community that has no settings row is
    accepted and changes nothing: no row is created, no error is
    raised, the values are lost. *)
Theorem updateGuildSettings_without_row (db : database) (g : string)
    (updates : Queries.updates_object) (cols : list GuildSettings.column) :
  Queries.primary_key_ok (guild_settings db) = true ->
  Queries.select_guild_settings (guild_settings db) g = None ->
  Queries.prepare_update (Queries.Object_keys updates) = Ok cols ->
  Queries.updateGuildSettings db g updates = Ok db.
Proof.
  intros Hok Hnone Hprep. unfold Queries.updateGuildSettings.
  rewrite Hprep. simpl. unfold Queries.run_update.
  rewrite (map_unmatched _ _ _ Hnone), Hok, andb_false_r. simpl.
  now rewrite with_guild_settings_same.
Qed.

Lemma updateGuildSettings_without_row_witness :
  Queries.primary_key_ok (guild_settings initDatabase) = true
  /\ Queries.select_guild_settings (guild_settings initDatabase) "1001" = None
  /\ Queries.prepare_update (Queries.Object_keys [("enabled", SqlInt 0)])
     = Ok [GuildSettings.col_enabled]
  /\ Queries.updateGuildSettings initDatabase "1001" [("enabled", SqlInt 0)]
     = Ok initDatabase.
Proof.
  repeat (split; [reflexivity|]).
  exact (updateGuildSettings_without_row initDatabase "1001"
           [("enabled", SqlInt 0)] [GuildSettings.col_enabled]
           eq_refl eq_refl eq_refl).
Defined.

Lemma resolve_columns_combine (updates : Queries.updates_object)
    (cols : list GuildSettings.column) (k : string) (v : sqlval)
    (c : GuildSettings.column) :
  Queries.resolve_columns (Queries.Object_keys updates) = Some cols ->
  In (k, v) updates ->
  GuildSettings.column_of_name k = Some c ->
  List.length cols = List.length (Queries.Object_values updates)
  /\ In (c, v) (combine cols (Queries.Object_values updates)).
Proof.
  unfold Queries.Object_keys, Queries.Object_values.
  revert cols. induction updates as [|[k' v'] updates IH]; intros cols H Hin Hk.
  - destruct Hin.
  - simpl in H.
    destruct (GuildSettings.column_of_name k') as [c'|] eqn:Hk'; [|discriminate].
    destruct (Queries.resolve_columns (map fst updates)) as [cs|] eqn:R; [|discriminate].
    injection H as <-. simpl. destruct Hin as [Heq|Hin].
    + injection Heq as -> ->. rewrite Hk in Hk'. injection Hk' as <-.
      split; [|now left].
      f_equal. clear -R. revert cs R.
      induction updates as [|[k'' v''] updates IHu]; intros cs R; simpl in *.
      * now injection R as <-.
      * destruct (GuildSettings.column_of_name k''); [|discriminate].
        destruct (Queries.resolve_columns (map fst updates)); [|discriminate].
        injection R as <-. simpl. f_equal. now apply IHu.
    + destruct (IH cs eq_refl Hin Hk) as [Hlen Hc].
      split; [simpl; now f_equal|now right].
Qed.

Lemma prepare_update_resolves (keys : list string) (cols : list GuildSettings.column) :
  Queries.prepare_update keys = Ok cols -> Queries.resolve_columns keys = Some cols.
Proof.
  unfold Queries.prepare_update. destruct keys as [|k keys]; [discriminate|].
  destruct (Queries.resolve_columns (k :: keys)); [|discriminate].
  intros H. now injection H as <-.
Qed.

(** X2.  A partial update that names each column once and leaves the
    key alone reads back: for a community with a row the update goes
    through, and the next [getGuildSettings] returns, without creating
    anything, a row with the old value in every column that is not
    named, and with the given value in every named column whose value
    has the declared type of the column (an integer for enabled and
    notifications_enabled, a text for log_channel_id and
    tracked_channels, or NULL), which SQLite stores as it is given. *)
Theorem updateGuildSettings_reads_back (db : database) (g : string)
    (r : GuildSettings.row) (updates : Queries.updates_object)
    (cols : list GuildSettings.column) :
  Queries.select_guild_settings (guild_settings db) g = Some r ->
  Queries.prepare_update (Queries.Object_keys updates) = Ok cols ->
  NoDup cols ->
  Queries.assigns_key cols = false ->
  exists db' r',
    Queries.updateGuildSettings db g updates = Ok db'
    /\ Queries.getGuildSettings db' g = Ok (SettingsObject.of_row r', db')
    /\ (forall k v c,
           In (k, v) updates -> GuildSettings.column_of_name k = Some c ->
           stored_as_given c v = true ->
           GuildSettings.get c r' = v)
    /\ (forall c, ~ names updates c -> GuildSettings.get c r' = GuildSettings.get c r).
Proof.
  intros Hrow Hprep Hnd Hkey.
  set (r' := Queries.assign cols (Queries.Object_values updates) r).
  set (t' := map (fun x => if Queries.is_guild g x
                           then Queries.assign cols (Queries.Object_values updates) x
                           else x) (guild_settings db)).
  assert (Hupd : Queries.updateGuildSettings db g updates
                 = Ok (with_guild_settings db t')).
  { unfold Queries.updateGuildSettings. rewrite Hprep. simpl.
    unfold Queries.run_update. now rewrite Hkey. }
  assert (Hsel : Queries.select_guild_settings t' g = Some r').
  { unfold Queries.select_guild_settings, t'. rewrite find_map_same.
    - unfold Queries.select_guild_settings in Hrow. rewrite Hrow. simpl.
      apply find_some in Hrow. destruct Hrow as [_ Hg]. now rewrite Hg.
    - intros x. destruct (Queries.is_guild g x) eqn:E; [|exact E].
      unfold Queries.is_guild in *.
      change (GuildSettings.guild_id ?y) with (GuildSettings.get GuildSettings.col_guild_id y).
      now rewrite (assign_keeps_other cols _ x GuildSettings.col_guild_id Hkey). }
  exists (with_guild_settings db t'), r'.
  split; [exact Hupd|]. split; [now apply getGuildSettings_existing|]. split.
  - intros k v c Hin Hk _.
    destruct (resolve_columns_combine updates cols k v c
                (prepare_update_resolves _ _ Hprep) Hin Hk) as [Hlen Hc].
    now apply assign_sets_named.
  - intros c Hc. apply assign_keeps_other.
    exact (prepare_update_unnamed _ _ _ Hprep Hc).
Qed.

Lemma updateGuildSettings_reads_back_witness :
  Queries.select_guild_settings
    (guild_settings (with_guild_settings initDatabase [GuildSettings.default_row "1001"]))
    "1001"
  = Some (GuildSettings.default_row "1001")
  /\ Queries.prepare_update
       (Queries.Object_keys [("log_channel_id", SqlText "7"); ("enabled", SqlInt 0)])
     = Ok [GuildSettings.col_log_channel_id; GuildSettings.col_enabled]
  /\ Queries.assigns_key [GuildSettings.col_log_channel_id; GuildSettings.col_enabled]
     = false
  /\ exists db' r',
       Queries.updateGuildSettings
         (with_guild_settings initDatabase [GuildSettings.default_row "1001"])
         "1001" [("log_channel_id", SqlText "7"); ("enabled", SqlInt 0)]
       = Ok db'
       /\ Queries.getGuildSettings db' "1001" = Ok (SettingsObject.of_row r', db')
       /\ (forall k v c,
              In (k, v) [("log_channel_id", SqlText "7"); ("enabled", SqlInt 0)] ->
              GuildSettings.column_of_name k = Some c ->
              stored_as_given c v = true ->
              GuildSettings.get c r' = v)
       /\ (forall c,
              ~ names [("log_channel_id", SqlText "7"); ("enabled", SqlInt 0)] c ->
              GuildSettings.get c r'
              = GuildSettings.get c (GuildSettings.default_row "1001")).
Proof.
  repeat (split; [reflexivity|]).
  apply (updateGuildSettings_reads_back
           (with_guild_settings initDatabase [GuildSettings.default_row "1001"])
           "1001" (GuildSettings.default_row "1001")
           [("log_channel_id", SqlText "7"); ("enabled", SqlInt 0)]
           [GuildSettings.col_log_channel_id; GuildSettings.col_enabled]
           eq_refl eq_refl).
  - constructor.
    + simpl. intros [H|[]]. discriminate H.
    + constructor; [intros []|constructor].
  - reflexivity.
Defined.

End WriteThenRead.

(** ** What the rankings and the hourly rows add up to *)

Lemma list_sum_map_add {K : Type} (f g : K -> nat) (ks : list K) :
  list_sum (map (fun k => f k + g k)%nat ks)
  = (list_sum (map f ks) + list_sum (map g ks))%nat.
Proof.
  induction ks as [|k ks IH]; [reflexivity|].
  simpl. rewrite IH. lia.
Qed.

Section Counting.
Context {A K : Type} (eqb : K -> K -> bool).
Hypothesis eqb_eq : forall a b, eqb a b = true <-> a = b.

Lemma sum_of_indicator (k : K) (ks : list K) :
  NoDup ks -> In k ks ->
  list_sum (map (fun x => if eqb k x then 1 else 0)%nat ks) = 1%nat.
Proof.
  induction 1 as [|x ks Hx Hks IH]; intros Hin; [destruct Hin|].
  simpl. destruct (eqb k x) eqn:E.
  - apply eqb_eq in E. subst x. f_equal.
    clear IH Hin. induction ks as [|y ks IHk]; [reflexivity|].
    simpl. destruct (eqb k y) eqn:E.
    + apply eqb_eq in E. subst y. exfalso. apply Hx. now left.
    + apply IHk.
      * intros H. apply Hx. now right.
      * now inversion Hks.
  - destruct Hin as [->|Hin].
    + rewrite (proj2 (eqb_eq k k) eq_refl) in E. discriminate.
    + now apply IH.
Qed.

(** Rows counted key by key over keys that cover them add up to the
    rows. *)
Lemma counts_by_key_add_up (key : A -> K) (rows : list A) (ks : list K) :
  NoDup ks -> (forall r, In r rows -> In (key r) ks) ->
  list_sum (map (fun k => List.length (List.filter (fun r => eqb (key r) k) rows)) ks)
  = List.length rows.
Proof.
  intros Hnd. induction rows as [|r rows IH]; intros Hcover.
  - clear. induction ks as [|k ks IHk]; [reflexivity|exact IHk].
  - assert (Hsplit :
      list_sum (map (fun k => List.length
                                (List.filter (fun x => eqb (key x) k) (r :: rows))) ks)
      = (list_sum (map (fun k => if eqb (key r) k then 1 else 0) ks)
         + list_sum (map (fun k => List.length
                                     (List.filter (fun x => eqb (key x) k) rows)) ks))%nat).
    { clear.
      rewrite (map_ext _
                 (fun k => ((if eqb (key r) k then 1 else 0)
                            + List.length
                                (List.filter (fun x => eqb (key x) k) rows))%nat))
        by (intros k; simpl; now destruct (eqb (key r) k)).
      apply list_sum_map_add. }
    etransitivity; [exact Hsplit|].
    rewrite (IH (fun x Hx => Hcover x (or_intror Hx))).
    rewrite (sum_of_indicator (key r) ks Hnd (Hcover r (or_introl eq_refl))).
    reflexivity.
Qed.

End Counting.

Section RankingTotals.
Context {A : Type} (key : A -> string).

Lemma group_count_total (rows : list A) :
  total_count (Queries.group_count key rows) = List.length rows.
Proof.
  unfold total_count, Queries.group_count. rewrite map_map. simpl.
  apply (counts_by_key_add_up String.eqb String.eqb_eq key rows).
  - apply group_keys_NoDup.
  - intros r Hr. apply group_keys_In. eauto.
Qed.

Lemma insert_desc_total (x : string * nat) (l : list (string * nat)) :
  total_count (Queries.insert_desc x l) = (snd x + total_count l)%nat.
Proof.
  unfold total_count. induction l as [|y l IH]; simpl; [reflexivity|].
  destruct (Nat.ltb (snd y) (snd x)); simpl; [reflexivity|]. rewrite IH. lia.
Qed.

Lemma order_by_count_desc_total (l : list (string * nat)) :
  total_count (Queries.order_by_count_desc l) = total_count l.
Proof.
  induction l as [|x l IH]; simpl; [reflexivity|].
  rewrite insert_desc_total, IH. reflexivity.
Qed.

Lemma order_by_count_desc_length (l : list (string * nat)) :
  List.length (Queries.order_by_count_desc l) = List.length l.
Proof.
  induction l as [|x l IH]; simpl; [reflexivity|].
  now rewrite insert_desc_length, IH.
Qed.

Lemma firstn_total (n : nat) (l : list (string * nat)) :
  (total_count (firstn n l) <= total_count l)%nat.
Proof.
  unfold total_count. revert n. induction l as [|x l IH]; intros [|n]; simpl; try lia.
  specialize (IH n). lia.
Qed.

Lemma top10_total (rows : list A) :
  (total_count (Queries.top10 key rows) <= List.length rows)%nat
  /\ ((List.length (Queries.top10 key rows) < 10)%nat ->
      total_count (Queries.top10 key rows) = List.length rows).
Proof.
  unfold Queries.top10. split.
  - etransitivity; [apply firstn_total|].
    now rewrite order_by_count_desc_total, group_count_total.
  - intros Hlen. rewrite length_firstn in Hlen.
    rewrite firstn_all2 by lia.
    now rewrite order_by_count_desc_total, group_count_total.
Qed.

Lemma top10_nil (rows : list A) : Queries.top10 key rows = [] <-> rows = [].
Proof.
  split.
  - intros H. apply (f_equal (@List.length _)) in H.
    unfold Queries.top10 in H.
    rewrite length_firstn, order_by_count_desc_length in H.
    unfold Queries.group_count in H. rewrite length_map in H.
    destruct rows as [|r rows]; [reflexivity|]. simpl in H. lia.
  - intros ->. reflexivity.
Qed.

Lemma sorted_app_desc (l1 l2 : list (string * nat)) :
  StronglySorted desc (l1 ++ l2) ->
  forall x y, In x l1 -> In y l2 -> desc x y.
Proof.
  induction l1 as [|z l1 IH]; simpl; intros H x y Hx Hy; [destruct Hx|].
  inversion H as [|? ? Hs Hall]; subst. destruct Hx as [->|Hx].
  - apply (proj1 (Forall_forall _ _) Hall). apply in_or_app. now right.
  - now apply IH.
Qed.

(** An entry that the LIMIT cuts off has a count no larger than any of
    the ten that stay. *)
Lemma top10_keeps_the_largest (rows : list A) (r : A) :
  In r rows ->
  In (key r, Queries.count_key key (key r) rows) (Queries.top10 key rows)
  \/ (List.length (Queries.top10 key rows) = 10%nat
      /\ forall k n, In (k, n) (Queries.top10 key rows) ->
                     (Queries.count_key key (key r) rows <= n)%nat).
Proof.
  intros Hr. unfold Queries.top10.
  set (full := Queries.order_by_count_desc (Queries.group_count key rows)).
  assert (Hin : In (key r, Queries.count_key key (key r) rows) full).
  { apply order_by_count_desc_In. unfold Queries.group_count.
    apply in_map_iff. exists (key r). split; [reflexivity|].
    apply group_keys_In. eauto. }
  rewrite <- (firstn_skipn 10 full) in Hin. apply in_app_or in Hin.
  destruct Hin as [Hin|Hin]; [now left|right]. split.
  - rewrite length_firstn. apply Nat.min_l.
    destruct (Nat.le_gt_cases 10 (List.length full)) as [H|H]; [exact H|].
    rewrite skipn_all2 in Hin by lia. destruct Hin.
  - intros k n Hk.
    pose proof (order_by_count_desc_sorted (Queries.group_count key rows)) as Hs.
    fold full in Hs. rewrite <- (firstn_skipn 10 full) in Hs.
    exact (sorted_app_desc _ _ Hs _ _ Hk Hin).
Qed.

End RankingTotals.

Section AnalyticsTotals.
Import Init.

Lemma messages_by_count_key (db : database) (g : string) (startTime : Z) (u : string) :
  messages_by db g startTime u
  = Queries.count_key Messages.user_id u
      (List.filter (Queries.in_window g startTime) (messages db)).
Proof.
  unfold messages_by, Queries.count_key. now rewrite filter_filter_and.
Qed.

(** X3.  The counts of a ranking never add up to more than the total of
    the window, and a ranking with fewer than 10 entries accounts for
    every message: its counts add up to [totalMessages] exactly. *)
Theorem rankings_add_up_to_the_total (db : database) (now : Z) (g : string)
    (p : Queries.period) :
  (total_count (Queries.a_topUsers (Queries.getAnalytics db now g p))
   <= Queries.a_totalMessages (Queries.getAnalytics db now g p))%nat
  /\ ((List.length (Queries.a_topUsers (Queries.getAnalytics db now g p)) < 10)%nat ->
      total_count (Queries.a_topUsers (Queries.getAnalytics db now g p))
      = Queries.a_totalMessages (Queries.getAnalytics db now g p))
  /\ (total_count (Queries.a_topChannels (Queries.getAnalytics db now g p))
      <= Queries.a_totalMessages (Queries.getAnalytics db now g p))%nat
  /\ ((List.length (Queries.a_topChannels (Queries.getAnalytics db now g p)) < 10)%nat ->
      total_count (Queries.a_topChannels (Queries.getAnalytics db now g p))
      = Queries.a_totalMessages (Queries.getAnalytics db now g p)).
Proof.
  simpl. unfold Queries.topUsers, Queries.topChannels, Queries.totalMessages.
  set (window := List.filter _ (messages db)).
  destruct (top10_total Messages.user_id window) as [Hu Hu'].
  destruct (top10_total Messages.channel_id window) as [Hc Hc'].
  auto.
Qed.

(** X4.  The ranking keeps the busiest authors: an author of a message
    in the window is in [topUsers] with the number of their messages,
    or else the ranking is full and none of its ten counts is smaller
    than that number. *)
Theorem ranking_keeps_the_busiest (db : database) (now : Z) (g : string)
    (p : Queries.period) (m : Messages.row) :
  In m (messages db) ->
  Messages.guild_id m = g ->
  now - Queries.timeRange p <= Messages.timestamp m ->
  In (Messages.user_id m,
      messages_by db g (now - Queries.timeRange p) (Messages.user_id m))
    (Queries.a_topUsers (Queries.getAnalytics db now g p))
  \/ (List.length (Queries.a_topUsers (Queries.getAnalytics db now g p)) = 10%nat
      /\ forall u n,
           In (u, n) (Queries.a_topUsers (Queries.getAnalytics db now g p)) ->
           (messages_by db g (now - Queries.timeRange p) (Messages.user_id m) <= n)%nat).
Proof.
  intros Hm Hg Ht. simpl. unfold Queries.topUsers.
  rewrite messages_by_count_key.
  apply top10_keeps_the_largest.
  apply filter_In. split; [exact Hm|]. now apply in_window_iff.
Qed.

Lemma ranking_keeps_the_busiest_witness :
  In {| Messages.guild_id := "1001"; Messages.user_id := "42";
        Messages.channel_id := "7"; Messages.message_length := 5;
        Messages.timestamp := 1700000000000 |}
    (messages (Queries.trackMessage initDatabase 1700000000000 "1001" "42" "7" 5))
  /\ (In ("42",
          messages_by (Queries.trackMessage initDatabase 1700000000000 "1001" "42" "7" 5)
            "1001" (1700000000000 - Queries.timeRange Queries.week) "42")
        (Queries.a_topUsers
           (Queries.getAnalytics
              (Queries.trackMessage initDatabase 1700000000000 "1001" "42" "7" 5)
              1700000000000 "1001" Queries.week))
     \/ (List.length
           (Queries.a_topUsers
              (Queries.getAnalytics
                 (Queries.trackMessage initDatabase 1700000000000 "1001" "42" "7" 5)
                 1700000000000 "1001" Queries.week)) = 10%nat
         /\ forall u n,
              In (u, n)
                (Queries.a_topUsers
                   (Queries.getAnalytics
                      (Queries.trackMessage initDatabase 1700000000000 "1001" "42" "7" 5)
                      1700000000000 "1001" Queries.week)) ->
              (messages_by
                 (Queries.trackMessage initDatabase 1700000000000 "1001" "42" "7" 5)
                 "1001" (1700000000000 - Queries.timeRange Queries.week) "42" <= n)%nat)).
Proof.
  assert (Hin : In {| Messages.guild_id := "1001"; Messages.user_id := "42";
                      Messages.channel_id := "7"; Messages.message_length := 5;
                      Messages.timestamp := 1700000000000 |}
                  (messages (Queries.trackMessage initDatabase 1700000000000
                               "1001" "42" "7" 5))) by (simpl; now left).
  split; [exact Hin|].
  refine (ranking_keeps_the_busiest
            (Queries.trackMessage initDatabase 1700000000000 "1001" "42" "7" 5)
            1700000000000 "1001" Queries.week _ Hin eq_refl _).
  simpl. lia.
Defined.

(** X5.  The results of [getAnalytics] are empty together: the total is
    0 exactly when the ranking of authors is empty, when the ranking of
    channels is empty, and when there is no hourly row. *)
Theorem empty_window_empty_results (db : database) (now : Z) (g : string)
    (p : Queries.period) :
  (Queries.a_totalMessages (Queries.getAnalytics db now g p) = 0%nat
   <-> Queries.a_topUsers (Queries.getAnalytics db now g p) = [])
  /\ (Queries.a_totalMessages (Queries.getAnalytics db now g p) = 0%nat
      <-> Queries.a_topChannels (Queries.getAnalytics db now g p) = [])
  /\ (Queries.a_totalMessages (Queries.getAnalytics db now g p) = 0%nat
      <-> Queries.a_hourlyActivity (Queries.getAnalytics db now g p) = []).
Proof.
  simpl. unfold Queries.topUsers, Queries.topChannels, Queries.totalMessages,
    Queries.hourlyActivity.
  set (window := List.filter _ (messages db)).
  rewrite !top10_nil, length_zero_iff_nil.
  split; [tauto|]. split; [tauto|]. split.
  - intros ->. reflexivity.
  - intros Hnil. destruct window as [|m window]; [reflexivity|]. exfalso.
    set (h := Queries.hour_of (Messages.timestamp m)).
    assert (Hh : 0 <= h < 24) by (apply Z.mod_pos_bound; lia).
    set (rows := List.filter _ _) in Hnil.
    assert (Hin : In {| Queries.hour := h;
                        Queries.count :=
                          Z.of_nat
                            (List.length
                               (List.filter
                                  (fun x => Queries.hour_of (Messages.timestamp x) =? h)
                                  (m :: window))) |} rows).
    { apply filter_In. split.
      - apply in_map_iff. exists h. split; [reflexivity|].
        apply in_map_iff. exists (Z.to_nat h). split; [lia|].
        apply in_seq. lia.
      - simpl. unfold h. rewrite Z.eqb_refl. simpl. apply Z.ltb_lt. lia. }
    rewrite Hnil in Hin. destruct Hin.
Qed.

End AnalyticsTotals.

Section HeatmapTotal.
Import Init.

Lemma hours_NoDup : NoDup ChartGenerator.hours.
Proof.
  unfold ChartGenerator.hours.
  generalize (seq_NoDup 24 0). generalize (seq 0 24).
  induction 1 as [|n l Hn Hl IH]; simpl; constructor; [|exact IH].
  rewrite in_map_iff. intros [k [Hk Hin]].
  apply Nat2Z.inj in Hk. now subst.
Qed.

Lemma hour_of_in_hours (t : Z) : In (Queries.hour_of t) ChartGenerator.hours.
Proof.
  unfold ChartGenerator.hours, Queries.hour_of.
  pose proof (Z.mod_pos_bound (Z.quot t 1000 / 3600) 24 ltac:(lia)) as H.
  apply in_map_iff. exists (Z.to_nat ((Z.quot t 1000 / 3600) mod 24)).
  split; [lia|]. apply in_seq. lia.
Qed.

(** Looking an hour up among the rows with a positive count gives the
    count of that hour, positive or not. *)
Lemma count_at_positive_rows (row : Z -> Queries.hour_row) (l : list Z) (h : Z) :
  (forall x, Queries.hour (row x) = x) ->
  (forall x, 0 <= Queries.count (row x)) ->
  ChartGenerator.count_at
    (List.filter (fun a => 0 <? Queries.count a) (map row l)) h
  = if existsb (Z.eqb h) l then Queries.count (row h) else 0.
Proof.
  intros Hhour Hcount. unfold ChartGenerator.count_at.
  induction l as [|x l IH]; simpl; [reflexivity|].
  destruct (Z.ltb_spec 0 (Queries.count (row x))) as [Hpos|Hzero]; simpl.
  - rewrite Hhour, (Z.eqb_sym h x).
    destruct (Z.eqb_spec x h) as [->|Hne]; simpl; [reflexivity|exact IH].
  - rewrite IH. destruct (Z.eqb_spec h x) as [->|Hne]; simpl; [|reflexivity].
    specialize (Hcount x). destruct (existsb (Z.eqb x) l); lia.
Qed.

Lemma fold_add_of_nat (f : Z -> nat) (l : list Z) :
  fold_right Z.add 0 (map (fun h => Z.of_nat (f h)) l)
  = Z.of_nat (list_sum (map f l)).
Proof.
  induction l as [|x l IH]; simpl; [reflexivity|]. rewrite IH. lia.
Qed.

(** X6.  When the messages of the window have timestamps that SQLite
    can date (from 1970 to the end of the year 9999), the 24 bars of the
    heat map drawn from [getAnalytics] add up to [totalMessages]: every
    such message falls in exactly one hour of the day. *)
Theorem heatmap_bars_add_up_to_the_total (db : database) (now : Z) (g : string)
    (p : Queries.period) :
  forallb (fun m => has_hour (Messages.timestamp m))
    (List.filter (Queries.in_window g (now - Queries.timeRange p)) (messages db))
  = true ->
  total_bars
    (ChartGenerator.generateHeatmap
       (Queries.a_hourlyActivity (Queries.getAnalytics db now g p)))
  = Z.of_nat (Queries.a_totalMessages (Queries.getAnalytics db now g p)).
Proof.
  intros _.
  change (Queries.a_hourlyActivity (Queries.getAnalytics db now g p))
    with (Queries.hourlyActivity db g (now - Queries.timeRange p)).
  change (Queries.a_totalMessages (Queries.getAnalytics db now g p))
    with (Queries.totalMessages db g (now - Queries.timeRange p)).
  unfold total_bars, ChartGenerator.generateHeatmap.
  rewrite combine_snd
    by (unfold ChartGenerator.counts, ChartGenerator.labels; now rewrite !length_map).
  unfold Queries.hourlyActivity, Queries.totalMessages, ChartGenerator.counts.
  set (window := List.filter _ (messages db)).
  set (row := fun h => {| Queries.hour := h; Queries.count := _ |}).
  change (map Z.of_nat (seq 0 24)) with ChartGenerator.hours.
  rewrite (map_ext_in _ (fun h => Queries.count (row h))).
  - unfold row. cbn [Queries.count]. rewrite fold_add_of_nat. f_equal.
    apply (counts_by_key_add_up Z.eqb Z.eqb_eq
             (fun m => Queries.hour_of (Messages.timestamp m))).
    + exact hours_NoDup.
    + intros m _. apply hour_of_in_hours.
  - intros h Hh.
    rewrite (count_at_positive_rows row ChartGenerator.hours h)
      by (intros x; unfold row; simpl; lia).
    assert (E : existsb (Z.eqb h) ChartGenerator.hours = true).
    { apply existsb_exists. exists h. split; [exact Hh|apply Z.eqb_refl]. }
    now rewrite E.
Qed.

Lemma heatmap_bars_add_up_to_the_total_witness :
  forallb (fun m => has_hour (Messages.timestamp m))
    (List.filter
       (Queries.in_window "1001" (1700003600001 - Queries.timeRange Queries.week))
       (messages
          (Queries.trackMessage
             (Queries.trackMessage initDatabase 1700000000000 "1001" "42" "7" 5)
             1700003600000 "1001" "43" "7" 9)))
  = true
  /\ total_bars
       (ChartGenerator.generateHeatmap
          (Queries.a_hourlyActivity
             (Queries.getAnalytics
                (Queries.trackMessage
                   (Queries.trackMessage initDatabase 1700000000000 "1001" "42" "7" 5)
                   1700003600000 "1001" "43" "7" 9)
                1700003600001 "1001" Queries.week)))
     = Z.of_nat
         (Queries.a_totalMessages
            (Queries.getAnalytics
               (Queries.trackMessage
                  (Queries.trackMessage initDatabase 1700000000000 "1001" "42" "7" 5)
                  1700003600000 "1001" "43" "7" 9)
               1700003600001 "1001" Queries.week)).
Proof.
  split; [reflexivity|].
  apply (heatmap_bars_add_up_to_the_total
           (Queries.trackMessage
              (Queries.trackMessage initDatabase 1700000000000 "1001" "42" "7" 5)
              1700003600000 "1001" "43" "7" 9)
           1700003600001 "1001" Queries.week).
  reflexivity.
Defined.

End HeatmapTotal.

(** ** Events and the windows they fall in *)

Section EventsAndWindows.
Import Init.

Lemma filter_length_le {B : Type} (p q : B -> bool) (l : list B) :
  (forall x, p x = true -> q x = true) ->
  (List.length (List.filter p l) <= List.length (List.filter q l))%nat.
Proof.
  intros H. induction l as [|x l IH]; simpl; [lia|].
  destruct (p x) eqn:P.
  - rewrite (H x P). simpl. lia.
  - destruct (q x); simpl; lia.
Qed.

Lemma filter_through {B : Type} (own rest full : B -> bool) (l l' : list B) :
  (forall x, full x = own x && rest x) ->
  List.filter own l = List.filter own l' ->
  List.filter full l = List.filter full l'.
Proof.
  intros Hfull Hown.
  rewrite !(filter_ext full (fun x => own x && rest x) Hfull).
  now rewrite <- !filter_filter_and, Hown.
Qed.

(** The analytics of a community read its own rows only. *)
Lemma getAnalytics_own_rows (db db' : database) (now : Z) (g : string)
    (p : Queries.period) :
  List.filter (fun m => String.eqb (Messages.guild_id m) g) (messages db)
  = List.filter (fun m => String.eqb (Messages.guild_id m) g) (messages db') ->
  List.filter (fun r => String.eqb (Members.guild_id r) g) (members db)
  = List.filter (fun r => String.eqb (Members.guild_id r) g) (members db') ->
  Queries.getAnalytics db now g p = Queries.getAnalytics db' now g p
  /\ forall now', Queries.getPreviousAnalytics db now' g p
                  = Queries.getPreviousAnalytics db' now' g p.
Proof.
  intros Hm Hb.
  assert (Hw : forall startTime,
             List.filter (Queries.in_window g startTime) (messages db)
             = List.filter (Queries.in_window g startTime) (messages db')).
  { intros startTime.
    apply (filter_through _ (fun m => startTime <=? Messages.timestamp m) _ _ _
             (fun m => eq_refl) Hm). }
  assert (Hc : forall action startTime,
             Queries.count_members db g action startTime
             = Queries.count_members db' g action startTime).
  { intros action startTime. unfold Queries.count_members. f_equal.
    apply (filter_through _
             (fun r => String.eqb (Members.action r) action
                       && (startTime <=? Members.timestamp r)) _ _ _
             (fun r => eq_sym (andb_assoc _ _ _)) Hb). }
  split.
  - unfold Queries.getAnalytics, Queries.topUsers, Queries.topChannels,
      Queries.totalMessages, Queries.hourlyActivity.
    now rewrite !Hw, !Hc.
  - intros now'. unfold Queries.getPreviousAnalytics. f_equal.
    apply (filter_through _
             (fun m => (now' - Queries.timeRange p * 2 <=? Messages.timestamp m)
                       && (Messages.timestamp m <? now' - Queries.timeRange p)) _ _ _
             (fun m => eq_sym (andb_assoc _ _ _)) Hm).
Qed.

Lemma same_analytics_eq (a b : Queries.analytics) : a = b -> same_analytics a b.
Proof. intros ->. unfold same_analytics. tauto. Qed.

(** X7.  Communities do not see each other's events.  A message recorded
    for another community leaves the rows that the queries of
    [getAnalytics] read for this one (its messages from any start time
    on) as they were, and with them the six results topUsers,
    topChannels, totalMessages, newMembers, leftMembers and
    hourlyActivity, and the count of [getPreviousAnalytics].  A
    membership change of another community leaves the messages table,
    the six results and the previous count as they were, and so does a
    reaction recorded for any community, which touches neither the
    messages nor the members. *)
Theorem other_events_do_not_count (db : database) (t now now' : Z)
    (g g' g'' u c a : string) (n : Z) (p : Queries.period) :
  g' <> g ->
  (same_analytics (Queries.getAnalytics (Queries.trackMessage db t g' u c n) now g p)
     (Queries.getAnalytics db now g p)
   /\ (forall startTime,
          List.filter (Queries.in_window g startTime)
            (messages (Queries.trackMessage db t g' u c n))
          = List.filter (Queries.in_window g startTime) (messages db))
   /\ Queries.getPreviousAnalytics (Queries.trackMessage db t g' u c n) now' g p
      = Queries.getPreviousAnalytics db now' g p)
  /\ (same_analytics (Queries.getAnalytics (Queries.trackMember db t g' u a) now g p)
        (Queries.getAnalytics db now g p)
      /\ messages (Queries.trackMember db t g' u a) = messages db
      /\ Queries.getPreviousAnalytics (Queries.trackMember db t g' u a) now' g p
         = Queries.getPreviousAnalytics db now' g p)
  /\ (same_analytics (Queries.getAnalytics (Queries.trackReaction db t g'' u a) now g p)
        (Queries.getAnalytics db now g p)
      /\ messages (Queries.trackReaction db t g'' u a) = messages db
      /\ members (Queries.trackReaction db t g'' u a) = members db
      /\ Queries.getPreviousAnalytics (Queries.trackReaction db t g'' u a) now' g p
         = Queries.getPreviousAnalytics db now' g p).
Proof.
  intros Hne. apply String.eqb_neq in Hne.
  assert (Hmsg : List.filter (fun m => String.eqb (Messages.guild_id m) g)
                   (messages (Queries.trackMessage db t g' u c n))
                 = List.filter (fun m => String.eqb (Messages.guild_id m) g)
                     (messages db)).
  { simpl. rewrite filter_app. simpl. rewrite Hne. now rewrite app_nil_r. }
  assert (Hmem : List.filter (fun r => String.eqb (Members.guild_id r) g)
                   (members (Queries.trackMember db t g' u a))
                 = List.filter (fun r => String.eqb (Members.guild_id r) g)
                     (members db)).
  { simpl. rewrite filter_app. simpl. rewrite Hne. now rewrite app_nil_r. }
  destruct (getAnalytics_own_rows (Queries.trackMessage db t g' u c n) db now g p
              Hmsg eq_refl) as [H1 H2].
  destruct (getAnalytics_own_rows (Queries.trackMember db t g' u a) db now g p
              eq_refl Hmem) as [H3 H3'].
  destruct (getAnalytics_own_rows (Queries.trackReaction db t g'' u a) db now g p
              eq_refl eq_refl) as [H4 H5].
  split; [|split].
  - split; [exact (same_analytics_eq _ _ H1)|]. split; [|exact (H2 now')].
    intros startTime.
    exact (filter_through _ (fun m => startTime <=? Messages.timestamp m) _ _ _
             (fun m => eq_refl) Hmsg).
  - split; [exact (same_analytics_eq _ _ H3)|]. split; [reflexivity|exact (H3' now')].
  - split; [exact (same_analytics_eq _ _ H4)|].
    split; [reflexivity|]. split; [reflexivity|exact (H5 now')].
Qed.

Lemma other_events_do_not_count_witness :
  "2002" <> "1001"
  /\ same_analytics
       (Queries.getAnalytics
          (Queries.trackMessage
             (Queries.trackMessage initDatabase 1700000000000 "1001" "42" "7" 5)
             1700000000001 "2002" "43" "8" 9)
          1700000000002 "1001" Queries.week)
       (Queries.getAnalytics
          (Queries.trackMessage initDatabase 1700000000000 "1001" "42" "7" 5)
          1700000000002 "1001" Queries.week).
Proof.
  assert (Hne : "2002" <> "1001") by discriminate.
  split; [exact Hne|].
  exact (proj1 (proj1 (other_events_do_not_count
                  (Queries.trackMessage initDatabase 1700000000000 "1001" "42" "7" 5)
                  1700000000001 1700000000002 1700000000002
                  "1001" "2002" "3003" "43" "8" "join" 9 Queries.week Hne))).
Defined.

(** X8.  A recorded message passes through the windows as time goes on:
    while its timestamp is within the last w it adds one to the current
    total and nothing to the previous count; once it is older than w but
    not older than 2w it adds one to the previous count only; after that
    it is counted nowhere: it is not among the rows that the queries of
    [getAnalytics] read, so that the six results topUsers, topChannels,
    totalMessages, newMembers, leftMembers and hourlyActivity are as
    without it, and so is the previous count. *)
Theorem message_passes_through_the_windows (db : database) (t now : Z)
    (g u c : string) (n : Z) (p : Queries.period) :
  (now - Queries.timeRange p <= t ->
   Queries.a_totalMessages
     (Queries.getAnalytics (Queries.trackMessage db t g u c n) now g p)
   = S (Queries.a_totalMessages (Queries.getAnalytics db now g p))
   /\ Queries.getPreviousAnalytics (Queries.trackMessage db t g u c n) now g p
      = Queries.getPreviousAnalytics db now g p)
  /\ (now - 2 * Queries.timeRange p <= t < now - Queries.timeRange p ->
      Queries.a_totalMessages
        (Queries.getAnalytics (Queries.trackMessage db t g u c n) now g p)
      = Queries.a_totalMessages (Queries.getAnalytics db now g p)
      /\ Queries.getPreviousAnalytics (Queries.trackMessage db t g u c n) now g p
         = S (Queries.getPreviousAnalytics db now g p))
  /\ (t < now - 2 * Queries.timeRange p ->
      List.filter (Queries.in_window g (now - Queries.timeRange p))
        (messages (Queries.trackMessage db t g u c n))
      = List.filter (Queries.in_window g (now - Queries.timeRange p)) (messages db)
      /\ same_analytics
           (Queries.getAnalytics (Queries.trackMessage db t g u c n) now g p)
           (Queries.getAnalytics db now g p)
      /\ Queries.getPreviousAnalytics (Queries.trackMessage db t g u c n) now g p
         = Queries.getPreviousAnalytics db now g p).
Proof.
  assert (Hw : 0 < Queries.timeRange p) by (destruct p; reflexivity).
  set (row := {| Messages.guild_id := g; Messages.user_id := u;
                 Messages.channel_id := c; Messages.message_length := n;
                 Messages.timestamp := t |}).
  assert (Hwin : forall startTime,
             List.filter (Queries.in_window g startTime)
               (messages (Queries.trackMessage db t g u c n))
             = List.filter (Queries.in_window g startTime) (messages db)
               ++ (if startTime <=? t then [row] else [])).
  { intros startTime. simpl. rewrite filter_app. simpl.
    unfold Queries.in_window at 2. simpl. rewrite String.eqb_refl. simpl.
    now destruct (startTime <=? t). }
  assert (Hint : forall startTime endTime,
             List.filter (Queries.in_interval g startTime endTime)
               (messages (Queries.trackMessage db t g u c n))
             = List.filter (Queries.in_interval g startTime endTime) (messages db)
               ++ (if (startTime <=? t) && (t <? endTime) then [row] else [])).
  { intros startTime endTime. simpl. rewrite filter_app. simpl.
    unfold Queries.in_interval at 2. simpl. rewrite String.eqb_refl. simpl.
    now destruct ((startTime <=? t) && (t <? endTime)). }
  assert (Htot : Queries.a_totalMessages
                   (Queries.getAnalytics (Queries.trackMessage db t g u c n) now g p)
                 = (Queries.a_totalMessages (Queries.getAnalytics db now g p)
                    + if (now - Queries.timeRange p <=? t)%Z then 1 else 0)%nat).
  { change (Queries.a_totalMessages
              (Queries.getAnalytics (Queries.trackMessage db t g u c n) now g p))
      with (List.length
              (List.filter (Queries.in_window g (now - Queries.timeRange p))
                 (messages (Queries.trackMessage db t g u c n)))).
    rewrite Hwin, length_app.
    now destruct (now - Queries.timeRange p <=? t). }
  assert (Hprev : Queries.getPreviousAnalytics (Queries.trackMessage db t g u c n) now g p
                  = (Queries.getPreviousAnalytics db now g p
                     + if ((now - Queries.timeRange p * 2 <=? t)
                           && (t <? now - Queries.timeRange p))%Z
                       then 1 else 0)%nat).
  { unfold Queries.getPreviousAnalytics. rewrite Hint, length_app.
    now destruct ((now - Queries.timeRange p * 2 <=? t)
                  && (t <? now - Queries.timeRange p)). }
  split; [|split].
  - intros Ht. rewrite Htot, Hprev.
    destruct (Z.leb_spec (now - Queries.timeRange p) t); [|lia].
    destruct (Z.ltb_spec t (now - Queries.timeRange p)); [lia|].
    rewrite andb_false_r. lia.
  - intros Ht. rewrite Htot, Hprev.
    destruct (Z.leb_spec (now - Queries.timeRange p) t); [lia|].
    destruct (Z.ltb_spec t (now - Queries.timeRange p)); [|lia].
    destruct (Z.leb_spec (now - Queries.timeRange p * 2) t); [|lia].
    simpl. lia.
  - intros Ht. split; [|split].
    + rewrite Hwin.
      destruct (Z.leb_spec (now - Queries.timeRange p) t); [lia|].
      now rewrite app_nil_r.
    + apply same_analytics_eq.
      unfold Queries.getAnalytics, Queries.topUsers, Queries.topChannels,
        Queries.totalMessages, Queries.hourlyActivity.
      rewrite !Hwin.
      destruct (Z.leb_spec (now - Queries.timeRange p) t); [lia|].
      now rewrite !app_nil_r.
    + rewrite Hprev.
      destruct (Z.leb_spec (now - Queries.timeRange p * 2) t); [lia|].
      simpl. lia.
Qed.

(** X9.  At one clock reading the month contains the week: the monthly
    total, the monthly joins and leaves, and every author's monthly
    number of messages are at least the weekly ones. *)
Theorem month_contains_week (db : database) (now : Z) (g : string) :
  (Queries.a_totalMessages (Queries.getAnalytics db now g Queries.week)
   <= Queries.a_totalMessages (Queries.getAnalytics db now g Queries.month))%nat
  /\ (Queries.a_newMembers (Queries.getAnalytics db now g Queries.week)
      <= Queries.a_newMembers (Queries.getAnalytics db now g Queries.month))%nat
  /\ (Queries.a_leftMembers (Queries.getAnalytics db now g Queries.week)
      <= Queries.a_leftMembers (Queries.getAnalytics db now g Queries.month))%nat
  /\ forall u n,
       In (u, n) (Queries.a_topUsers (Queries.getAnalytics db now g Queries.week)) ->
       (n <= messages_by db g (now - Queries.timeRange Queries.month) u)%nat.
Proof.
  assert (Hwin : forall m,
             Queries.in_window g (now - Queries.timeRange Queries.week) m = true ->
             Queries.in_window g (now - Queries.timeRange Queries.month) m = true).
  { intros m H. apply in_window_iff in H. apply in_window_iff.
    unfold Queries.timeRange in *. split; [tauto|lia]. }
  split; [|split; [|split]].
  - apply filter_length_le. exact Hwin.
  - apply filter_length_le. intros r H.
    apply andb_prop in H. destruct H as [H Ht]. rewrite H. simpl.
    apply Z.leb_le in Ht. apply Z.leb_le. unfold Queries.timeRange in *. lia.
  - apply filter_length_le. intros r H.
    apply andb_prop in H. destruct H as [H Ht]. rewrite H. simpl.
    apply Z.leb_le in Ht. apply Z.leb_le. unfold Queries.timeRange in *. lia.
  - intros u n Hin.
    change (Queries.a_topUsers (Queries.getAnalytics db now g Queries.week))
      with (Queries.top10 Messages.user_id
              (List.filter (Queries.in_window g (now - Queries.timeRange Queries.week))
                 (messages db))) in Hin.
    destruct (top10_spec Messages.user_id
                (List.filter (Queries.in_window g (now - Queries.timeRange Queries.week))
                   (messages db))) as [_ [_ [_ Hspec]]].
    destruct (Hspec u n Hin) as [-> _].
    unfold Queries.count_key, messages_by. rewrite filter_filter_and.
    apply filter_length_le. intros m H.
    apply andb_prop in H. destruct H as [H Hu]. now rewrite (Hwin m H), Hu.
Qed.

(** X10.  The listeners of joins and leaves write the two actions that
    [getAnalytics] counts: a join within the window adds one to
    [newMembers] and nothing to [leftMembers], a leave the other way
    round, and an older one adds to neither; either listener leaves
    [totalMessages], the whole messages table and the settings table as
    they were. *)
Theorem joins_and_leaves_are_counted (db : database) (t now : Z)
    (g memberId : string) (p : Queries.period) :
  Queries.a_newMembers
    (Queries.getAnalytics (Listeners.onGuildMemberAdd db t g memberId) now g p)
  = (Queries.a_newMembers (Queries.getAnalytics db now g p)
     + if (now - Queries.timeRange p <=? t)%Z then 1 else 0)%nat
  /\ Queries.a_leftMembers
       (Queries.getAnalytics (Listeners.onGuildMemberAdd db t g memberId) now g p)
     = Queries.a_leftMembers (Queries.getAnalytics db now g p)
  /\ Queries.a_leftMembers
       (Queries.getAnalytics (Listeners.onGuildMemberRemove db t g memberId) now g p)
     = (Queries.a_leftMembers (Queries.getAnalytics db now g p)
        + if (now - Queries.timeRange p <=? t)%Z then 1 else 0)%nat
  /\ Queries.a_newMembers
       (Queries.getAnalytics (Listeners.onGuildMemberRemove db t g memberId) now g p)
     = Queries.a_newMembers (Queries.getAnalytics db now g p)
  /\ Queries.a_totalMessages
       (Queries.getAnalytics (Listeners.onGuildMemberAdd db t g memberId) now g p)
     = Queries.a_totalMessages (Queries.getAnalytics db now g p)
  /\ Queries.a_totalMessages
       (Queries.getAnalytics (Listeners.onGuildMemberRemove db t g memberId) now g p)
     = Queries.a_totalMessages (Queries.getAnalytics db now g p)
  /\ messages (Listeners.onGuildMemberAdd db t g memberId) = messages db
  /\ messages (Listeners.onGuildMemberRemove db t g memberId) = messages db
  /\ guild_settings (Listeners.onGuildMemberAdd db t g memberId) = guild_settings db
  /\ guild_settings (Listeners.onGuildMemberRemove db t g memberId) = guild_settings db.
Proof.
  assert (Hcount : forall action action',
             Queries.count_members (Queries.trackMember db t g memberId action') g action
               (now - Queries.timeRange p)
             = (Queries.count_members db g action (now - Queries.timeRange p)
                + if String.eqb action' action && (now - Queries.timeRange p <=? t)%Z
                  then 1 else 0)%nat).
  { intros action action'. unfold Queries.count_members. simpl.
    rewrite filter_app, length_app. simpl. rewrite String.eqb_refl. simpl.
    now destruct (String.eqb action' action && (now - Queries.timeRange p <=? t)). }
  split; [|split; [|split; [|split; [|split; [|split; [|split; [|split; [|split]]]]]]]].
  - exact (Hcount "join" "join").
  - change (Queries.count_members (Queries.trackMember db t g memberId "join") g "leave"
              (now - Queries.timeRange p)
            = Queries.count_members db g "leave" (now - Queries.timeRange p)).
    rewrite (Hcount "leave" "join").
    change (String.eqb "join" "leave") with false. cbn [andb]. lia.
  - exact (Hcount "leave" "leave").
  - change (Queries.count_members (Queries.trackMember db t g memberId "leave") g "join"
              (now - Queries.timeRange p)
            = Queries.count_members db g "join" (now - Queries.timeRange p)).
    rewrite (Hcount "join" "leave").
    change (String.eqb "leave" "join") with false. cbn [andb]. lia.
  - change (Queries.totalMessages (Listeners.onGuildMemberAdd db t g memberId) g
              (now - Queries.timeRange p)
            = Queries.totalMessages db g (now - Queries.timeRange p)).
    unfold Queries.totalMessages, Listeners.onGuildMemberAdd, Queries.trackMember.
    reflexivity.
  - change (Queries.totalMessages (Listeners.onGuildMemberRemove db t g memberId) g
              (now - Queries.timeRange p)
            = Queries.totalMessages db g (now - Queries.timeRange p)).
    unfold Queries.totalMessages, Listeners.onGuildMemberRemove, Queries.trackMember.
    reflexivity.
  - reflexivity.
  - reflexivity.
  - reflexivity.
  - reflexivity.
Qed.

End EventsAndWindows.

(** ** The message listener and the settings session together *)

Section ListenerAndSession.
Import Init.
Variable JSON_parse : string -> option (list jsval).

(** X11.  The first message of a community that has no settings yet is
    recorded, and the listener leaves the default row behind; a message
    of a bot, or one outside any community, changes nothing at all, not
    even the settings table. *)
Theorem first_message_of_a_community (db : database) (now : Z) (g : string)
    (m : Bot.message) :
  JSON_parse "[]" = Some [] ->
  Queries.select_guild_settings (guild_settings db) g = None ->
  (Bot.author_bot m = false -> Bot.guild m = Some g ->
   Bot.onMessageCreate JSON_parse db now m
   = (Queries.trackMessage
        (with_guild_settings db (guild_settings db ++ [GuildSettings.default_row g]))
        now g (Bot.author_id m) (Bot.channel_id m) (Bot.content_length m),
      Ok tt))
  /\ (Bot.author_bot m = true \/ Bot.guild m = None ->
      Bot.onMessageCreate JSON_parse db now m = (db, Ok tt)).
Proof.
  intros Hparse Hnew. split.
  - intros Hbot Hguild. unfold Bot.onMessageCreate.
    rewrite Hbot, Hguild, (getGuildSettings_new _ _ Hnew).
    change (SettingsObject.tracked_channels_text (SettingsObject.literal g)) with "[]".
    change (truthy (SettingsObject.enabled (SettingsObject.literal g))) with true.
    rewrite Hparse. reflexivity.
  - intros [Hbot|Hguild]; unfold Bot.onMessageCreate.
    + now rewrite Hbot.
    + rewrite Hguild. now destruct (Bot.author_bot m).
Qed.

(** A single assignment to a column other than the key, for a community
    with a row. *)
Lemma update_one_column (db : database) (g k : string) (v : sqlval)
    (c : GuildSettings.column) (r : GuildSettings.row) :
  Queries.select_guild_settings (guild_settings db) g = Some r ->
  GuildSettings.column_of_name k = Some c ->
  c <> GuildSettings.col_guild_id ->
  exists db',
    Queries.updateGuildSettings db g [(k, v)] = Ok db'
    /\ messages db' = messages db /\ members db' = members db
    /\ reactions db' = reactions db
    /\ Queries.select_guild_settings (guild_settings db') g
       = Some (GuildSettings.set c v r).
Proof.
  intros Hrow Hk Hc.
  assert (Hkey : GuildSettings.column_eqb GuildSettings.col_guild_id c = false)
    by (destruct c; try reflexivity; now destruct Hc).
  assert (Hprep : Queries.prepare_update (Queries.Object_keys [(k, v)]) = Ok [c]).
  { unfold Queries.prepare_update, Queries.Object_keys.
    cbn [map fst Queries.resolve_columns]. now rewrite Hk. }
  assert (Hak : Queries.assigns_key [c] = false).
  { unfold Queries.assigns_key. cbn [existsb]. now rewrite Hkey. }
  unfold Queries.updateGuildSettings. rewrite Hprep. cbn [bind].
  unfold Queries.run_update. rewrite Hak. cbn [andb bind].
  eexists. split; [reflexivity|]. split; [reflexivity|]. split; [reflexivity|].
  split; [reflexivity|].
  cbn [guild_settings with_guild_settings Queries.Object_values map snd Queries.assign].
  unfold Queries.select_guild_settings in *. rewrite find_map_same.
  - rewrite Hrow. cbn [option_map]. apply find_some in Hrow. destruct Hrow as [_ Hg].
    now rewrite Hg.
  - intros x. destruct (Queries.is_guild g x) eqn:E; [|exact E].
    unfold Queries.is_guild in *.
    destruct c; try exact E. now destruct Hc.
Qed.

End ListenerAndSession.

Section SessionAndStore.
Import Init.
Variable JSON_parse : string -> option (list jsval).

Lemma mirrors_stored (v : sqlval) : mirrors (js_of_sql v) v.
Proof. now left. Qed.

(** X12.  The session's copy of the settings follows the store: it
    mirrors the community's row when [execute] has opened the session,
    and when it did before an action it does after it, as long as the
    session is the only writer. *)
Theorem session_copy_follows_the_store :
  (forall db now g u db' s out,
      SettingsCommand.execute JSON_parse db now g u = (db', Ok (s, out)) ->
      in_sync s db')
  /\ (forall s db i s' db' out,
         in_sync s db ->
         SettingsCommand.on_collect s db i = Ok (s', db', out) ->
         in_sync s' db').
Proof.
  split.
  - intros db now g u db' s out. unfold SettingsCommand.execute.
    destruct (Queries.select_guild_settings (guild_settings db) g) as [r|] eqn:Hrow.
    + rewrite (getGuildSettings_existing _ _ _ Hrow).
      destruct (JSON_parse _); [|discriminate].
      intros H. injection H as <- <- _. exists r. simpl.
      split; [exact Hrow|]. repeat split; apply mirrors_stored.
    + rewrite (getGuildSettings_new _ _ Hrow).
      destruct (JSON_parse _); [|discriminate].
      intros H. injection H as <- <- _. exists (GuildSettings.default_row g). simpl.
      split; [now apply select_after_insert|].
      split; [now left|]. split; [now left|]. right. now split.
  - intros s db i s' db' out [r [Hrow [He [Hn Hl]]]].
    unfold in_sync, mirrors in *.
    unfold SettingsCommand.on_collect.
    destruct (String.eqb (SettingsCommand.customId i) "toggle_tracking").
    { destruct (update_one_column db (SettingsCommand.guild s) "enabled"
                  (SqlInt (SettingsCommand.flip
                             (SettingsObject.enabled (SettingsCommand.settings s))))
                  GuildSettings.col_enabled r Hrow eq_refl ltac:(discriminate))
        as [d [Hupd [_ [_ [_ Hsel]]]]].
      rewrite Hupd. simpl. intros H. injection H as <- <- _.
      eexists. split; [exact Hsel|]. simpl.
      split; [now left|]. now split. }
    destruct (String.eqb (SettingsCommand.customId i) "toggle_notifications").
    { destruct (update_one_column db (SettingsCommand.guild s) "notifications_enabled"
                  (SqlInt (SettingsCommand.flip
                             (SettingsObject.notifications_enabled
                                (SettingsCommand.settings s))))
                  GuildSettings.col_notifications_enabled r Hrow eq_refl
                  ltac:(discriminate))
        as [d [Hupd [_ [_ [_ Hsel]]]]].
      rewrite Hupd. simpl. intros H. injection H as <- <- _.
      eexists. split; [exact Hsel|]. simpl.
      split; [exact He|]. split; [now left|exact Hl]. }
    destruct (String.eqb (SettingsCommand.customId i) "set_log_channel").
    { destruct (SettingsCommand.values i) as [|channelId rest].
      - destruct (update_one_column db (SettingsCommand.guild s) "log_channel_id"
                    SqlNull GuildSettings.col_log_channel_id r Hrow eq_refl
                    ltac:(discriminate))
          as [d [Hupd [_ [_ [_ Hsel]]]]].
        rewrite Hupd. simpl. intros H. injection H as <- <- _.
        eexists. split; [exact Hsel|]. simpl.
        split; [exact He|]. split; [exact Hn|right; now split].
      - destruct (update_one_column db (SettingsCommand.guild s) "log_channel_id"
                    (SqlText channelId) GuildSettings.col_log_channel_id r Hrow eq_refl
                    ltac:(discriminate))
          as [d [Hupd [_ [_ [_ Hsel]]]]].
        rewrite Hupd. simpl. intros H. injection H as <- <- _.
        eexists. split; [exact Hsel|]. simpl.
        split; [exact He|]. split; [exact Hn|now left]. }
    simpl. intros H. injection H as <- <- _. exists r. auto.
Qed.

(** The action [toggle_tracking], for a community with a row. *)
Lemma toggle_tracking_goes_through (s : SettingsCommand.session) (db : database)
    (i : SettingsCommand.component_interaction) (r : GuildSettings.row) :
  Queries.select_guild_settings (guild_settings db) (SettingsCommand.guild s) = Some r ->
  SettingsCommand.customId i = "toggle_tracking" ->
  exists db' out,
    SettingsCommand.on_collect s db i
    = Ok (SettingsCommand.with_settings s
            (SettingsCommand.set_enabled (SettingsCommand.settings s)
               (JsNum (SettingsCommand.flip
                         (SettingsObject.enabled (SettingsCommand.settings s))))),
          db', out)
    /\ Queries.select_guild_settings (guild_settings db') (SettingsCommand.guild s)
       = Some (GuildSettings.set GuildSettings.col_enabled
                 (SqlInt (SettingsCommand.flip
                            (SettingsObject.enabled (SettingsCommand.settings s))))
                 r)
    /\ messages db' = messages db.
Proof.
  intros Hrow Hid.
  destruct (update_one_column db (SettingsCommand.guild s) "enabled"
              (SqlInt (SettingsCommand.flip
                         (SettingsObject.enabled (SettingsCommand.settings s))))
              GuildSettings.col_enabled r Hrow eq_refl ltac:(discriminate))
    as [d [Hupd [Hmsg [_ [_ Hsel]]]]].
  eexists d, _. split; [|split; assumption].
  unfold SettingsCommand.on_collect. rewrite Hid. simpl String.eqb. cbv iota.
  rewrite Hupd. reflexivity.
Qed.

(** X13.  A toggle writes the negation of the session's copy, not of the
    stored value: for a community with a row the action goes through,
    the row afterwards holds [flip] of the copy in [enabled] whatever it
    held before, every other column is kept, and the operator gets the
    reply and the new view. *)
Theorem toggle_writes_the_copy (s : SettingsCommand.session) (db : database)
    (i : SettingsCommand.component_interaction) (r : GuildSettings.row) :
  Queries.select_guild_settings (guild_settings db) (SettingsCommand.guild s) = Some r ->
  SettingsCommand.customId i = "toggle_tracking" ->
  exists db',
    SettingsCommand.on_collect s db i
    = Ok (SettingsCommand.with_settings s
            (SettingsCommand.set_enabled (SettingsCommand.settings s)
               (JsNum (SettingsCommand.flip
                         (SettingsObject.enabled (SettingsCommand.settings s))))),
          db',
          [SettingsCommand.Reply
             (if truthy (SettingsObject.enabled (SettingsCommand.settings s))
              then "Tracking disabled!" else "Tracking enabled!");
           SettingsCommand.EditReply
             (SettingsCommand.render
                (SettingsCommand.set_enabled (SettingsCommand.settings s)
                   (JsNum (SettingsCommand.flip
                             (SettingsObject.enabled (SettingsCommand.settings s)))))
                (SettingsCommand.tracked s))])
    /\ Queries.select_guild_settings (guild_settings db') (SettingsCommand.guild s)
       = Some (GuildSettings.set GuildSettings.col_enabled
                 (SqlInt (SettingsCommand.flip
                            (SettingsObject.enabled (SettingsCommand.settings s))))
                 r)
    /\ messages db' = messages db.
Proof.
  intros Hrow Hid.
  destruct (update_one_column db (SettingsCommand.guild s) "enabled"
              (SqlInt (SettingsCommand.flip
                         (SettingsObject.enabled (SettingsCommand.settings s))))
              GuildSettings.col_enabled r Hrow eq_refl ltac:(discriminate))
    as [d [Hupd [Hmsg [_ [_ Hsel]]]]].
  exists d. split; [|split; assumption].
  unfold SettingsCommand.on_collect. rewrite Hid. simpl String.eqb. cbv iota.
  rewrite Hupd. unfold SettingsCommand.flip.
  destruct (truthy (SettingsObject.enabled (SettingsCommand.settings s))); reflexivity.
Qed.

(** X14.  The store changes in a session only through an action of the
    operator that arrives in time and is one of the three the listener
    knows: whenever [deliver] returns another database than it got, all
    three hold. *)
Theorem deliver_writes_only_for_the_operator (s s' : SettingsCommand.session)
    (db db' : database) (now : Z) (i : SettingsCommand.component_interaction)
    (out : list SettingsCommand.output) :
  SettingsCommand.deliver s db now i = Ok (s', db', out) ->
  db' <> db ->
  now < SettingsCommand.expires_at s
  /\ SettingsCommand.user_id i = SettingsCommand.operator s
  /\ (SettingsCommand.customId i = "toggle_tracking"
      \/ SettingsCommand.customId i = "toggle_notifications"
      \/ SettingsCommand.customId i = "set_log_channel").
Proof.
  unfold SettingsCommand.deliver, SettingsCommand.ended, SettingsCommand.filter.
  destruct (Z.leb_spec (SettingsCommand.expires_at s) now) as [Hend|Hrun].
  { intros H Hne. injection H as _ <- _. now destruct Hne. }
  destruct (String.eqb_spec (SettingsCommand.user_id i) (SettingsCommand.operator s))
    as [Huser|Huser].
  2:{ intros H Hne. injection H as _ <- _. now destruct Hne. }
  intros H Hne. split; [exact Hrun|]. split; [exact Huser|].
  unfold SettingsCommand.on_collect in H.
  destruct (String.eqb_spec (SettingsCommand.customId i) "toggle_tracking");
    [now left|].
  destruct (String.eqb_spec (SettingsCommand.customId i) "toggle_notifications");
    [right; now left|].
  destruct (String.eqb_spec (SettingsCommand.customId i) "set_log_channel");
    [right; now right|].
  simpl in H. injection H as _ <- _. now destruct Hne.
Qed.

(** X15.  Switching tracking off in a session stops the recording: when
    the session is in step with the store and shows tracking as on, the
    operator's toggle in time goes through, and from then on the
    listener records no message of the community. *)
Theorem tracking_switched_off_stops_recording (s : SettingsCommand.session)
    (db : database) (now : Z) (i : SettingsCommand.component_interaction) :
  in_sync s db ->
  truthy (SettingsObject.enabled (SettingsCommand.settings s)) = true ->
  now < SettingsCommand.expires_at s ->
  SettingsCommand.user_id i = SettingsCommand.operator s ->
  SettingsCommand.customId i = "toggle_tracking" ->
  exists s' db' out,
    SettingsCommand.deliver s db now i = Ok (s', db', out)
    /\ messages db' = messages db
    /\ forall later m,
         Bot.guild m = Some (SettingsCommand.guild s) ->
         Bot.onMessageCreate JSON_parse db' later m = (db', Ok tt).
Proof.
  intros [r [Hrow _]] Hon Hnow Huser Hid.
  destruct (toggle_tracking_goes_through s db i r Hrow Hid)
    as [db' [out [Hcol [Hsel Hmsg]]]].
  eexists _, db', out. split; [|split; [exact Hmsg|]].
  - rewrite (deliver_in_time s db now i Hnow Huser). exact Hcol.
  - intros later m Hguild. unfold Bot.onMessageCreate. rewrite Hguild.
    destruct (Bot.author_bot m); [reflexivity|].
    rewrite (getGuildSettings_existing _ _ _ Hsel). simpl.
    unfold SettingsCommand.flip. now rewrite Hon.
Qed.

End SessionAndStore.

Lemma first_message_of_a_community_witness :
  JSON_parse_default "[]" = Some []
  /\ Queries.select_guild_settings (Init.guild_settings Init.initDatabase) "1001" = None
  /\ Bot.onMessageCreate JSON_parse_default Init.initDatabase 1700000000000
       {| Bot.author_bot := false; Bot.guild := Some "1001";
          Bot.author_id := "42"; Bot.channel_id := "7"; Bot.content_length := 5 |}
     = (Queries.trackMessage
          (Init.with_guild_settings Init.initDatabase [GuildSettings.default_row "1001"])
          1700000000000 "1001" "42" "7" 5,
        Ok tt).
Proof.
  split; [reflexivity|]. split; [reflexivity|].
  exact (proj1 (first_message_of_a_community JSON_parse_default Init.initDatabase
                  1700000000000 "1001"
                  {| Bot.author_bot := false; Bot.guild := Some "1001";
                     Bot.author_id := "42"; Bot.channel_id := "7";
                     Bot.content_length := 5 |}
                  eq_refl eq_refl) eq_refl eq_refl).
Defined.

Lemma toggle_writes_the_copy_witness :
  exists db',
    Queries.select_guild_settings (Init.guild_settings db') "1001"
    = Some (GuildSettings.set GuildSettings.col_enabled (SqlInt 0)
              (GuildSettings.set GuildSettings.col_enabled (SqlInt 0)
                 (GuildSettings.default_row "1001"))).
Proof.
  destruct (toggle_writes_the_copy
              {| SettingsCommand.guild := "1001"; SettingsCommand.operator := "42";
                 SettingsCommand.created_at := 0;
                 SettingsCommand.settings := SettingsObject.literal "1001";
                 SettingsCommand.tracked := "All channels" |}
              (Init.with_guild_settings Init.initDatabase
                 [GuildSettings.set GuildSettings.col_enabled (SqlInt 0)
                    (GuildSettings.default_row "1001")])
              {| SettingsCommand.user_id := "42";
                 SettingsCommand.customId := "toggle_tracking";
                 SettingsCommand.values := [] |}
              (GuildSettings.set GuildSettings.col_enabled (SqlInt 0)
                 (GuildSettings.default_row "1001"))
              eq_refl eq_refl) as [db' [_ [Hsel _]]].
  exists db'. exact Hsel.
Defined.

Lemma deliver_writes_only_for_the_operator_witness :
  1000 < SettingsCommand.expires_at
           {| SettingsCommand.guild := "1001"; SettingsCommand.operator := "42";
              SettingsCommand.created_at := 0;
              SettingsCommand.settings := SettingsObject.literal "1001";
              SettingsCommand.tracked := "All channels" |}
  /\ "42" = "42"
  /\ ("toggle_tracking" = "toggle_tracking"
      \/ "toggle_tracking" = "toggle_notifications"
      \/ "toggle_tracking" = "set_log_channel").
Proof.
  refine (deliver_writes_only_for_the_operator
            {| SettingsCommand.guild := "1001"; SettingsCommand.operator := "42";
               SettingsCommand.created_at := 0;
               SettingsCommand.settings := SettingsObject.literal "1001";
               SettingsCommand.tracked := "All channels" |}
            _
            (Init.with_guild_settings Init.initDatabase
               [GuildSettings.default_row "1001"])
            _ 1000
            {| SettingsCommand.user_id := "42";
               SettingsCommand.customId := "toggle_tracking";
               SettingsCommand.values := [] |}
            _ eq_refl _).
  discriminate.
Defined.

Lemma tracking_switched_off_stops_recording_witness :
  exists s' db' out,
    SettingsCommand.deliver
      {| SettingsCommand.guild := "1001"; SettingsCommand.operator := "42";
         SettingsCommand.created_at := 0;
         SettingsCommand.settings := SettingsObject.literal "1001";
         SettingsCommand.tracked := "All channels" |}
      (Init.with_guild_settings Init.initDatabase [GuildSettings.default_row "1001"])
      1000
      {| SettingsCommand.user_id := "42";
         SettingsCommand.customId := "toggle_tracking";
         SettingsCommand.values := [] |}
    = Ok (s', db', out)
    /\ Init.messages db' = []
    /\ forall later m,
         Bot.guild m = Some "1001" ->
         Bot.onMessageCreate JSON_parse_default db' later m = (db', Ok tt).
Proof.
  refine (tracking_switched_off_stops_recording JSON_parse_default
            {| SettingsCommand.guild := "1001"; SettingsCommand.operator := "42";
               SettingsCommand.created_at := 0;
               SettingsCommand.settings := SettingsObject.literal "1001";
               SettingsCommand.tracked := "All channels" |}
            (Init.with_guild_settings Init.initDatabase
               [GuildSettings.default_row "1001"])
            1000
            {| SettingsCommand.user_id := "42";
               SettingsCommand.customId := "toggle_tracking";
               SettingsCommand.values := [] |}
            _ eq_refl eq_refl eq_refl eq_refl).
  exists (GuildSettings.default_row "1001"). split; [reflexivity|].
  split; [now left|]. split; [now left|]. right. now split.
Defined.

(** ** The weekly report *)

Section WeeklyReport.
Import Init.

Lemma cache_get_some (g : Scheduler.guild) (v : jsval) (ch : string) :
  Scheduler.cache_get g v = Some ch <->
  v = JsStr ch /\ In ch (Scheduler.channels_cache g).
Proof.
  unfold Scheduler.cache_get. split.
  - destruct v as [| |n|s]; try discriminate.
    destruct (existsb (String.eqb s) (Scheduler.channels_cache g)) eqn:E; [|discriminate].
    intros H. injection H as <-. split; [reflexivity|].
    apply existsb_exists in E. destruct E as [x [Hx Hs]].
    apply String.eqb_eq in Hs. now subst.
  - intros [-> Hin].
    assert (E : existsb (String.eqb ch) (Scheduler.channels_cache g) = true).
    { apply existsb_exists. exists ch. split; [exact Hin|apply String.eqb_refl]. }
    now rewrite E.
Qed.

(** X16.  The weekly report is sent only to a configured community: when
    [sendWeeklyReport] sends, the database is as before, the body of the
    [try] went through, the community has a row with notifications on,
    the channel is the stored log channel, and the guild's cache has it;
    the report carries the messages of the last 7 days. *)
Theorem weekly_report_only_when_configured (db db' : database) (now now' : Z)
    (g : Scheduler.guild) (delivers : bool) (ch : string)
    (rep : Scheduler.weekly_report) :
  Scheduler.sendWeeklyReport db now now' g delivers = (db', Ok (Scheduler.Sent ch rep)) ->
  db' = db
  /\ delivers = true
  /\ In ch (Scheduler.channels_cache g)
  /\ (exists r,
         Queries.select_guild_settings (guild_settings db) (Scheduler.id g) = Some r
         /\ truthy (js_of_sql (GuildSettings.notifications_enabled r)) = true
         /\ GuildSettings.log_channel_id r = SqlText ch)
  /\ Scheduler.totalMessages rep
     = Queries.a_totalMessages
         (Queries.getAnalytics db now (Scheduler.id g) Queries.week).
Proof.
  unfold Scheduler.sendWeeklyReport.
  destruct (Queries.select_guild_settings (guild_settings db) (Scheduler.id g))
    as [r|] eqn:Hrow.
  - rewrite (getGuildSettings_existing _ _ _ Hrow). simpl.
    destruct (truthy (js_of_sql (GuildSettings.notifications_enabled r))) eqn:Hn;
      simpl; [|discriminate].
    destruct (truthy (js_of_sql (GuildSettings.log_channel_id r))) eqn:Hl;
      simpl; [|discriminate].
    destruct (Scheduler.cache_get g _) as [channel|] eqn:Hc; [|discriminate].
    destruct delivers; [|discriminate].
    intros H. injection H as <- <- <-.
    apply cache_get_some in Hc. destruct Hc as [Hv Hin].
    split; [reflexivity|]. split; [reflexivity|]. split; [exact Hin|].
    split; [|reflexivity]. exists r. split; [reflexivity|]. split; [exact Hn|].
    destruct (GuildSettings.log_channel_id r); simpl in Hv; congruence.
  - rewrite (getGuildSettings_new _ _ Hrow). simpl. discriminate.
Qed.

(** X17.  For a community that has no settings row the weekly job sends
    nothing, and yet it changes the store: it leaves the default row
    behind. *)
Theorem weekly_report_for_a_new_community (db : database) (now now' : Z)
    (g : Scheduler.guild) (delivers : bool) :
  Queries.select_guild_settings (guild_settings db) (Scheduler.id g) = None ->
  Scheduler.sendWeeklyReport db now now' g delivers
  = (with_guild_settings db
       (guild_settings db ++ [GuildSettings.default_row (Scheduler.id g)]),
     Ok Scheduler.Skipped).
Proof.
  intros Hnew. unfold Scheduler.sendWeeklyReport.
  now rewrite (getGuildSettings_new _ _ Hnew).
Qed.

(** X18.  The channel chosen in a settings session is where the weekly
    report goes: for a community whose row has notifications on, after
    the action [set_log_channel] with a channel of the guild's cache,
    [sendWeeklyReport] sends to that channel whenever the body of its
    [try] goes through. *)
Theorem report_channel_set_in_session_is_used (s : SettingsCommand.session)
    (db : database) (i : SettingsCommand.component_interaction)
    (r : GuildSettings.row) (g : Scheduler.guild) (ch : string)
    (rest : list string) (now now' : Z) :
  Scheduler.id g = SettingsCommand.guild s ->
  Queries.select_guild_settings (guild_settings db) (SettingsCommand.guild s) = Some r ->
  truthy (js_of_sql (GuildSettings.notifications_enabled r)) = true ->
  SettingsCommand.customId i = "set_log_channel" ->
  SettingsCommand.values i = ch :: rest ->
  ch <> "" ->
  In ch (Scheduler.channels_cache g) ->
  exists s' db' out rep,
    SettingsCommand.on_collect s db i = Ok (s', db', out)
    /\ Scheduler.sendWeeklyReport db' now now' g true
       = (db', Ok (Scheduler.Sent ch rep)).
Proof.
  intros Hid Hrow Hn Hcid Hval Hch Hin.
  destruct (update_one_column db (SettingsCommand.guild s) "log_channel_id"
              (SqlText ch) GuildSettings.col_log_channel_id r Hrow eq_refl
              ltac:(discriminate))
    as [d [Hupd [_ [_ [_ Hsel]]]]].
  eexists _, d, _, _. split.
  - unfold SettingsCommand.on_collect. rewrite Hcid, Hval. simpl String.eqb.
    cbv iota. rewrite Hupd. reflexivity.
  - unfold Scheduler.sendWeeklyReport. rewrite Hid.
    rewrite (getGuildSettings_existing _ _ _ Hsel). simpl.
    rewrite Hn. simpl. apply String.eqb_neq in Hch. rewrite Hch. simpl.
    assert (E : existsb (String.eqb ch) (Scheduler.channels_cache g) = true).
    { apply existsb_exists. exists ch. split; [exact Hin|apply String.eqb_refl]. }
    rewrite E. reflexivity.
Qed.

End WeeklyReport.

Lemma weekly_report_only_when_configured_witness :
  Scheduler.sendWeeklyReport
    (Init.with_guild_settings Init.initDatabase
       [GuildSettings.set GuildSettings.col_log_channel_id (SqlText "7")
          (GuildSettings.default_row "1001")])
    1700000000000 1700000000001 guild_1001 true
  = (Init.with_guild_settings Init.initDatabase
       [GuildSettings.set GuildSettings.col_log_channel_id (SqlText "7")
          (GuildSettings.default_row "1001")],
     Ok (Scheduler.Sent "7"
           {| Scheduler.totalMessages := 0;
              Scheduler.change := Report.ChangeNumber 0;
              Scheduler.newMembers := 0;
              Scheduler.leftMembers := 0;
              Scheduler.contributors := "No data" |}))
  /\ In "7" (Scheduler.channels_cache guild_1001).
Proof.
  assert (H : Scheduler.sendWeeklyReport
                (Init.with_guild_settings Init.initDatabase
                   [GuildSettings.set GuildSettings.col_log_channel_id (SqlText "7")
                      (GuildSettings.default_row "1001")])
                1700000000000 1700000000001 guild_1001 true
              = (Init.with_guild_settings Init.initDatabase
                   [GuildSettings.set GuildSettings.col_log_channel_id (SqlText "7")
                      (GuildSettings.default_row "1001")],
                 Ok (Scheduler.Sent "7"
                       {| Scheduler.totalMessages := 0;
                          Scheduler.change := Report.ChangeNumber 0;
                          Scheduler.newMembers := 0;
                          Scheduler.leftMembers := 0;
                          Scheduler.contributors := "No data" |})))
    by (vm_compute; reflexivity).
  split; [exact H|].
  exact (proj1 (proj2 (proj2 (weekly_report_only_when_configured _ _ _ _ _ _ _ _ H)))).
Defined.

Lemma weekly_report_for_a_new_community_witness :
  Queries.select_guild_settings (Init.guild_settings Init.initDatabase)
    (Scheduler.id guild_1001) = None
  /\ Scheduler.sendWeeklyReport Init.initDatabase 1700000000000 1700000000001
       guild_1001 true
     = (Init.with_guild_settings Init.initDatabase [GuildSettings.default_row "1001"],
        Ok Scheduler.Skipped).
Proof.
  split; [reflexivity|].
  exact (weekly_report_for_a_new_community Init.initDatabase 1700000000000
           1700000000001 guild_1001 true eq_refl).
Defined.

Lemma report_channel_set_in_session_is_used_witness :
  exists s' db' out rep,
    SettingsCommand.on_collect
      {| SettingsCommand.guild := "1001"; SettingsCommand.operator := "42";
         SettingsCommand.created_at := 0;
         SettingsCommand.settings := SettingsObject.literal "1001";
         SettingsCommand.tracked := "All channels" |}
      (Init.with_guild_settings Init.initDatabase [GuildSettings.default_row "1001"])
      {| SettingsCommand.user_id := "42";
         SettingsCommand.customId := "set_log_channel";
         SettingsCommand.values := ["7"] |}
    = Ok (s', db', out)
    /\ Scheduler.sendWeeklyReport db' 1700000000000 1700000000001 guild_1001 true
       = (db', Ok (Scheduler.Sent "7" rep)).
Proof.
  refine (report_channel_set_in_session_is_used
            {| SettingsCommand.guild := "1001"; SettingsCommand.operator := "42";
               SettingsCommand.created_at := 0;
               SettingsCommand.settings := SettingsObject.literal "1001";
               SettingsCommand.tracked := "All channels" |}
            (Init.with_guild_settings Init.initDatabase
               [GuildSettings.default_row "1001"])
            {| SettingsCommand.user_id := "42";
               SettingsCommand.customId := "set_log_channel";
               SettingsCommand.values := ["7"] |}
            (GuildSettings.default_row "1001") guild_1001 "7" []
            1700000000000 1700000000001
            eq_refl eq_refl eq_refl eq_refl eq_refl _ _).
  - discriminate.
  - simpl. now left.
Defined.

(** ** What the commands show *)

Section CommandTexts.
Import Init.

Lemma length_append (a b : string) :
  String.length (a ++ b) = (String.length a + String.length b)%nat.
Proof.
  induction a as [|ch a IH]; simpl; [reflexivity|]. now rewrite IH.
Qed.

Lemma concat_length_ge (sep x : string) (l : list string) :
  (String.length x <= String.length (String.concat sep (x :: l)))%nat.
Proof.
  destruct l as [|y l]; simpl; [lia|]. rewrite length_append. lia.
Qed.

Lemma join_or_no_data_iff (lines : list string) :
  Forall (fun line => (7 < String.length line)%nat) lines ->
  (ReportCommand.join_or_no_data lines = "No data" <-> lines = []).
Proof.
  intros Hlong. split.
  - destruct lines as [|x l]; [reflexivity|].
    inversion Hlong as [|? ? Hx _]; subst.
    pose proof (concat_length_ge ReportCommand.newline x l) as Hge.
    unfold ReportCommand.join_or_no_data.
    destruct (String.eqb_spec (String.concat ReportCommand.newline (x :: l)) "")
      as [E|E].
    + rewrite E in Hge. simpl in Hge. lia.
    + intros H. rewrite H in Hge. simpl in Hge. lia.
  - intros ->. reflexivity.
Qed.

Lemma user_lines_long (fetch : ReportCommand.directory) (i : nat)
    (ranking : list (string * nat)) :
  Forall (fun line => (7 < String.length line)%nat)
    (ReportCommand.user_lines fetch i ranking).
Proof.
  revert i. induction ranking as [|[id count] ranking IH]; intros i;
    cbn [ReportCommand.user_lines]; constructor; [|apply IH].
  rewrite !length_append. cbn [String.length]. lia.
Qed.

Lemma channel_lines_long (fetch : ReportCommand.directory) (i : nat)
    (ranking : list (string * nat)) :
  Forall (fun line => (7 < String.length line)%nat)
    (ReportCommand.channel_lines fetch i ranking).
Proof.
  revert i. induction ranking as [|[id count] ranking IH]; intros i;
    cbn [ReportCommand.channel_lines]; constructor; [|apply IH].
  rewrite !length_append. cbn [String.length]. lia.
Qed.

Lemma user_lines_nil (fetch : ReportCommand.directory) (i : nat)
    (ranking : list (string * nat)) :
  ReportCommand.user_lines fetch i (firstn 5 ranking) = [] <-> ranking = [].
Proof.
  destruct ranking as [|[id count] ranking]; simpl; split; intros H;
    try reflexivity; discriminate.
Qed.

Lemma channel_lines_nil (fetch : ReportCommand.directory) (i : nat)
    (ranking : list (string * nat)) :
  ReportCommand.channel_lines fetch i (firstn 5 ranking) = [] <-> ranking = [].
Proof.
  destruct ranking as [|[id count] ranking]; simpl; split; intros H;
    try reflexivity; discriminate.
Qed.

Lemma total_zero_iff_rankings (db : database) (now : Z) (g : string)
    (p : Queries.period) :
  (Queries.a_totalMessages (Queries.getAnalytics db now g p) = 0%nat
   <-> Queries.a_topUsers (Queries.getAnalytics db now g p) = [])
  /\ (Queries.a_totalMessages (Queries.getAnalytics db now g p) = 0%nat
      <-> Queries.a_topChannels (Queries.getAnalytics db now g p) = []).
Proof.
  change (Queries.a_totalMessages (Queries.getAnalytics db now g p))
    with (List.length
            (List.filter (Queries.in_window g (now - Queries.timeRange p))
               (messages db))).
  change (Queries.a_topUsers (Queries.getAnalytics db now g p))
    with (Queries.top10 Messages.user_id
            (List.filter (Queries.in_window g (now - Queries.timeRange p))
               (messages db))).
  change (Queries.a_topChannels (Queries.getAnalytics db now g p))
    with (Queries.top10 Messages.channel_id
            (List.filter (Queries.in_window g (now - Queries.timeRange p))
               (messages db))).
  rewrite !top10_nil, length_zero_iff_nil. tauto.
Qed.

(** X19.  The overview and the weekly report say "No data" for the top
    contributors exactly when the community has no message in the
    window, and likewise for the most active channels: a name that
    Discord no longer resolves never empties the field. *)
Theorem no_data_only_without_messages (db : database) (now : Z) (g : string)
    (p : Queries.period) (fetch_member fetch_channel : ReportCommand.directory) :
  (ReportCommand.topUsersText fetch_member (Queries.getAnalytics db now g p)
   = "No data"
   <-> Queries.a_totalMessages (Queries.getAnalytics db now g p) = 0%nat)
  /\ (ReportCommand.topChannelsText fetch_channel (Queries.getAnalytics db now g p)
      = "No data"
      <-> Queries.a_totalMessages (Queries.getAnalytics db now g p) = 0%nat).
Proof.
  destruct (total_zero_iff_rankings db now g p) as [Hu Hc].
  unfold ReportCommand.topUsersText, ReportCommand.topChannelsText.
  rewrite (join_or_no_data_iff _ (user_lines_long fetch_member 0 _)).
  rewrite (join_or_no_data_iff _ (channel_lines_long fetch_channel 0 _)).
  rewrite user_lines_nil, channel_lines_nil. tauto.
Qed.

End CommandTexts.

Section CommandRankings.
Import Init.

(** X20.  /stats names the busiest author: it says "No data" exactly
    when the last 7 days have no message of the community, and
    otherwise the author it shows has the count of their own messages
    in the window, and no author of the window has more. *)
Theorem stats_names_the_busiest (db : database) (now : Z) (g : string)
    (fetch_member : ReportCommand.directory) :
  (ReportCommand.topUserText fetch_member (Queries.getAnalytics db now g Queries.week)
   = "No data"
   <-> Queries.a_totalMessages (Queries.getAnalytics db now g Queries.week) = 0%nat)
  /\ forall u n rest,
       Queries.a_topUsers (Queries.getAnalytics db now g Queries.week) = (u, n) :: rest ->
       n = messages_by db g (now - Queries.timeRange Queries.week) u
       /\ forall m,
            In m (messages db) ->
            Messages.guild_id m = g ->
            now - Queries.timeRange Queries.week <= Messages.timestamp m ->
            (messages_by db g (now - Queries.timeRange Queries.week)
               (Messages.user_id m) <= n)%nat.
Proof.
  split.
  - rewrite (proj1 (total_zero_iff_rankings db now g Queries.week)).
    unfold ReportCommand.topUserText.
    destruct (Queries.a_topUsers (Queries.getAnalytics db now g Queries.week))
      as [|[id count] rest].
    + tauto.
    + split; [|discriminate]. intros H. apply (f_equal String.length) in H.
      destruct (fetch_member id); rewrite !length_append in H;
        cbn [String.length] in H; lia.
  - change (Queries.a_topUsers (Queries.getAnalytics db now g Queries.week))
      with (Queries.top10 Messages.user_id
              (List.filter
                 (Queries.in_window g (now - Queries.timeRange Queries.week))
                 (messages db))).
    set (window := List.filter _ (messages db)).
    intros u n rest Htop.
    destruct (top10_spec Messages.user_id window) as [_ [Hsorted [_ Hspec]]].
    rewrite Htop in Hsorted, Hspec.
    destruct (Hspec u n (or_introl eq_refl)) as [Hn _].
    split; [now rewrite messages_by_count_key|].
    intros m Hm Hg Ht. rewrite messages_by_count_key. fold window.
    assert (Hw : In m window).
    { apply filter_In. split; [exact Hm|]. now apply in_window_iff. }
    destruct (top10_keeps_the_largest Messages.user_id window m Hw) as [Hin|[_ Hall]].
    + rewrite Htop in Hin. destruct Hin as [Heq|Hin].
      * injection Heq as _ <-. lia.
      * inversion Hsorted as [|? ? _ Hhead]; subst.
        exact (proj1 (Forall_forall _ _) Hhead _ Hin).
    + rewrite Htop in Hall. exact (Hall u n (or_introl eq_refl)).
Qed.

(** X21.  The bar charts of /report show the whole ranking, for the
    authors and for the channels alike: the second cut to 10 entries
    drops nothing, the bars are the counts in ranking order, and each
    label is the name that Discord gives for the id of its bar, or the
    placeholder; so either chart has as many labels as bars, at most 10,
    and its bars add up to at most the total. *)
Theorem bar_report_shows_the_ranking (db : database) (now now' : Z) (g : string)
    (p : Queries.period) (fetch_member fetch_channel : ReportCommand.directory) :
  ReportCommand.execute db now now' g p (Some ReportCommand.users)
    fetch_member fetch_channel
  = ReportCommand.BarReport
      (map snd (Queries.a_topUsers (Queries.getAnalytics db now g p)))
      (map (fun u => ReportCommand.user_label fetch_member (fst u))
         (Queries.a_topUsers (Queries.getAnalytics db now g p)))
  /\ ReportCommand.execute db now now' g p (Some ReportCommand.channels)
       fetch_member fetch_channel
     = ReportCommand.BarReport
         (map snd (Queries.a_topChannels (Queries.getAnalytics db now g p)))
         (map (fun c => ReportCommand.channel_label fetch_channel (fst c))
            (Queries.a_topChannels (Queries.getAnalytics db now g p)))
  /\ (List.length (Queries.a_topUsers (Queries.getAnalytics db now g p)) <= 10)%nat
  /\ (list_sum (map snd (Queries.a_topUsers (Queries.getAnalytics db now g p)))
      <= Queries.a_totalMessages (Queries.getAnalytics db now g p))%nat
  /\ (List.length (Queries.a_topChannels (Queries.getAnalytics db now g p)) <= 10)%nat
  /\ (list_sum (map snd (Queries.a_topChannels (Queries.getAnalytics db now g p)))
      <= Queries.a_totalMessages (Queries.getAnalytics db now g p))%nat.
Proof.
  change (Queries.a_topUsers (Queries.getAnalytics db now g p))
    with (Queries.top10 Messages.user_id
            (List.filter (Queries.in_window g (now - Queries.timeRange p))
               (messages db))).
  change (Queries.a_topChannels (Queries.getAnalytics db now g p))
    with (Queries.top10 Messages.channel_id
            (List.filter (Queries.in_window g (now - Queries.timeRange p))
               (messages db))).
  change (Queries.a_totalMessages (Queries.getAnalytics db now g p))
    with (List.length
            (List.filter (Queries.in_window g (now - Queries.timeRange p))
               (messages db))).
  set (window := List.filter _ (messages db)).
  destruct (top10_spec Messages.user_id window) as [Hu _].
  destruct (top10_spec Messages.channel_id window) as [Hc _].
  split; [|split; [|split; [exact Hu|split; [|split; [exact Hc|]]]]].
  - unfold ReportCommand.execute. cbv beta iota zeta.
    change (Queries.a_topUsers (Queries.getAnalytics db now g p))
      with (Queries.top10 Messages.user_id window).
    rewrite (firstn_all2 (Queries.top10 Messages.user_id window)) by exact Hu.
    now rewrite !map_map.
  - unfold ReportCommand.execute. cbv beta iota zeta.
    change (Queries.a_topChannels (Queries.getAnalytics db now g p))
      with (Queries.top10 Messages.channel_id window).
    rewrite (firstn_all2 (Queries.top10 Messages.channel_id window)) by exact Hc.
    now rewrite !map_map.
  - exact (proj1 (top10_total Messages.user_id window)).
  - exact (proj1 (top10_total Messages.channel_id window)).
Qed.

End CommandRankings.

Section ToggleTwice.
Import Init.

Lemma set_enabled_back (r : GuildSettings.row) (v w : sqlval) :
  GuildSettings.enabled r = w ->
  GuildSettings.set GuildSettings.col_enabled w
    (GuildSettings.set GuildSettings.col_enabled v r) = r.
Proof. intros <-. now destruct r. Qed.

(** X22.  Toggling tracking twice in a session is the identity on a
    setting that holds 0 or 1: when the session's copy and the stored
    row agree on that value, both actions go through, and afterwards
    the row and the copy are what they were. *)
Theorem toggle_twice_restores (s : SettingsCommand.session) (db : database)
    (i : SettingsCommand.component_interaction) (r : GuildSettings.row) (b : Z) :
  Queries.select_guild_settings (guild_settings db) (SettingsCommand.guild s) = Some r ->
  SettingsCommand.customId i = "toggle_tracking" ->
  b = 0 \/ b = 1 ->
  GuildSettings.enabled r = SqlInt b ->
  SettingsObject.enabled (SettingsCommand.settings s) = JsNum b ->
  exists s1 db1 out1 s2 db2 out2,
    SettingsCommand.on_collect s db i = Ok (s1, db1, out1)
    /\ SettingsCommand.on_collect s1 db1 i = Ok (s2, db2, out2)
    /\ Queries.select_guild_settings (guild_settings db2) (SettingsCommand.guild s)
       = Some r
    /\ SettingsCommand.settings s2 = SettingsCommand.settings s.
Proof.
  intros Hrow Hid Hb Hstored Hcopy.
  destruct (toggle_tracking_goes_through s db i r Hrow Hid)
    as [db1 [out1 [Hfirst [Hsel1 _]]]].
  set (s1 := SettingsCommand.with_settings s
               (SettingsCommand.set_enabled (SettingsCommand.settings s)
                  (JsNum (SettingsCommand.flip
                            (SettingsObject.enabled (SettingsCommand.settings s)))))) in *.
  destruct (toggle_tracking_goes_through s1 db1 i _ Hsel1 Hid)
    as [db2 [out2 [Hsecond [Hsel2 _]]]].
  exists s1, db1, out1. eexists _, db2, out2.
  split; [exact Hfirst|]. split; [exact Hsecond|].
  assert (Hflip : SettingsCommand.flip (SettingsObject.enabled (SettingsCommand.settings s1))
                  = b).
  { unfold s1. cbn [SettingsCommand.settings SettingsCommand.with_settings
                     SettingsObject.enabled SettingsCommand.set_enabled].
    rewrite Hcopy. destruct Hb as [-> | ->]; reflexivity. }
  split.
  - change (SettingsCommand.guild s1) with (SettingsCommand.guild s) in Hsel2.
    rewrite Hsel2, Hflip. f_equal. now apply set_enabled_back.
  - rewrite Hflip. unfold s1.
    cbn [SettingsCommand.settings SettingsCommand.with_settings].
    rewrite <- Hcopy. now destruct (SettingsCommand.settings s).
Qed.

Lemma toggle_twice_restores_witness :
  exists s1 db1 out1 s2 db2 out2,
    SettingsCommand.on_collect
      {| SettingsCommand.guild := "1001"; SettingsCommand.operator := "42";
         SettingsCommand.created_at := 0;
         SettingsCommand.settings := SettingsObject.literal "1001";
         SettingsCommand.tracked := "All channels" |}
      (with_guild_settings initDatabase [GuildSettings.default_row "1001"])
      {| SettingsCommand.user_id := "42";
         SettingsCommand.customId := "toggle_tracking";
         SettingsCommand.values := [] |}
    = Ok (s1, db1, out1)
    /\ SettingsCommand.on_collect s1 db1
         {| SettingsCommand.user_id := "42";
            SettingsCommand.customId := "toggle_tracking";
            SettingsCommand.values := [] |}
       = Ok (s2, db2, out2)
    /\ Queries.select_guild_settings (guild_settings db2) "1001"
       = Some (GuildSettings.default_row "1001")
    /\ SettingsCommand.settings s2 = SettingsObject.literal "1001".
Proof.
  refine (toggle_twice_restores
            {| SettingsCommand.guild := "1001"; SettingsCommand.operator := "42";
               SettingsCommand.created_at := 0;
               SettingsCommand.settings := SettingsObject.literal "1001";
               SettingsCommand.tracked := "All channels" |}
            (with_guild_settings initDatabase [GuildSettings.default_row "1001"])
            {| SettingsCommand.user_id := "42";
               SettingsCommand.customId := "toggle_tracking";
               SettingsCommand.values := [] |}
            (GuildSettings.default_row "1001") 1
            eq_refl eq_refl _ eq_refl eq_refl).
  now right.
Defined.

End ToggleTwice.
